(** * FinanceAnalyzer: statement parsing, classification and tax estimation

    A shallow embedding of the core of the back end:

    - [Core/analyzer/tax_calculator.py]   (module [tax_calculator])
    - [Core/analyzer/expense_analyzer.py] (module [expense_analyzer])
    - [Core/analyzer/income_analyzer.py]  (module [income_analyzer])
    - [Core/parser/kaspi_parser.py]       (module [kaspi_parser])
    - [Core/parser/base_parser.py]        (module [base_parser])
    - [Controllers/analysis_controller.py], [process_statement_file]
      (module [analysis_controller]) and the summary that
      [get_detailed_analysis] and [guest_analysis] both build
      (modules [detailed_analysis] and [statement_query])
    - [Models/statement.py], [validate_file_extension] (module [upload])

    Python floats are modelled by exact rationals ([Qc], canonical
    rationals with Leibniz equality): every statement about sums and
    shares below is a statement about exact arithmetic.  Strings are byte
    strings holding UTF-8, so the substring test on them agrees with
    Python's test on code points.

    The two analyzers are embedded a second time over an arithmetic that
    is a parameter (modules [arith] and [generic]), with two instances:
    the exact rationals, where the embedding is the one above, and
    binary64 floats with their rounding and their not-a-number.  What
    depends on the order of the amounts only is stated there; what is
    exact only without rounding is shown to fail on floats. *)

From Stdlib Require Import List String Ascii Bool Arith ZArith Lia.
From Stdlib Require Import DecimalString Permutation Sorted.
From Stdlib Require Import QArith Qcanon.
From Stdlib Require Qcabs.
From Stdlib Require Floats.PrimFloat.
Import ListNotations.

Local Open Scope Qc_scope.
Local Open Scope string_scope.
Local Open Scope list_scope.

(** ** Numbers *)

Module num.

(** An integer literal read as a float. *)
Definition of_Z (z : Z) : Qc := Q2Qc (inject_Z z).

(** [a < b], [a > b] as Python evaluates them on numbers. *)
Definition ltb (a b : Qc) : bool :=
  match Qccompare a b with Lt => true | _ => false end.

Definition gtb (a b : Qc) : bool := ltb b a.

Definition eqb (a b : Qc) : bool :=
  match Qccompare a b with Eq => true | _ => false end.

(** [max(a, b)]: the first argument unless the second is strictly larger. *)
Definition py_max (a b : Qc) : Qc := if gtb b a then b else a.

(** [sum(xs)]: left to right from [0]. *)
Definition py_sum (xs : list Qc) : Qc := fold_left Qcplus xs 0.

End num.

(** ** Python strings *)

Module pystr.

(** [sub in s]. *)
Fixpoint contains (sub s : string) : bool :=
  String.prefix sub s ||
  match s with
  | EmptyString => false
  | String _ rest => contains sub rest
  end.

(** [any(keyword in s for keyword in keywords)]. *)
Definition any_in (keywords : list string) (s : string) : bool :=
  existsb (fun keyword => contains keyword s) keywords.

(** [s.replace(a, b)] for one-character [a] and [b]. *)
Fixpoint replace_char (a b : ascii) (s : string) : string :=
  match s with
  | EmptyString => EmptyString
  | String c rest =>
      String (if Ascii.eqb c a then b else c) (replace_char a b rest)
  end.

(** [s.replace(a, '')] for a one-character [a]. *)
Fixpoint remove_char (a : ascii) (s : string) : string :=
  match s with
  | EmptyString => EmptyString
  | String c rest =>
      if Ascii.eqb c a then remove_char a rest else String c (remove_char a rest)
  end.

(** [\d], read on bytes: the ASCII digits. *)
Definition is_digit (c : ascii) : bool :=
  let n := nat_of_ascii c in (48 <=? n)%nat && (n <=? 57)%nat.

(** [re.sub(r'[^\d.,]', '', s)]. *)
Fixpoint keep_amount_chars (s : string) : string :=
  match s with
  | EmptyString => EmptyString
  | String c rest =>
      if is_digit c || Ascii.eqb c "." || Ascii.eqb c ","
      then String c (keep_amount_chars rest)
      else keep_amount_chars rest
  end.

(** [re.match(r'\d{2}\.\d{2}\.\d{4}', s)] as a truth value: the pattern is
    anchored at the start of [s] only. *)
Definition match_date_prefix (s : string) : bool :=
  match s with
  | String d1 (String d2 (String p1 (String m1 (String m2 (String p2
      (String y1 (String y2 (String y3 (String y4 _))))))))) =>
      is_digit d1 && is_digit d2 && Ascii.eqb p1 "." &&
      is_digit m1 && is_digit m2 && Ascii.eqb p2 "." &&
      is_digit y1 && is_digit y2 && is_digit y3 && is_digit y4
  | _ => false
  end.

(** [s.split('.')[-1]]: what follows the last dot, or [s] when it has none. *)
Fixpoint last_component_from (acc s : string) : string :=
  match s with
  | EmptyString => acc
  | String c rest =>
      if Ascii.eqb c "." then last_component_from rest rest
      else last_component_from acc rest
  end.

Definition split_dot_last (s : string) : string := last_component_from s s.

(** Truth value of a string. *)
Definition truthy (s : string) : bool :=
  match s with EmptyString => false | _ => true end.

End pystr.

(** ** Dates *)

Module datetime.

Record t := mk { year : nat; month : nat; day : nat }.

(** Decimal digits of [n], left-padded with zeros to [width]. *)
Fixpoint zeros (k : nat) : string :=
  match k with O => EmptyString | S k' => String "0" (zeros k') end.

Definition zero_pad (width n : nat) : string :=
  let digits := NilEmpty.string_of_uint (Nat.to_uint n) in
  (zeros (width - String.length digits) ++ digits)%string.

(** [d.strftime("%Y-%m")]. *)
Definition strftime_Y_m (d : t) : string :=
  (zero_pad 4 (year d) ++ "-" ++ zero_pad 2 (month d))%string.

End datetime.

(** ** Transactions

    The dict a parser builds for one statement line and the analyzers read
    with [t.get(key, default)]; [None] stands for a key the dict lacks. *)

Module txn.

Record t := mk {
  date : option datetime.t;
  description : option string;
  amount : option Qc;
  is_income : option bool;
  reference : option string;
  category : option string
}.

(** [t.get("amount", 0)] *)
Definition get_amount (x : t) : Qc :=
  match amount x with Some a => a | None => 0 end.

(** [t.get("category", "Другое")] *)
Definition get_category (x : t) : string :=
  match category x with Some c => c | None => "Другое" end.

(** [t.get("description", "")] *)
Definition get_description (x : t) : string :=
  match description x with Some d => d | None => "" end.

(** [t.get("is_income", default)] *)
Definition get_is_income (x : t) (default : bool) : bool :=
  match is_income x with Some b => b | None => default end.

End txn.

(** ** Table cells

    A value pandas puts in a row dict: a string, a finite number, a
    datetime, or nothing.  Not-a-number cells are outside the model. *)

Module cell.

Inductive t :=
| Str (s : string)
| Num (x : Qc)
| Date (d : datetime.t)
| NoneValue.

(** Truth value of a cell, as [not value] reads it. *)
Definition truthy (v : t) : bool :=
  match v with
  | Str s => pystr.truthy s
  | Num x => negb (num.eqb x 0)
  | Date _ => true
  | NoneValue => false
  end.

End cell.

(** A row dict, in column order; [row_get] is [row.get(column)]. *)
Definition row := list (string * cell.t).

Fixpoint row_get (r : row) (column : string) : cell.t :=
  match r with
  | [] => cell.NoneValue
  | (k, v) :: rest => if String.eqb k column then v else row_get rest column
  end.

(** ** The Python library

    Library functions whose full behaviour is outside this repository are an
    interface: every theorem below holds for whatever these functions do. *)

Class Python := {
  (** [s.lower()] *)
  lower : string -> string;
  (** [s.strip()] *)
  strip : string -> string;
  (** [datetime.strptime(s, fmt)]; [None] when it raises [ValueError] *)
  strptime : string -> string -> option datetime.t;
  (** [float(s)] on a string; [None] when it raises [ValueError] *)
  float_of_str : string -> option Qc;
  (** [str(x)] on a float and on a datetime *)
  str_of_float : Qc -> string;
  str_of_datetime : datetime.t -> string
}.

(** [re.finditer(pattern, text, re.MULTILINE)] for the two patterns of the
    PDF parser, each match given by its groups.  [transaction_pattern] is
    [(\d{2}\.\d{2}\.\d{4})\s+(.+?)\s+([\d\s,.]+)\s*(тг|₸)?\s+(приход|расход)]
    and [alt_pattern] is
    [(\d{2}\.\d{2}\.\d{4})\s+(.+?)\s+([\d\s,.]+)\s*(KZT|тг|₸)]. *)
Class Regex := {
  finditer_transaction_pattern :
    string -> list (string * string * string * option string * string);
  finditer_alt_pattern :
    string -> list (string * string * string * string)
}.

(** What a call does: it returns or it raises. *)
Inductive exn :=
| ModuleNotFoundError
| UnboundLocalError
| KeyError
| OtherError.

Inductive outcome (A : Type) :=
| Return (a : A)
| Raise (e : exn).
Arguments Return {A} a.
Arguments Raise {A} e.

(** [pd.read_csv(...)] followed by [to_dict("records")]. *)
Inductive csv_read :=
| CsvData (data : list row)
| CsvUnicodeDecodeError
| CsvOtherError.

(** The outside world the parsers and the controller touch.  The module
    [Core/parser/halyk_parser.py] is not among the sources: whether it can
    be imported and what its parsers return are part of the world. *)
Class World := {
  (** [os.path.isfile(path)] *)
  isfile : string -> bool;
  (** [pdfplumber.open(path).pages], each page by what [extract_text()]
      does: it raises ([None]), or returns [None] or a string; the whole is
      [None] when opening raises *)
  pdf_pages : string -> option (list (option (option string)));
  (** [pd.read_excel(path, engine=engine).to_dict("records")]; [None] when
      it raises *)
  read_excel : string -> string -> option (list row);
  (** [pd.read_csv(path, encoding=, delimiter=).to_dict("records")] *)
  read_csv : string -> string -> string -> csv_read;
  (** whether [from Core.parser.halyk_parser import ...] succeeds *)
  halyk_parser_found : bool;
  (** [parse_file(path)] of the Halyk parser for a file format *)
  halyk_parse_file : string -> string -> outcome (list txn.t);
  (** [datetime.now()] *)
  now : datetime.t
}.

(** ** What the two analyzers share: dicts of sums and the keyword scan *)

Module analyzer.

(** A [defaultdict(float)] with string keys, in insertion order. *)
Definition sums := list (string * Qc).

(** [d[key] += v] *)
Fixpoint add (d : sums) (key : string) (v : Qc) : sums :=
  match d with
  | [] => [(key, 0 + v)]
  | (k, x) :: rest =>
      if String.eqb k key then (k, x + v) :: rest else (k, x) :: add rest key v
  end.

(** [sum(d.values())] *)
Definition total (d : sums) : Qc := num.py_sum (map snd d).

(** [d[key]], a key not yet seen reading as [0.0]. *)
Fixpoint value_of (d : sums) (key : string) : Qc :=
  match d with
  | [] => 0
  | (k, x) :: rest => if String.eqb k key then x else value_of rest key
  end.

(** [sorted(xs, key=key, reverse=True)]: descending and stable, equal keys
    keep the order they came in. *)
Fixpoint insert_desc {A} (key : A -> Qc) (x : A) (sorted : list A) : list A :=
  match sorted with
  | [] => [x]
  | y :: rest =>
      if num.ltb (key x) (key y) then y :: insert_desc key x rest
      else x :: y :: rest
  end.

Definition sorted_desc {A} (key : A -> Qc) (xs : list A) : list A :=
  fold_right (insert_desc key) [] xs.

(** Labels with their keywords, in declaration order. *)
Definition rules := list (string * list string).

Section Scan.
Context `{Python}.

(** The inner loop: [for keyword in keywords: if keyword.lower() in
    description: ... break]; true when a keyword was found. *)
Fixpoint scan_keywords (keywords : list string) (description : string) : bool :=
  match keywords with
  | [] => false
  | keyword :: rest =>
      if pystr.contains (lower keyword) description then true
      else scan_keywords rest description
  end.

(** The outer loop over the rules with its [found] flag: the first rule with
    a keyword in the description gets the amount and the loop stops. *)
Fixpoint scan_rules (rs : rules) (description : string) (amount : Qc)
         (d : sums) : sums * bool :=
  match rs with
  | [] => (d, false)
  | (label, keywords) :: rest =>
      if scan_keywords keywords description then (add d label amount, true)
      else scan_rules rest description amount d
  end.

(** The body of [for transaction in transactions]. *)
Definition classify_into (rs : rules) (d : sums) (transaction : txn.t) : sums :=
  let description := lower (txn.get_description transaction) in
  let amount := txn.get_amount transaction in
  let '(d', found) := scan_rules rs description amount d in
  if found then d' else add d' "Другое" amount.

(** The loop over the transactions, from an empty dict. *)
Definition classify_all (rs : rules) (transactions : list txn.t) : sums :=
  fold_left (classify_into rs) transactions [].

End Scan.

(** [amount / sum * 100 if sum > 0 else 0] *)
Definition percentage_of (amount sum : Qc) : Qc :=
  if num.gtb sum 0 then amount / sum * num.of_Z 100 else 0.

(** Grouping by stored category: [d[t.get("category", "Другое")] +=
    t.get("amount", 0)] over the transactions. *)
Definition group_by_category (transactions : list txn.t) : sums :=
  fold_left (fun d x => add d (txn.get_category x) (txn.get_amount x))
            transactions [].

(** Grouping by month of the transactions that carry a date. *)
Definition group_by_month (transactions : list txn.t) : sums :=
  fold_left (fun d x =>
               match txn.date x with
               | Some date => add d (datetime.strftime_Y_m date) (txn.get_amount x)
               | None => d
               end)
            transactions [].

(** [xs[0]] and [xs[-1]] of a list that may be empty ([x if xs else None]). *)
Definition first_or_none {A} (xs : list A) : option A := hd_error xs.

Fixpoint last_or_none {A} (xs : list A) : option A :=
  match xs with
  | [] => None
  | [x] => Some x
  | _ :: rest => last_or_none rest
  end.

End analyzer.

(** ** Core/analyzer/expense_analyzer.py *)

Module expense_analyzer.

(** [category_keywords], in declaration order. *)
Definition category_keywords : analyzer.rules :=
  [ ("Аренда",
     [ "аренда"; "съем"; "rent"; "недвижимость"; "офис"; "помещение" ]);
    ("Коммунальные услуги",
     [ "коммунальные"; "электричество"; "вода"; "газ"; "отопление"; "utility";
      "электроэнергия"; "жкх"; "квартплата" ]);
    ("Зарплата",
     [ "зарплата"; "оклад"; "аванс"; "заработная плата"; "вознаграждение";
      "платеж"; "сотрудник"; "зп"; "з/п"; "оплата труда"; "salary"; "wage" ]);
    ("Налоги",
     [ "налог"; "tax"; "сбор"; "пошлина"; "взнос"; "ндс"; "подоходный";
      "енвд"; "усн"; "налог на имущество"; "ндфл"; "налоговая" ]);
    ("Связь и интернет",
     [ "телефон"; "мобильный"; "интернет"; "связь"; "телеком"; "билайн";
      "мтс"; "мегафон"; "теле2"; "beeline"; "telephone"; "internet";
      "сотовый"; "роутер"; "хостинг"; "domain" ]);
    ("Канцелярские товары",
     [ "канцелярия"; "канцтовары"; "бумага"; "ручки"; "office supplies";
      "канц"; "печать"; "принтер"; "заправка картриджа"; "тонер"; "картридж" ]);
    ("Транспортные расходы",
     [ "транспорт"; "такси"; "проезд"; "доставка"; "transport";
      "яндекс такси"; "uber"; "убер"; "перевозка"; "логистика"; "топливо";
      "бензин"; "дизель"; "гсм" ]);
    ("Маркетинг и реклама",
     [ "реклама"; "маркетинг"; "продвижение"; "advertising"; "marketing";
      "реклама"; "smm"; "пиар"; "pr"; "контекст"; "таргет"; "target";
      "рекламная кампания"; "рекламный"; "размещение рекламы" ]);
    ("Закупка товаров",
     [ "товар"; "закупка"; "поставка"; "запасы"; "supply"; "purchase";
      "закуп"; "поставщик"; "опт"; "wholesale"; "оптовый"; "материалы";
      "сырьё"; "сырье"; "партия товара" ]);
    ("Программное обеспечение",
     [ "программное обеспечение"; "software"; "софт"; "лицензия"; "license";
      "подписка"; "subscription"; "облако"; "cloud"; "saas"; "сервис";
      "продление"; "renewal" ]);
    ("Оборудование",
     [ "оборудование"; "компьютер"; "ноутбук"; "принтер"; "hardware";
      "устройство"; "техника"; "equipment"; "монитор"; "сервер";
      "устройство"; "гаджет"; "оргтехника" ]);
    ("Обучение и развитие",
     [ "обучение"; "курс"; "тренинг"; "семинар"; "education"; "training";
      "повышение квалификации"; "development"; "conference"; "конференция";
      "вебинар"; "мастер-класс"; "workshop" ]);
    ("Питание",
     [ "питание"; "еда"; "продукты"; "food"; "обед"; "ресторан"; "кафе";
      "столовая"; "перекус"; "lunch"; "кофе"; "coffee"; "meal"; "ужин";
      "завтрак" ]);
    ("Представительские расходы",
     [ "представительские"; "деловая встреча"; "business meeting"; "клиент";
      "переговоры"; "ресторан"; "банкет"; "entertainment"; "мероприятие";
      "event"; "hospitality" ]) ].

(** One entry of the ["categories"] list. *)
Record category_share := mk_share {
  category : string;
  amount : Qc;
  percentage : Qc
}.

(** The dict [analyze_expenses] returns. *)
Record result := mk_result {
  total : Qc;
  count : nat;
  average : Qc;
  by_category : analyzer.sums;
  by_month : analyzer.sums;
  largest : option txn.t;
  smallest : option txn.t;
  categories : list category_share
}.

Section Code.
Context `{Python}.

Definition categorize_expenses (transactions : list txn.t) : list category_share :=
  let categories := analyzer.classify_all category_keywords transactions in
  map (fun '(category, amount) =>
         mk_share category amount
                  (analyzer.percentage_of amount (analyzer.total categories)))
      (analyzer.sorted_desc snd categories).

Definition analyze_expenses (transactions : list txn.t) : result :=
  let expense_transactions :=
    filter (fun t => negb (txn.get_is_income t true)) transactions in
  match expense_transactions with
  | [] => mk_result 0 0 0 [] [] None None []
  | _ :: _ =>
      let total_expense := num.py_sum (map txn.get_amount expense_transactions) in
      let count := List.length expense_transactions in
      let average_expense :=
        if (0 <? count)%nat then total_expense / num.of_Z (Z.of_nat count) else 0 in
      let expense_by_category := analyzer.group_by_category expense_transactions in
      let expense_by_month := analyzer.group_by_month expense_transactions in
      let sorted_transactions :=
        analyzer.sorted_desc txn.get_amount expense_transactions in
      mk_result total_expense count average_expense
                expense_by_category expense_by_month
                (analyzer.first_or_none sorted_transactions)
                (analyzer.last_or_none sorted_transactions)
                (categorize_expenses expense_transactions)
  end.

End Code.

End expense_analyzer.

(** ** Core/analyzer/income_analyzer.py *)

Module income_analyzer.

(** [source_keywords], in declaration order. *)
Definition source_keywords : analyzer.rules :=
  [ ("Заработная плата",
     [ "зарплата"; "заработная плата"; "оклад"; "аванс"; "зп "; "з/п";
      "выплата"; "зар.плата"; "зар плата"; "salary"; "wage"; "payroll" ]);
    ("Перевод",
     [ "перевод"; "transfer"; "переведено"; "поступление"; "зачисление";
      "p2p"; "перевод от" ]);
    ("Возврат",
     [ "возврат"; "refund"; "возмещение"; "компенсация"; "reimbursement";
      "return" ]);
    ("Продажа товаров",
     [ "продажа"; "товар"; "sale"; "торговля"; "реализация"; "выручка";
      "товар" ]);
    ("Оказание услуг",
     [ "услуги"; "сервис"; "service"; "работы"; "консультация"; "разработка";
      "выполнение" ]);
    ("Инвестиции",
     [ "дивиденд"; "проценты"; "вклад"; "депозит"; "инвестиции"; "dividend";
      "interest"; "investment"; "доход по"; "купон" ]);
    ("Кэшбэк",
     [ "кэшбэк"; "cashback"; "кешбэк"; "кэшбек"; "возврат %";
      "возврат процента"; "бонус" ]) ].

(** One entry of the ["sources"] list. *)
Record source_share := mk_share {
  source : string;
  amount : Qc;
  percentage : Qc
}.

(** The dict [analyze_income] returns. *)
Record result := mk_result {
  total : Qc;
  count : nat;
  average : Qc;
  by_category : analyzer.sums;
  by_month : analyzer.sums;
  largest : option txn.t;
  smallest : option txn.t;
  sources : list source_share
}.

Section Code.
Context `{Python}.

Definition analyze_income_sources (transactions : list txn.t) : list source_share :=
  let sources := analyzer.classify_all source_keywords transactions in
  map (fun '(source, amount) =>
         mk_share source amount
                  (analyzer.percentage_of amount (analyzer.total sources)))
      (analyzer.sorted_desc snd sources).

Definition analyze_income (transactions : list txn.t) : result :=
  let income_transactions :=
    filter (fun t => txn.get_is_income t false) transactions in
  match income_transactions with
  | [] => mk_result 0 0 0 [] [] None None []
  | _ :: _ =>
      let total_income := num.py_sum (map txn.get_amount income_transactions) in
      let count := List.length income_transactions in
      let average_income :=
        if (0 <? count)%nat then total_income / num.of_Z (Z.of_nat count) else 0 in
      let income_by_category := analyzer.group_by_category income_transactions in
      let income_by_month := analyzer.group_by_month income_transactions in
      let sorted_transactions :=
        analyzer.sorted_desc txn.get_amount income_transactions in
      mk_result total_income count average_income
                income_by_category income_by_month
                (analyzer.first_or_none sorted_transactions)
                (analyzer.last_or_none sorted_transactions)
                (analyze_income_sources income_transactions)
  end.

End Code.

End income_analyzer.

(** ** config.py and Core/analyzer/tax_calculator.py *)

Module config.

(** [DEFAULT_TAX_RATES], in percent. *)
Definition DEFAULT_TAX_RATES : list (string * Qc) :=
  [ ("ip_simplified", num.of_Z 3);
    ("ip_general", num.of_Z 10);
    ("too_simplified", num.of_Z 3);
    ("too_general", num.of_Z 20) ].

End config.

Module tax_calculator.

(** [d.get(key, default)] on a dict with string keys. *)
Fixpoint dict_get {A} (d : list (string * A)) (key : string) (default : A) : A :=
  match d with
  | [] => default
  | (k, v) :: rest => if String.eqb k key then v else dict_get rest key default
  end.

(** The dict [calculate_tax] returns. *)
Record tax_result := mk_tax_result {
  tax_regime : string;
  tax_rate : Qc;
  tax_base : Qc;
  tax_amount : Qc;
  effective_tax_rate : Qc;
  income : Qc;
  expense : Qc;
  profit : Qc
}.

Definition calculate_tax (income expense : Qc) (tax_regime : string) : tax_result :=
  let tax_rate := dict_get config.DEFAULT_TAX_RATES tax_regime (num.of_Z 3) in
  let tax_base :=
    if String.eqb tax_regime "ip_simplified" || String.eqb tax_regime "too_simplified"
    then income
    else num.py_max 0 (income - expense) in
  let tax_amount := tax_base * (tax_rate / num.of_Z 100) in
  let effective_tax_rate :=
    if num.gtb income 0 then (tax_amount / income) * num.of_Z 100 else 0 in
  mk_tax_result tax_regime tax_rate tax_base tax_amount effective_tax_rate
                income expense (income - expense).

End tax_calculator.

(** ** Core/parser/base_parser.py *)

Module base_parser.

(** The parser classes [get_parser_for_statement] can build. *)
Inductive parser :=
| KaspiPDFParser
| KaspiExcelParser
| KaspiCSVParser
| HalykPDFParser
| HalykExcelParser
| HalykCSVParser.

(** The columns of a [StatementFile] the core reads, [Code] being
    [statement.bank.Code]. *)
Inductive ProcessingStatusEnum := PENDING | PROCESSING | COMPLETED | FAILED.

Record StatementFile := mk_statement {
  Id : nat;
  UserId : nat;
  FileName : string;
  FilePath : string;
  Code : string;
  ProcessingStatus : ProcessingStatusEnum;
  ProcessingDate : option datetime.t
}.

(** [[f(x) for x in xs]] keeping the rows a loop body does not skip. *)
Fixpoint collect {A B} (f : A -> option B) (xs : list A) : list B :=
  match xs with
  | [] => []
  | x :: rest =>
      match f x with
      | Some y => y :: collect f rest
      | None => collect f rest
      end
  end.

Section Code.
Context `{Python} `{World}.

Definition validate_file (file_path : string) : bool := isfile file_path.

Definition post_process_transactions (transactions : list txn.t) : list txn.t :=
  transactions.

(** The loop [for page in pdf.pages: text += page.extract_text() or ""];
    an exception leaves the loop with the text read so far. *)
Fixpoint read_pages (pages : list (option (option string))) (text : string) : string :=
  match pages with
  | [] => text
  | None :: _ => text
  | Some extracted :: rest =>
      read_pages rest
        (text ++ match extracted with Some t => t | None => "" end)%string
  end.

Definition extract_text_from_pdf (file_path : string) : string :=
  match pdf_pages file_path with
  | Some pages => read_pages pages ""
  | None => ""
  end.

Definition extract_data_from_excel (file_path : string) : list row :=
  let ext := lower (pystr.split_dot_last file_path) in
  let engine := if String.eqb ext "xls" then "xlrd" else "openpyxl" in
  match read_excel file_path engine with
  | Some data => data
  | None => []
  end.

(** The retry loop inside [except UnicodeDecodeError]: an exception of
    another kind raised there leaves [extract_data_from_csv]. *)
Fixpoint retry_encodings (file_path delimiter : string) (encodings : list string)
  : outcome (list row) :=
  match encodings with
  | [] => Return []
  | enc :: rest =>
      match read_csv file_path enc delimiter with
      | CsvData data => Return data
      | CsvUnicodeDecodeError => retry_encodings file_path delimiter rest
      | CsvOtherError => Raise OtherError
      end
  end.

Definition extract_data_from_csv (file_path encoding delimiter : string)
  : outcome (list row) :=
  match read_csv file_path encoding delimiter with
  | CsvData data => Return data
  | CsvUnicodeDecodeError =>
      retry_encodings file_path delimiter ["utf-8"; "cp1251"; "latin1"]
  | CsvOtherError => Return []
  end.

Definition get_parser_for_statement (statement : StatementFile)
  : outcome (option parser) :=
  if negb halyk_parser_found then Raise ModuleNotFoundError else
  let ext := lower (pystr.split_dot_last (FileName statement)) in
  if String.eqb (Code statement) "KASPI" then
    if String.eqb ext "pdf" then Return (Some KaspiPDFParser)
    else if String.eqb ext "xlsx" || String.eqb ext "xls"
         then Return (Some KaspiExcelParser)
    else if String.eqb ext "csv" then Return (Some KaspiCSVParser)
    else Return None
  else if String.eqb (Code statement) "HALYK" then
    if String.eqb ext "pdf" then Return (Some HalykPDFParser)
    else if String.eqb ext "xlsx" || String.eqb ext "xls"
         then Return (Some HalykExcelParser)
    else if String.eqb ext "csv" then Return (Some HalykCSVParser)
    else Return None
  else Return None.

End Code.

End base_parser.

(** ** Core/parser/kaspi_parser.py *)

Module kaspi_parser.
Import base_parser.

(** The five column variables of the tabular parsers; [None] as in Python. *)
Record columns := mk_columns {
  date_column : option string;
  description_column : option string;
  amount_column : option string;
  type_column : option string;
  reference_column : option string
}.

(** Truth value of a column variable. *)
Definition is_set (column : option string) : bool :=
  match column with
  | Some name => pystr.truthy name
  | None => false
  end.

(** [row.get(column)] for a column variable. *)
Definition get (r : row) (column : option string) : cell.t :=
  match column with
  | Some name => row_get r name
  | None => cell.NoneValue
  end.

Definition income_type_keywords : list string :=
  ["приход"; "поступление"; "income"; "credit"; "зачисление"].

Definition expense_type_keywords : list string :=
  ["расход"; "списание"; "expense"; "debit"].

Definition income_keywords : list string :=
  ["поступление"; "зачисление"; "возврат"; "перевод на счет"].

Definition expense_keywords : list string :=
  ["оплата"; "списание"; "снятие"; "перевод со счета"].

Section Code.
Context `{Python} `{Regex} `{World}.

(** [str(value)] of a cell. *)
Definition str (v : cell.t) : string :=
  match v with
  | cell.Str s => s
  | cell.Num x => str_of_float x
  | cell.Date d => str_of_datetime d
  | cell.NoneValue => "None"
  end.

(** *** KaspiPDFParser *)

(** One match of [transaction_pattern]; [None] is [continue]. *)
Definition primary_transaction
  (m : string * string * string * option string * string) : option txn.t :=
  let '(date_str, description, amount_str, currency, transaction_type) := m in
  match strptime date_str "%d.%m.%Y" with
  | None => None
  | Some date =>
      let amount_str :=
        pystr.replace_char "," "." (pystr.remove_char " " amount_str) in
      match float_of_str amount_str with
      | None => None
      | Some amount =>
          let is_income := String.eqb (lower transaction_type) "приход" in
          let amount := if negb is_income then Qcabs.Qcabs amount else amount in
          Some (txn.mk (Some date) (Some (strip description)) (Some amount)
                       (Some is_income) None None)
      end
  end.

(** The two keyword loops of the alternative format: the income keywords
    are tried first, the expense keywords after them. *)
Definition keyword_in_description (keywords : list string) (description : string)
  : bool :=
  existsb (fun keyword => pystr.contains (lower keyword) (lower description))
          keywords.

Definition alt_is_income (description : string) : bool :=
  let is_income := false in
  let is_income :=
    if keyword_in_description income_keywords description then true
    else is_income in
  let is_income :=
    if keyword_in_description expense_keywords description then false
    else is_income in
  is_income.

(** One match of [alt_pattern]. *)
Definition alt_transaction (m : string * string * string * string) : option txn.t :=
  let '(date_str, description, amount_str, currency) := m in
  match strptime date_str "%d.%m.%Y" with
  | None => None
  | Some date =>
      let amount_str :=
        pystr.replace_char "," "." (pystr.remove_char " " amount_str) in
      match float_of_str amount_str with
      | None => None
      | Some amount =>
          let is_income := alt_is_income description in
          let amount := if negb is_income then Qcabs.Qcabs amount else amount in
          Some (txn.mk (Some date) (Some (strip description)) (Some amount)
                       (Some is_income) None None)
      end
  end.

Definition pdf_parse_file (file_path : string) : list txn.t :=
  if negb (validate_file file_path) then [] else
  let text := extract_text_from_pdf file_path in
  let transactions :=
    collect primary_transaction (finditer_transaction_pattern text) in
  let transactions :=
    match transactions with
    | [] => collect alt_transaction (finditer_alt_pattern text)
    | _ :: _ => transactions
    end in
  post_process_transactions transactions.

(** *** KaspiExcelParser and KaspiCSVParser: the column search *)

(** The body of [for column in data[0].keys()]: a later column that matches
    replaces an earlier one. *)
Definition header_step (cols : columns) (column : string) : columns :=
  let column_lower := lower column in
  let cols :=
    if pystr.any_in ["дата"; "date"] column_lower
    then mk_columns (Some column) (description_column cols) (amount_column cols)
                    (type_column cols) (reference_column cols)
    else cols in
  let cols :=
    if pystr.any_in ["описание"; "назначение"; "description"] column_lower
    then mk_columns (date_column cols) (Some column) (amount_column cols)
                    (type_column cols) (reference_column cols)
    else cols in
  let cols :=
    if pystr.any_in ["сумма"; "amount"] column_lower
    then mk_columns (date_column cols) (description_column cols) (Some column)
                    (type_column cols) (reference_column cols)
    else cols in
  let cols :=
    if pystr.any_in ["тип"; "type"; "приход"; "расход"; "операция"] column_lower
    then mk_columns (date_column cols) (description_column cols) (amount_column cols)
                    (Some column) (reference_column cols)
    else cols in
  let cols :=
    if pystr.any_in ["референс"; "reference"; "номер"] column_lower
    then mk_columns (date_column cols) (description_column cols) (amount_column cols)
                    (type_column cols) (Some column)
    else cols in
  cols.

Definition header_columns (first_row : row) : columns :=
  fold_left header_step (map fst first_row)
            (mk_columns None None None None None).

(** [date_column and amount_column] as a truth value. *)
Definition mandatory_found (cols : columns) : bool :=
  is_set (date_column cols) && is_set (amount_column cols).

(** The body of [for column, value in row.items()] in the Excel parser. *)
Definition excel_sniff_cell (cols : columns) (item : string * cell.t) : columns :=
  let '(column, value) := item in
  let cols :=
    if negb (is_set (date_column cols)) &&
       match value with cell.Str s => pystr.match_date_prefix s | _ => false end
    then mk_columns (Some column) (description_column cols) (amount_column cols)
                    (type_column cols) (reference_column cols)
    else cols in
  if negb (is_set (amount_column cols)) &&
     match value with cell.Num x => negb (num.eqb x 0) | _ => false end
  then mk_columns (date_column cols) (description_column cols) (Some column)
                  (type_column cols) (reference_column cols)
  else cols.

(** The same body in the CSV parser: a string that [float] reads as a
    non-zero number names the amount column too. *)
Definition csv_sniff_cell (cols : columns) (item : string * cell.t) : columns :=
  let '(column, value) := item in
  let cols :=
    if negb (is_set (date_column cols)) &&
       match value with cell.Str s => pystr.match_date_prefix s | _ => false end
    then mk_columns (Some column) (description_column cols) (amount_column cols)
                    (type_column cols) (reference_column cols)
    else cols in
  if negb (is_set (amount_column cols)) &&
     match value with
     | cell.Str s =>
         match float_of_str (pystr.remove_char " " (pystr.replace_char "," "." s)) with
         | Some float_value => negb (num.eqb float_value 0)
         | None => false
         end
     | cell.Num x => negb (num.eqb x 0)
     | _ => false
     end
  then mk_columns (date_column cols) (description_column cols) (Some column)
                  (type_column cols) (reference_column cols)
  else cols.

(** [for row in data: for ... in row.items(): ...; if date_column and
    amount_column: break]. *)
Fixpoint sniff_rows (sniff_cell : columns -> string * cell.t -> columns)
         (data : list row) (cols : columns) : columns :=
  match data with
  | [] => cols
  | r :: rest =>
      let cols := fold_left sniff_cell r cols in
      if mandatory_found cols then cols else sniff_rows sniff_cell rest cols
  end.

(** The columns after the header search and, when a mandatory one is still
    missing, the search through the cells. *)
Definition find_columns (sniff_cell : columns -> string * cell.t -> columns)
           (data : list row) : columns :=
  match data with
  | [] => mk_columns None None None None None
  | first_row :: _ =>
      let cols := header_columns first_row in
      if negb (mandatory_found cols) then sniff_rows sniff_cell data cols
      else cols
  end.

(** *** KaspiExcelParser and KaspiCSVParser: one row

    The loop [for row in data] is the same text in both parsers. *)

(** [for date_format in [...]: try: date = strptime(...); break]. *)
Fixpoint try_formats (date_value : string) (formats : list string)
  : option datetime.t :=
  match formats with
  | [] => None
  | date_format :: rest =>
      match strptime date_value date_format with
      | Some date => Some date
      | None => try_formats date_value rest
      end
  end.

Definition parse_date (date_value : cell.t) : option datetime.t :=
  match date_value with
  | cell.Date d => Some d
  | cell.Str s => try_formats s ["%d.%m.%Y"; "%Y-%m-%d"; "%d/%m/%Y"]
  | _ => None
  end.

(** The amount of a row; [None] is the [continue] under [except
    ValueError]. *)
Definition parse_amount (cols : columns) (r : row) : option Qc :=
  if is_set (amount_column cols) then
    match get r (amount_column cols) with
    | cell.Num x => Some x
    | cell.Str s =>
        float_of_str (pystr.replace_char "," "." (pystr.keep_amount_chars s))
    | _ => Some 0
    end
  else Some 0.

(** [is_income] and the amount after the direction has been resolved. *)
Definition resolve_direction (cols : columns) (r : row) (amount : Qc) : bool * Qc :=
  if is_set (type_column cols) && cell.truthy (get r (type_column cols)) then
    let type_value := lower (str (get r (type_column cols))) in
    let is_income := pystr.any_in income_type_keywords type_value in
    let is_income :=
      if pystr.any_in expense_type_keywords type_value then false
      else is_income in
    (is_income, amount)
  else if num.ltb amount 0 then (false, Qcabs.Qcabs amount)
  else (true, amount).

(** The body of [for row in data]; [None] is [continue]. *)
Definition table_transaction (cols : columns) (r : row) : option txn.t :=
  if negb (cell.truthy (get r (date_column cols))) ||
     negb (cell.truthy (get r (amount_column cols)))
  then None else
  match parse_date (get r (date_column cols)) with
  | None => None
  | Some date =>
      let description :=
        if is_set (description_column cols) &&
           cell.truthy (get r (description_column cols))
        then str (get r (description_column cols)) else "" in
      match parse_amount cols r with
      | None => None
      | Some amount =>
          let '(is_income, amount) := resolve_direction cols r amount in
          let reference :=
            if is_set (reference_column cols) &&
               cell.truthy (get r (reference_column cols))
            then Some (str (get r (reference_column cols))) else None in
          Some (txn.mk (Some date) (Some description) (Some amount)
                       (Some is_income) reference None)
      end
  end.

(** What both parsers do with the data once it has been read. *)
Definition table_transactions (sniff_cell : columns -> string * cell.t -> columns)
           (data : list row) : list txn.t :=
  let cols := find_columns sniff_cell data in
  if negb (mandatory_found cols) then []
  else post_process_transactions (collect (table_transaction cols) data).

Definition excel_parse_file (file_path : string) : list txn.t :=
  if negb (validate_file file_path) then [] else
  match extract_data_from_excel file_path with
  | [] => []
  | data => table_transactions excel_sniff_cell data
  end.

(** *** KaspiCSVParser: reading the file

    [data] is a local variable that no statement has bound yet ([None])
    until one attempt returns. *)

Definition nonempty {A} (xs : list A) : bool :=
  match xs with [] => false | _ :: _ => true end.

(** [for encoding in [...]: try: data = ...; if data: break; except
    Exception: continue]. *)
Fixpoint try_encodings (file_path delimiter : string) (encodings : list string)
         (data : option (list row)) : option (list row) :=
  match encodings with
  | [] => data
  | encoding :: rest =>
      match extract_data_from_csv file_path encoding delimiter with
      | Return d =>
          if nonempty d then Some d
          else try_encodings file_path delimiter rest (Some d)
      | Raise _ => try_encodings file_path delimiter rest data
      end
  end.

(** [for delimiter in [...]: ...; if data: break]; reading [data] while it
    is unbound raises. *)
Fixpoint try_delimiters (file_path : string) (delimiters : list string)
         (data : option (list row)) : outcome (list row) :=
  match delimiters with
  | [] =>
      match data with
      | Some d => Return d
      | None => Raise UnboundLocalError
      end
  | delimiter :: rest =>
      match try_encodings file_path delimiter ["utf-8"; "cp1251"; "latin1"] data with
      | None => Raise UnboundLocalError
      | Some d =>
          if nonempty d then Return d
          else try_delimiters file_path rest (Some d)
      end
  end.

Definition tab : string := String (ascii_of_nat 9) EmptyString.

Definition csv_parse_file (file_path : string) : outcome (list txn.t) :=
  if negb (validate_file file_path) then Return [] else
  match try_delimiters file_path [","; ";"; tab] None with
  | Raise e => Raise e
  | Return [] => Return []
  | Return data => Return (table_transactions csv_sniff_cell data)
  end.

End Code.

End kaspi_parser.

(** ** Controllers/analysis_controller.py: process_statement_file *)

Module Transaction.

(** A row of the table [Transactions]. *)
Record t := mk {
  StatementFileId : nat;
  TransactionDate : datetime.t;
  Amount : Qc;
  Description : string;
  CategoryId : option nat;
  IsIncome : bool;
  Reference : option string
}.

End Transaction.

Module AnalysisResult.

(** A row of the table [AnalysisResults]. *)
Record t := mk {
  StatementFileId : nat;
  TotalIncome : Qc;
  TotalExpense : Qc;
  NetProfit : Qc;
  RecommendedTaxAmount : Qc
}.

End AnalysisResult.

Module analysis_controller.
Import base_parser.

(** A logged [GET_ANALYSIS] event; the description text is left out. *)
Inductive EventStatusEnum := SUCCESS | EVENT_FAILED.

Record EventLog := mk_event {
  user_id : option nat;
  event_status : EventStatusEnum;
  statement_id : nat
}.

(** The tables the task reads and writes. *)
Record database := mk_db {
  StatementFiles : list StatementFile;
  Transactions : list Transaction.t;
  AnalysisResults : list AnalysisResult.t;
  EventLogs : list EventLog
}.

(** [db.query(StatementFile).filter(StatementFile.Id == id).first()] *)
Definition find_statement (db : database) (id : nat) : option StatementFile :=
  find (fun s => Nat.eqb (Id s) id) (StatementFiles db).

(** Writing the status (and the processing date) of the row found. *)
Fixpoint update_first (id : nat) (f : StatementFile -> StatementFile)
         (rows : list StatementFile) : list StatementFile :=
  match rows with
  | [] => []
  | s :: rest =>
      if Nat.eqb (Id s) id then f s :: rest else s :: update_first id f rest
  end.

Definition set_status (status : ProcessingStatusEnum)
           (date : option datetime.t) (s : StatementFile) : StatementFile :=
  mk_statement (Id s) (UserId s) (FileName s) (FilePath s) (Code s) status
               (match date with Some d => Some d | None => ProcessingDate s end).

Definition commit_status (db : database) (id : nat)
           (status : ProcessingStatusEnum) (date : option datetime.t) : database :=
  mk_db (update_first id (set_status status date) (StatementFiles db))
        (Transactions db) (AnalysisResults db) (EventLogs db).

Definition log_event (db : database) (e : EventLog) : database :=
  mk_db (StatementFiles db) (Transactions db) (AnalysisResults db)
        (EventLogs db ++ [e]).

(** [Transaction(StatementFileId=..., TransactionDate=transaction_data["date"],
    ...)]: a missing key raises. *)
Definition make_transaction (statement : StatementFile) (transaction_data : txn.t)
  : outcome Transaction.t :=
  match txn.date transaction_data, txn.amount transaction_data,
        txn.description transaction_data, txn.is_income transaction_data with
  | Some date, Some amount, Some description, Some is_income =>
      Return (Transaction.mk (Id statement) date amount description None
                             is_income (txn.reference transaction_data))
  | _, _, _, _ => Raise KeyError
  end.

(** [for transaction_data in transactions: db.add(Transaction(...))] *)
Fixpoint add_transactions (statement : StatementFile) (data : list txn.t)
         (db : database) : database * option exn :=
  match data with
  | [] => (db, None)
  | transaction_data :: rest =>
      match make_transaction statement transaction_data with
      | Raise e => (db, Some e)
      | Return transaction =>
          add_transactions statement rest
            (mk_db (StatementFiles db) (Transactions db ++ [transaction])
                   (AnalysisResults db) (EventLogs db))
      end
  end.

Section Code.
Context `{Python} `{Regex} `{World}.

(** [parser.parse_file(file_path)] *)
Definition parse_file (p : parser) (file_path : string) : outcome (list txn.t) :=
  match p with
  | KaspiPDFParser => Return (kaspi_parser.pdf_parse_file file_path)
  | KaspiExcelParser => Return (kaspi_parser.excel_parse_file file_path)
  | KaspiCSVParser => kaspi_parser.csv_parse_file file_path
  | HalykPDFParser => halyk_parse_file "pdf" file_path
  | HalykExcelParser => halyk_parse_file "xlsx" file_path
  | HalykCSVParser => halyk_parse_file "csv" file_path
  end.

(** The [except Exception] branch, the statement having been found. *)
Definition on_exception (statement : StatementFile) (db : database) : database :=
  log_event (commit_status db (Id statement) FAILED None)
            (mk_event (Some (UserId statement)) EVENT_FAILED (Id statement)).

Definition process_statement_file (statement_id : nat) (db : database) : database :=
  match find_statement db statement_id with
  | None => db
  | Some statement =>
      let db := commit_status db (Id statement) PROCESSING None in
      match get_parser_for_statement statement with
      | Raise _ => on_exception statement db
      | Return None => commit_status db (Id statement) FAILED None
      | Return (Some parser) =>
          match parse_file parser (FilePath statement) with
          | Raise _ => on_exception statement db
          | Return transactions =>
              match add_transactions statement transactions db with
              | (db, Some _) => on_exception statement db
              | (db, None) =>
                  let income_analysis :=
                    income_analyzer.analyze_income transactions in
                  let expense_analysis :=
                    expense_analyzer.analyze_expenses transactions in
                  let total_income := income_analyzer.total income_analysis in
                  let total_expense := expense_analyzer.total expense_analysis in
                  let tax_calculation :=
                    tax_calculator.calculate_tax total_income total_expense
                                                 "ip_simplified" in
                  let net_profit := total_income - total_expense in
                  let analysis_result :=
                    AnalysisResult.mk (Id statement) total_income total_expense
                      net_profit (tax_calculator.tax_amount tax_calculation) in
                  let db :=
                    mk_db (StatementFiles db) (Transactions db)
                          (AnalysisResults db ++ [analysis_result])
                          (EventLogs db) in
                  let db := commit_status db (Id statement) COMPLETED (Some now) in
                  log_event db
                    (mk_event (Some (UserId statement)) SUCCESS (Id statement))
              end
          end
      end
  end.

End Code.

End analysis_controller.

(** ** An executable instance of the interfaces

    Used to run the model on concrete statements.  [lower] covers the ASCII
    and the Russian Cyrillic letters (all the keyword tables use), [strip]
    the ASCII blanks, [strptime] the three formats of the parsers on
    zero-padded dates, [float] plain decimal literals with an optional
    sign.  The files of the world are a finite table held in memory. *)

Module cpython.
Local Open Scope nat_scope.

Definition byte (n : nat) : ascii := ascii_of_nat n.

Fixpoint lower (s : string) : string :=
  match s with
  | EmptyString => EmptyString
  | String c rest =>
      let n := nat_of_ascii c in
      if (65 <=? n)%nat && (n <=? 90)%nat
      then String (byte (n + 32)) (lower rest)
      else if (n =? 208)%nat then
        match rest with
        | String c2 rest2 =>
            let m := nat_of_ascii c2 in
            if (144 <=? m)%nat && (m <=? 159)%nat
            then String c (String (byte (m + 32)) (lower rest2))
            else if (160 <=? m)%nat && (m <=? 175)%nat
            then String (byte 209) (String (byte (m - 32)) (lower rest2))
            else if (m =? 129)%nat
            then String (byte 209) (String (byte 145) (lower rest2))
            else String c (String c2 (lower rest2))
        | EmptyString => String c EmptyString
        end
      else String c (lower rest)
  end.

Definition is_space (c : ascii) : bool :=
  let n := nat_of_ascii c in
  ((9 <=? n)%nat && (n <=? 13)%nat) || (n =? 32)%nat.

Fixpoint lstrip (s : string) : string :=
  match s with
  | String c rest => if is_space c then lstrip rest else s
  | EmptyString => EmptyString
  end.

Fixpoint rstrip (s : string) : string :=
  match s with
  | EmptyString => EmptyString
  | String c rest =>
      match rstrip rest with
      | EmptyString => if is_space c then EmptyString else String c EmptyString
      | r => String c r
      end
  end.

Definition strip (s : string) : string := rstrip (lstrip s).

(** The number a string of ASCII digits writes; [None] when another
    character occurs. *)
Fixpoint digits_value (s : string) (acc : nat) : option nat :=
  match s with
  | EmptyString => Some acc
  | String c rest =>
      if pystr.is_digit c
      then digits_value rest (10 * acc + (nat_of_ascii c - 48))
      else None
  end.

Definition is_leap (y : nat) : bool :=
  ((y mod 4 =? 0) && negb (y mod 100 =? 0) || (y mod 400 =? 0))%nat.

Definition days_in_month (y m : nat) : nat :=
  match m with
  | 2%nat => if is_leap y then 29%nat else 28%nat
  | 4%nat | 6%nat | 9%nat | 11%nat => 30%nat
  | _ => 31%nat
  end.

Definition make_date (y m d : option nat) : option datetime.t :=
  match y, m, d with
  | Some y, Some m, Some d =>
      if ((1 <=? y) && (1 <=? m) && (m <=? 12) && (1 <=? d)
          && (d <=? days_in_month y m))%nat
      then Some (datetime.mk y m d) else None
  | _, _, _ => None
  end.

Definition strptime (s fmt : string) : option datetime.t :=
  let num a b := digits_value (String.substring a b s) 0 in
  let sep a c := String.eqb (String.substring a 1 s) c in
  if negb (String.length s =? 10)%nat then None
  else if String.eqb fmt "%d.%m.%Y" then
    if sep 2 "." && sep 5 "." then make_date (num 6 4) (num 3 2) (num 0 2) else None
  else if String.eqb fmt "%Y-%m-%d" then
    if sep 4 "-" && sep 7 "-" then make_date (num 0 4) (num 5 2) (num 8 2) else None
  else if String.eqb fmt "%d/%m/%Y" then
    if sep 2 "/" && sep 5 "/" then make_date (num 6 4) (num 3 2) (num 0 2) else None
  else None.

(** Digits up to the first character that is not one, and the rest. *)
Fixpoint span_digits (s : string) : string * string :=
  match s with
  | String c rest =>
      if pystr.is_digit c
      then let '(ds, tl) := span_digits rest in (String c ds, tl)
      else (EmptyString, s)
  | EmptyString => (EmptyString, EmptyString)
  end.

Definition unsigned_decimal (s : string) : option Qc :=
  let '(int_part, rest) := span_digits s in
  let '(frac_part, rest) :=
    match rest with
    | String "." rest' => span_digits rest'
    | _ => (EmptyString, rest)
    end in
  if negb (String.eqb rest "") then None
  else if (String.length int_part + String.length frac_part =? 0)%nat then None
  else
    match digits_value (int_part ++ frac_part)%string 0 with
    | Some n =>
        Some (Q2Qc (Z.of_nat n # Pos.of_nat (10 ^ String.length frac_part)))
    | None => None
    end.

Definition float_of_str (s : string) : option Qc :=
  match strip s with
  | String "-" rest => option_map Qcopp (unsigned_decimal rest)
  | String "+" rest => unsigned_decimal rest
  | body => unsigned_decimal body
  end.

Definition decimal (n : nat) : string := NilEmpty.string_of_uint (Nat.to_uint n).

(** [str(x)] of a float, exact on whole numbers; other values are written
    as a fraction. *)
Definition str_of_float (x : Qc) : string :=
  let n := Qnum (this x) in
  let d := Qden (this x) in
  let sign := if (n <? 0)%Z then "-" else "" in
  if (d =? 1)%positive
  then (sign ++ decimal (Z.abs_nat n) ++ ".0")%string
  else (sign ++ decimal (Z.abs_nat n) ++ "/" ++ decimal (Pos.to_nat d))%string.

(** [str(d)] of a datetime at midnight. *)
Definition str_of_datetime (d : datetime.t) : string :=
  (datetime.zero_pad 4 (datetime.year d) ++ "-" ++
   datetime.zero_pad 2 (datetime.month d) ++ "-" ++
   datetime.zero_pad 2 (datetime.day d) ++ " 00:00:00")%string.

#[export] Instance python : Python :=
  Build_Python lower strip strptime float_of_str str_of_float str_of_datetime.

(** A file held in memory, by what the readers make of it. *)
Inductive file :=
| Pdf (pages : list (option (option string)))
| Excel (data : list row)
| Csv (read : string -> string -> csv_read).

Fixpoint lookup (files : list (string * file)) (path : string) : option file :=
  match files with
  | [] => None
  | (p, f) :: rest => if String.eqb p path then Some f else lookup rest path
  end.

(** The world with the given files, with or without the Halyk module. *)
Definition world (files : list (string * file))
           (halyk : option (string -> string -> outcome (list txn.t)))
           (clock : datetime.t) : World :=
  {| isfile := fun path =>
       match lookup files path with Some _ => true | None => false end;
     pdf_pages := fun path =>
       match lookup files path with Some (Pdf pages) => Some pages | _ => None end;
     read_excel := fun path _ =>
       match lookup files path with Some (Excel data) => Some data | _ => None end;
     read_csv := fun path encoding delimiter =>
       match lookup files path with
       | Some (Csv read) => read encoding delimiter
       | _ => CsvOtherError
       end;
     halyk_parser_found :=
       match halyk with Some _ => true | None => false end;
     halyk_parse_file := fun format path =>
       match halyk with
       | Some parse => parse format path
       | None => Raise ModuleNotFoundError
       end;
     now := clock |}.

End cpython.

(** ** Sample transactions *)

Module sample.
Import num.

Definition day (d : nat) : option datetime.t := Some (datetime.mk 2024 1 d).

Definition salary : txn.t :=
  txn.mk (day 1) (Some "Зарплата") (Some (of_Z 500000)) (Some true) None None.

Definition office_rent : txn.t :=
  txn.mk (day 2) (Some "Аренда офиса") (Some (of_Z 100000)) (Some false) None None.

Definition restaurant : txn.t :=
  txn.mk (day 3) (Some "Ресторан, обед с клиентом") (Some (of_Z 25000))
         (Some false) None None.

(** A transaction dict without the key [is_income]. *)
Definition unflagged : txn.t :=
  txn.mk (day 4) (Some "Перевод") (Some (of_Z 7000)) None None None.

(** Rows as pandas hands them over.  An expense line whose amount cell is
    a negative number, next to a type column. *)
Definition negative_expense_rows : list row :=
  [ [ ("Дата", cell.Str "02.01.2024");
      ("Назначение", cell.Str "Аренда офиса");
      ("Сумма", cell.Num (of_Z (-100000)));
      ("Тип", cell.Str "расход") ] ].

(** A line whose type cell has an income keyword ("credit") and an expense
    keyword ("debit"). *)
Definition both_keywords_rows : list row :=
  [ [ ("Date", cell.Str "03.01.2024");
      ("Description", cell.Str "Refund");
      ("Amount", cell.Num (of_Z 1500));
      ("Type", cell.Str "credit (debit reversal)") ] ].

(** The columns its headers name, and the transaction made from it. *)
Definition both_keywords_columns : kaspi_parser.columns :=
  kaspi_parser.mk_columns (Some "Date") (Some "Description") (Some "Amount")
                          (Some "Type") None.

Definition refund : txn.t :=
  txn.mk (Some (datetime.mk 2024 1 3)) (Some "Refund") (Some (of_Z 1500))
         (Some false) None None.

(** A table with no date and no amount, by header or by content. *)
Definition unrecognized_rows : list row :=
  [ [ ("A", cell.Str "hello"); ("B", cell.Str "world") ] ].

Definition clock : datetime.t := datetime.mk 2024 2 1.

(** The statement of two lines under the headers Дата, Назначение, Сумма
    and Тип. *)
Definition salary_and_rent_rows : list row :=
  [ [ ("Дата", cell.Str "01.01.2024");
      ("Назначение", cell.Str "Зарплата");
      ("Сумма", cell.Num (of_Z 500000));
      ("Тип", cell.Str "приход") ];
    [ ("Дата", cell.Str "02.01.2024");
      ("Назначение", cell.Str "Аренда офиса");
      ("Сумма", cell.Num (of_Z 100000));
      ("Тип", cell.Str "расход") ] ].

(** A world of table files only, where reading the CSV file succeeds at
    the first attempt (comma, UTF-8); the Halyk module is there and its
    parsers find nothing. *)
Definition table_world (rows : list row) : World :=
  cpython.world
    [ ("kaspi.xlsx", cpython.Excel rows);
      ("kaspi.csv", cpython.Csv (fun _ _ => CsvData rows)) ]
    (Some (fun _ _ => Return []))
    clock.

(** The same world without [Core/parser/halyk_parser.py]. *)
Definition world_without_halyk (rows : list row) : World :=
  cpython.world
    [ ("kaspi.xlsx", cpython.Excel rows);
      ("kaspi.csv", cpython.Csv (fun _ _ => CsvData rows)) ]
    None
    clock.

(** These worlds hold no PDF file: the two patterns only ever run on the
    empty text, where they match nothing. *)
Definition no_pdf_text : Regex := Build_Regex (fun _ => []) (fun _ => []).

Definition statement (id : nat) (file_name bank : string) : base_parser.StatementFile :=
  base_parser.mk_statement id 7 file_name file_name bank base_parser.PENDING None.

Definition pending (s : base_parser.StatementFile) : analysis_controller.database :=
  analysis_controller.mk_db [s] [] [] [].

End sample.

(** ** The classifier as the specification words it

    The label of a description is the label of the first rule, in
    declaration order, one of whose keywords (lower-cased) occurs in the
    description, and the fallback label when there is none; a breakdown adds
    every transaction's amount under the label of its lower-cased
    description. *)

Module classifier_spec.

Section Spec.
Context `{Python}.

Definition rule_matches (description : string) (rule : string * list string) : bool :=
  existsb (fun keyword => pystr.contains (lower keyword) description) (snd rule).

Definition first_match_label (rs : analyzer.rules) (description : string) : string :=
  match find (rule_matches description) rs with
  | Some rule => fst rule
  | None => "Другое"
  end.

Definition label_sums (rs : analyzer.rules) (transactions : list txn.t)
  : analyzer.sums :=
  fold_left (fun d t =>
               analyzer.add d
                 (first_match_label rs (lower (txn.get_description t)))
                 (txn.get_amount t))
            transactions [].

End Spec.

End classifier_spec.

(** ** The parser registry as the specification words it

    A parser is registered for the banks KASPI and HALYK and the
    extensions pdf, xlsx, xls and csv. *)

Module factory_spec.

Definition banks : list string := ["KASPI"; "HALYK"].

Definition extensions : list string := ["pdf"; "xlsx"; "xls"; "csv"].

Definition registered (bank_code extension : string) : bool :=
  existsb (String.eqb bank_code) banks && existsb (String.eqb extension) extensions.

End factory_spec.

(** ** Core/analyzer/tax_calculator.py: all regimes and the recommendations *)

Module builtins.

(** [min(xs, key=key)] on a list with a first element: the first of the
    elements whose key is least. *)
Fixpoint min_by {A} (key : A -> Qc) (best : A) (xs : list A) : A :=
  match xs with
  | [] => best
  | x :: rest => min_by key (if num.ltb (key x) (key best) then x else best) rest
  end.

(** [d[key]] on a dict with string keys; [None] is [KeyError]. *)
Fixpoint lookup {A} (d : list (string * A)) (key : string) : option A :=
  match d with
  | [] => None
  | (k, v) :: rest => if String.eqb k key then Some v else lookup rest key
  end.

End builtins.

(** [format(x, ".2f")] inside an f-string. *)
Class Format := {
  format_2f : Qc -> string
}.

Module tax_regimes.
Import tax_calculator.

(** The dict [regimes] of [calculate_tax_for_all_regimes], in declaration
    order. *)
Definition regimes : list (string * string) :=
  [ ("ip_simplified", "ИП, упрощенный режим (доход)");
    ("ip_general", "ИП, общий режим (прибыль)");
    ("too_simplified", "ТОО, упрощенный режим (доход)");
    ("too_general", "ТОО, общий режим (прибыль)") ].

(** The result of [calculate_tax] with the key ["regime_name"] added. *)
Record regime_tax := mk_regime_tax {
  tax_data : tax_result;
  regime_name : string
}.

(** The dict [calculate_tax_for_all_regimes] returns: one entry per regime,
    in insertion order, and the key ["optimal_regime"]. *)
Record all_regimes := mk_all_regimes {
  by_regime : list (string * regime_tax);
  optimal_regime : string
}.

Definition entry_tax_amount (item : string * regime_tax) : Qc :=
  tax_amount (tax_data (snd item)).

Definition calculate_tax_for_all_regimes (income expense : Qc) : all_regimes :=
  let result :=
    map (fun '(regime_code, regime_name) =>
           (regime_code,
            mk_regime_tax (calculate_tax income expense regime_code) regime_name))
        regimes in
  match result with
  | first :: rest =>
      let min_tax_regime := builtins.min_by entry_tax_amount first rest in
      mk_all_regimes result (fst min_tax_regime)
  | [] => mk_all_regimes result ""
  end.

(** One entry of the list ["recommendations"]. *)
Record recommendation := mk_recommendation {
  title : string;
  description : string;
  savings : option Qc;
  priority : string
}.

(** The dict [get_tax_savings_recommendations] returns. *)
Record savings_report := mk_savings_report {
  recommendations : list recommendation;
  current_regime : string;
  report_optimal_regime : string;
  potential_savings : Qc
}.

Definition planning : recommendation :=
  mk_recommendation
    "Налоговое планирование"
    "Заранее планируйте крупные закупки и платежи для оптимизации налоговой нагрузки."
    None "Низкий".

Definition expense_accounting (saved : Qc) : recommendation :=
  mk_recommendation
    "Учет расходов"
    "Официальный учет расходов может снизить налоговую нагрузку при общем режиме налогообложения."
    (Some saved) "Средний".

Section Code.
Context `{Format}.

Definition regime_change (optimal_name : string) (saved : Qc) : recommendation :=
  mk_recommendation
    ("Смена налогового режима на " ++ optimal_name)%string
    ("Вы можете сэкономить " ++ format_2f saved ++
     " KZT на налогах, перейдя на " ++ optimal_name ++ ".")%string
    (Some saved)
    (if num.gtb saved (num.of_Z 10000) then "Высокий" else "Средний").

(** [tax_data[...]] raises [KeyError] for a regime the dict lacks. *)
Definition get_tax_savings_recommendations (tax_data_all : all_regimes)
  : outcome savings_report :=
  let optimal := optimal_regime tax_data_all in
  match builtins.lookup (by_regime tax_data_all) optimal with
  | None => Raise KeyError
  | Some optimal_tax =>
      let current := "ip_simplified" in
      match builtins.lookup (by_regime tax_data_all) current with
      | None => Raise KeyError
      | Some current_tax =>
          let saved :=
            tax_amount (tax_data current_tax) - tax_amount (tax_data optimal_tax) in
          let recs :=
            if num.gtb saved 0
            then [regime_change (regime_name optimal_tax) saved] else [] in
          match builtins.lookup (by_regime tax_data_all) "ip_general",
                builtins.lookup (by_regime tax_data_all) "ip_simplified" with
          | Some general, Some simplified =>
              let recs :=
                if num.ltb (tax_amount (tax_data general))
                           (tax_amount (tax_data simplified))
                then recs ++ [expense_accounting
                                (tax_amount (tax_data simplified)
                                 - tax_amount (tax_data general))]
                else recs in
              Return (mk_savings_report (recs ++ [planning]) current optimal saved)
          | _, _ => Raise KeyError
          end
      end
  end.

End Code.

End tax_regimes.

(** ** Core/parser: what a parser says of itself *)

Module parser_info.
Import base_parser.

Section Code.
Context `{Python}.

(** [get_bank_code()] of the Kaspi classes; the Halyk classes are not
    among the sources ([None]). *)
Definition get_bank_code (p : parser) : option string :=
  match p with
  | KaspiPDFParser | KaspiExcelParser | KaspiCSVParser => Some "KASPI"
  | _ => None
  end.

(** [ExcelParser.get_file_format()], [self.statement] being the statement
    the parser was built with, if any. *)
Definition excel_get_file_format (statement : option StatementFile) : string :=
  match statement with
  | Some st =>
      if pystr.truthy (FileName st) then
        let ext := lower (pystr.split_dot_last (FileName st)) in
        if String.eqb ext "xls" || String.eqb ext "xlsx" then ext else "xlsx"
      else "xlsx"
  | None => "xlsx"
  end.

(** [get_file_format()] of the Kaspi classes, inherited from [PDFParser],
    [ExcelParser] and [CSVParser]. *)
Definition get_file_format (p : parser) (statement : option StatementFile)
  : option string :=
  match p with
  | KaspiPDFParser => Some "pdf"
  | KaspiExcelParser => Some (excel_get_file_format statement)
  | KaspiCSVParser => Some "csv"
  | _ => None
  end.

End Code.

End parser_info.

(** ** Models/statement.py and Controllers/upload_controller.py: the
    extension check of an upload *)

Module upload.

(** [ALLOWED_FILE_EXTENSIONS] of config.py. *)
Definition ALLOWED_FILE_EXTENSIONS : list string := ["pdf"; "xls"; "xlsx"; "csv"].

Section Code.
Context `{Python}.

(** [ext not in ALLOWED_FILE_EXTENSIONS] negated, [ext] being
    [filename.split('.')[-1].lower()]: the test both
    [upload_statement_file] and the validator make. *)
Definition extension_allowed (filename : string) : bool :=
  let ext := lower (pystr.split_dot_last filename) in
  existsb (String.eqb ext) ALLOWED_FILE_EXTENSIONS.

(** [StatementUpload.validate_file_extension]: the file name when its
    extension is allowed, [None] when it raises [ValueError]. *)
Definition validate_file_extension (v : string) : option string :=
  if negb (extension_allowed v) then None else Some v.

End Code.

End upload.

(** ** A statement in PDF *)

Module pdf_sample.

Definition text : string := "05.01.2024 Оплата услуг связи 1 234,50 тг расход".

(** The matches of the two patterns on [text]: the first pattern matches
    once, its amount group running up to the blank before the currency
    mark; on other texts this table knows no match. *)
Definition matches : Regex :=
  Build_Regex
    (fun t =>
       if String.eqb t text
       then [("05.01.2024", "Оплата услуг связи", "1 234,50 ", Some "тг", "расход")]
       else [])
    (fun t =>
       if String.eqb t text
       then [("05.01.2024", "Оплата услуг связи", "1 234,50 ", "тг")]
       else []).

Definition world : World :=
  cpython.world [("kaspi.pdf", cpython.Pdf [Some (Some text)])]
                (Some (fun _ _ => Return [])) sample.clock.

End pdf_sample.

(** ** The shape of a parsed transaction *)

Module transaction_shape.

(** A transaction dict with the keys [date], [description], [amount] and
    [is_income], which the controller reads with [transaction_data[...]],
    and without the key [category]. *)
Definition complete (t : txn.t) : Prop :=
  exists date description amount is_income,
    t = txn.mk (Some date) (Some description) (Some amount) (Some is_income)
               (txn.reference t) None.

End transaction_shape.

(** ** Controllers/analysis_controller.py: the detailed analysis

    The summary and the recommendations that [get_detailed_analysis] and,
    with the same text, [guest_analysis] compute from the stored
    transactions of a statement and its stored analysis.  The rest of the
    response repeats the rows read ([analysis_result], [transactions]) and
    parts of the summary ([charts_data]). *)

Module month_data.

(** A value of the dict [monthly_data]. *)
Record t := mk { income : Qc; expense : Qc; profit : Qc }.

End month_data.

Module month_entry.

(** An entry of the list [monthly_summary]. *)
Record t := mk { month : string; income : Qc; expense : Qc; profit : Qc }.

End month_entry.

Module detailed_analysis.

(** A stored transaction with the name of its category, [None] when
    [transaction.category] is empty. *)
Definition stored := (Transaction.t * option string)%type.

Definition category_name (x : stored) : string :=
  match snd x with
  | Some name => name
  | None => "Другое"
  end.

(** The loop that fills [income_categories] and [expense_categories]. *)
Definition categories_step (d : analyzer.sums * analyzer.sums) (x : stored)
  : analyzer.sums * analyzer.sums :=
  let '(income_categories, expense_categories) := d in
  if Transaction.IsIncome (fst x)
  then (analyzer.add income_categories (category_name x)
                     (Transaction.Amount (fst x)),
        expense_categories)
  else (income_categories,
        analyzer.add expense_categories (category_name x)
                     (Transaction.Amount (fst x))).

(** An entry of [top_income_categories] and [top_expense_categories]. *)
Record top_category := mk_top { category : string; amount : Qc }.

(** [[{...} for k, v in sorted(d.items(), key=..., reverse=True)][:5]] *)
Definition top5 (d : analyzer.sums) : list top_category :=
  firstn 5 (map (fun '(k, v) => mk_top k v) (analyzer.sorted_desc snd d)).

(** One round of the loop that fills [monthly_data]. *)
Definition bump (is_income : bool) (amount : Qc) (m : month_data.t) : month_data.t :=
  let m :=
    if is_income
    then month_data.mk (month_data.income m + amount) (month_data.expense m)
                       (month_data.profit m)
    else month_data.mk (month_data.income m) (month_data.expense m + amount)
                       (month_data.profit m) in
  month_data.mk (month_data.income m) (month_data.expense m)
                (month_data.income m - month_data.expense m).

Definition monthly := list (string * month_data.t).

Fixpoint monthly_update (d : monthly) (month : string) (is_income : bool)
         (amount : Qc) : monthly :=
  match d with
  | [] => [(month, bump is_income amount (month_data.mk 0 0 0))]
  | (k, m) :: rest =>
      if String.eqb k month then (k, bump is_income amount m) :: rest
      else (k, m) :: monthly_update rest month is_income amount
  end.

Definition monthly_step (d : monthly) (x : stored) : monthly :=
  monthly_update d (datetime.strftime_Y_m (Transaction.TransactionDate (fst x)))
                 (Transaction.IsIncome (fst x)) (Transaction.Amount (fst x)).

(** [sorted(d.items())] of a dict with string keys: ascending by key. *)
Fixpoint insert_by_key {A} (x : string * A) (sorted : list (string * A))
  : list (string * A) :=
  match sorted with
  | [] => [x]
  | y :: rest =>
      if String.ltb (fst y) (fst x) then y :: insert_by_key x rest
      else x :: y :: rest
  end.

Definition sorted_items {A} (d : list (string * A)) : list (string * A) :=
  fold_right insert_by_key [] d.

(** The dict [summary]. *)
Record summary := mk_summary {
  total_income : Qc;
  total_expense : Qc;
  net_profit : Qc;
  profit_margin : Qc;
  recommended_tax_amount : Qc;
  top_income_categories : list top_category;
  top_expense_categories : list top_category;
  monthly_summary : list month_entry.t
}.

(** An entry of the list [recommendations]. *)
Record recommendation := mk_recommendation {
  type : string;
  title : string;
  description : string;
  importance : nat
}.

Record detailed := mk_detailed {
  detailed_summary : summary;
  recommendations : list recommendation
}.

Section Code.
Context `{Format}.

Definition tax_recommendation (recommended : Qc) : recommendation :=
  mk_recommendation "tax" "Оплата налогов"
    ("Рекомендуется отложить " ++ format_2f recommended ++
     " KZT на оплату налогов.")%string
    5.

Definition expense_recommendation (category : string) : recommendation :=
  mk_recommendation "expense"
    ("Высокие расходы в категории '" ++ category ++ "'")%string
    ("Расходы в категории '" ++ category ++
     "' составляют более 30% от общего дохода. Рассмотрите возможность оптимизации.")%string
    4.

Definition low_margin_recommendation (margin : Qc) : recommendation :=
  mk_recommendation "general" "Низкая рентабельность"
    ("Маржа прибыли составляет " ++ format_2f margin ++
     "%, что ниже рекомендуемого значения (15%). Рассмотрите возможности увеличения доходов или снижения расходов.")%string
    4.

Definition high_margin_recommendation (margin : Qc) : recommendation :=
  mk_recommendation "general" "Высокая рентабельность"
    ("Маржа прибыли составляет " ++ format_2f margin ++
     "%, что значительно выше среднего. Отличный результат!")%string
    3.

Definition summarize (transactions : list stored)
           (analysis_result : AnalysisResult.t) : detailed :=
  let '(income_categories, expense_categories) :=
    fold_left categories_step transactions ([], []) in
  let top_income_categories := top5 income_categories in
  let top_expense_categories := top5 expense_categories in
  let monthly_data := fold_left monthly_step transactions [] in
  let monthly_summary :=
    map (fun '(k, v) =>
           month_entry.mk k (month_data.income v) (month_data.expense v)
                          (month_data.profit v))
        (sorted_items monthly_data) in
  let total_income := AnalysisResult.TotalIncome analysis_result in
  let total_expense := AnalysisResult.TotalExpense analysis_result in
  let net_profit := AnalysisResult.NetProfit analysis_result in
  let profit_margin :=
    if num.gtb total_income 0
    then net_profit / total_income * num.of_Z 100 else 0 in
  let recommendations :=
    [tax_recommendation (AnalysisResult.RecommendedTaxAmount analysis_result)] in
  let recommendations :=
    match top_expense_categories with
    | highest_expense :: _ =>
        if num.gtb (amount highest_expense)
                   (total_income * (num.of_Z 3 / num.of_Z 10))
        then recommendations ++ [expense_recommendation (category highest_expense)]
        else recommendations
    | [] => recommendations
    end in
  let recommendations :=
    if num.ltb profit_margin (num.of_Z 15)
    then recommendations ++ [low_margin_recommendation profit_margin]
    else if num.gtb profit_margin (num.of_Z 50)
    then recommendations ++ [high_margin_recommendation profit_margin]
    else recommendations in
  mk_detailed
    (mk_summary total_income total_expense net_profit profit_margin
                (AnalysisResult.RecommendedTaxAmount analysis_result)
                top_income_categories top_expense_categories monthly_summary)
    recommendations.

End Code.

End detailed_analysis.

(** ** The transactions of a statement, as the two endpoints query them *)

Module statement_query.

(** The table [TransactionCategories]: ids and names. *)
Definition categories := list (nat * string).

(** [transaction.category.Name] through the foreign key [CategoryId];
    [None] when the relationship is empty. *)
Definition category_of (cats : categories) (T : Transaction.t) : option string :=
  match Transaction.CategoryId T with
  | Some id => option_map snd (find (fun c => Nat.eqb (fst c) id) cats)
  | None => None
  end.

(** [db.query(Transaction).filter(Transaction.StatementFileId ==
    statement_id).all()], each row with its category. *)
Definition statement_transactions (cats : categories)
           (db : analysis_controller.database) (statement_id : nat)
  : list detailed_analysis.stored :=
  map (fun T => (T, category_of cats T))
      (filter (fun T => Nat.eqb (Transaction.StatementFileId T) statement_id)
              (analysis_controller.Transactions db)).

End statement_query.

(** ** [format(x, ".2f")] on exact rationals

    Two decimals, ties to even; a negative number keeps its sign when it
    rounds to zero. *)

Module cformat.

Definition digits (n : Z) : string :=
  NilZero.string_of_uint (N.to_uint (Z.to_N n)).

Definition round_half_even (n : Z) (d : positive) : Z :=
  let q := (n / Z.pos d)%Z in
  let r := (n mod Z.pos d)%Z in
  if (2 * r <? Z.pos d)%Z then q
  else if (2 * r =? Z.pos d)%Z then (if Z.even q then q else q + 1)%Z
  else (q + 1)%Z.

Definition format_2f (x : Qc) : string :=
  let n := Qnum (this x) in
  let cents := round_half_even (100 * Z.abs n) (Qden (this x)) in
  let fraction := (cents mod 100)%Z in
  ((if (n <? 0)%Z then "-" else "") ++ digits (cents / 100) ++ "." ++
   (if (fraction <? 10)%Z then "0" else "") ++ digits fraction)%string.

Definition two_decimals : Format := Build_Format format_2f.

End cformat.

(** ** Arithmetic: exact rationals and binary64 floats *)

Module arith.

(** What the analyzers do with amounts. *)
Class Arith := {
  number : Type;
  (** [0] *)
  zero : number;
  (** an [int] as an operand of a float operation *)
  of_int : Z -> number;
  (** [a + b], [a * b], [a / b] *)
  plus : number -> number -> number;
  times : number -> number -> number;
  divide : number -> number -> number;
  (** [a < b] *)
  less : number -> number -> bool
}.

(** Exact rationals, the arithmetic of the modules above. *)
Definition exact : Arith :=
  Build_Arith Qc 0 num.of_Z Qcplus Qcmult Qcdiv num.ltb.

(** [float(n)] of an integer, exact below 2^53. *)
Fixpoint float_of_positive (p : positive) : PrimFloat.float :=
  match p with
  | xH => PrimFloat.one
  | xO q => PrimFloat.add (float_of_positive q) (float_of_positive q)
  | xI q =>
      PrimFloat.add (PrimFloat.add (float_of_positive q) (float_of_positive q))
                    PrimFloat.one
  end.

Definition float_of_int (z : Z) : PrimFloat.float :=
  match z with
  | Z0 => PrimFloat.zero
  | Zpos p => float_of_positive p
  | Zneg p => PrimFloat.opp (float_of_positive p)
  end.

(** Python's [float]: IEEE 754 binary64, round to nearest even, with
    infinities and not-a-number, on which every [<] is false. *)
Definition binary64 : Arith :=
  Build_Arith PrimFloat.float PrimFloat.zero float_of_int
              PrimFloat.add PrimFloat.mul PrimFloat.div PrimFloat.ltb.

End arith.

(** ** The two analyzers over an arithmetic

    [Core/analyzer/expense_analyzer.py] and
    [Core/analyzer/income_analyzer.py] once more, line by line as in the
    modules [analyzer], [expense_analyzer] and [income_analyzer], with the
    arithmetic as a parameter.  [sorted_desc] is Python's [sorted(...,
    reverse=True)] whenever [<] is a strict weak order on the keys
    ([ordered_by_less]), where every stable sort gives the same list; on
    keys that hold a not-a-number among different numbers [<] is no such
    order and no list is descending. *)

Module generic.
Import arith.

Section Code.
Context {A : Arith} `{Python}.

(** A transaction dict. *)
Record transaction := mk {
  date : option datetime.t;
  description : option string;
  amount : option number;
  is_income : option bool;
  reference : option string;
  category : option string
}.

(** [t.get("amount", 0)] *)
Definition get_amount (x : transaction) : number :=
  match amount x with Some a => a | None => zero end.

(** [t.get("category", "Другое")] *)
Definition get_category (x : transaction) : string :=
  match category x with Some c => c | None => "Другое" end.

(** [t.get("description", "")] *)
Definition get_description (x : transaction) : string :=
  match description x with Some d => d | None => "" end.

(** [t.get("is_income", default)] *)
Definition get_is_income (x : transaction) (default : bool) : bool :=
  match is_income x with Some b => b | None => default end.

(** [sum(xs)]: left to right from [0]. *)
Definition py_sum (xs : list number) : number := fold_left plus xs zero.

(** A [defaultdict(float)] with string keys, in insertion order. *)
Definition sums := list (string * number).

(** [d[key] += v] *)
Fixpoint add (d : sums) (key : string) (v : number) : sums :=
  match d with
  | [] => [(key, plus zero v)]
  | (k, x) :: rest =>
      if String.eqb k key then (k, plus x v) :: rest
      else (k, x) :: add rest key v
  end.

(** [sum(d.values())] *)
Definition total (d : sums) : number := py_sum (map snd d).

(** [sorted(xs, key=key, reverse=True)] *)
Fixpoint insert_desc {B} (key : B -> number) (x : B) (sorted : list B) : list B :=
  match sorted with
  | [] => [x]
  | y :: rest =>
      if less (key x) (key y) then y :: insert_desc key x rest
      else x :: y :: rest
  end.

Definition sorted_desc {B} (key : B -> number) (xs : list B) : list B :=
  fold_right (insert_desc key) [] xs.

(** [<] is a strict weak order on the numbers of a list: it is
    asymmetric, and [not a < b] and [not b < c] give [not a < c]. *)
Definition ordered_by_less (xs : list number) : bool :=
  forallb
    (fun a =>
       forallb
         (fun b =>
            implb (less a b) (negb (less b a)) &&
            forallb
              (fun c => implb (negb (less a b) && negb (less b c))
                              (negb (less a c)))
              xs)
         xs)
    xs.

(** The loop over the rules with its [found] flag. *)
Fixpoint scan_rules (rs : analyzer.rules) (description : string)
         (amount : number) (d : sums) : sums * bool :=
  match rs with
  | [] => (d, false)
  | (label, keywords) :: rest =>
      if analyzer.scan_keywords keywords description
      then (add d label amount, true)
      else scan_rules rest description amount d
  end.

(** The body of [for transaction in transactions]. *)
Definition classify_into (rs : analyzer.rules) (d : sums)
           (transaction : transaction) : sums :=
  let description := lower (get_description transaction) in
  let amount := get_amount transaction in
  let '(d', found) := scan_rules rs description amount d in
  if found then d' else add d' "Другое" amount.

Definition classify_all (rs : analyzer.rules) (transactions : list transaction)
  : sums :=
  fold_left (classify_into rs) transactions [].

(** [amount / sum * 100 if sum > 0 else 0] *)
Definition percentage_of (amount sum : number) : number :=
  if less zero sum then times (divide amount sum) (of_int 100) else zero.

Definition group_by_category (transactions : list transaction) : sums :=
  fold_left (fun d x => add d (get_category x) (get_amount x)) transactions [].

Definition group_by_month (transactions : list transaction) : sums :=
  fold_left (fun d x =>
               match date x with
               | Some date => add d (datetime.strftime_Y_m date) (get_amount x)
               | None => d
               end)
            transactions [].

(** One entry of the ["categories"] or of the ["sources"] list. *)
Record share := mk_share {
  share_label : string;
  share_amount : number;
  share_percentage : number
}.

Definition breakdown (categories : sums) : list share :=
  map (fun '(label, amount) =>
         mk_share label amount (percentage_of amount (total categories)))
      (sorted_desc snd categories).

Definition categorize_expenses (transactions : list transaction) : list share :=
  breakdown (classify_all expense_analyzer.category_keywords transactions).

Definition analyze_income_sources (transactions : list transaction) : list share :=
  breakdown (classify_all income_analyzer.source_keywords transactions).

(** The dict [analyze_expenses] and [analyze_income] return. *)
Record result := mk_result {
  result_total : number;
  result_count : nat;
  result_average : number;
  by_category : sums;
  by_month : sums;
  largest : option transaction;
  smallest : option transaction;
  shares : list share
}.

Definition analyze_expenses (transactions : list transaction) : result :=
  let expense_transactions :=
    filter (fun t => negb (get_is_income t true)) transactions in
  match expense_transactions with
  | [] => mk_result zero 0 zero [] [] None None []
  | _ :: _ =>
      let total_expense := py_sum (map get_amount expense_transactions) in
      let count := List.length expense_transactions in
      let average_expense :=
        if (0 <? count)%nat then divide total_expense (of_int (Z.of_nat count))
        else zero in
      let expense_by_category := group_by_category expense_transactions in
      let expense_by_month := group_by_month expense_transactions in
      let sorted_transactions := sorted_desc get_amount expense_transactions in
      mk_result total_expense count average_expense
                expense_by_category expense_by_month
                (analyzer.first_or_none sorted_transactions)
                (analyzer.last_or_none sorted_transactions)
                (categorize_expenses expense_transactions)
  end.

Definition analyze_income (transactions : list transaction) : result :=
  let income_transactions :=
    filter (fun t => get_is_income t false) transactions in
  match income_transactions with
  | [] => mk_result zero 0 zero [] [] None None []
  | _ :: _ =>
      let total_income := py_sum (map get_amount income_transactions) in
      let count := List.length income_transactions in
      let average_income :=
        if (0 <? count)%nat then divide total_income (of_int (Z.of_nat count))
        else zero in
      let income_by_category := group_by_category income_transactions in
      let income_by_month := group_by_month income_transactions in
      let sorted_transactions := sorted_desc get_amount income_transactions in
      mk_result total_income count average_income
                income_by_category income_by_month
                (analyzer.first_or_none sorted_transactions)
                (analyzer.last_or_none sorted_transactions)
                (analyze_income_sources income_transactions)
  end.

End Code.

(** The dicts of the exact embedding, read as dicts of this one. *)
Definition of_txn (t : txn.t) : transaction (A := exact) :=
  mk (A := exact) (txn.date t) (txn.description t) (txn.amount t)
     (txn.is_income t) (txn.reference t) (txn.category t).

Definition of_category_share (c : expense_analyzer.category_share)
  : share (A := exact) :=
  mk_share (A := exact) (expense_analyzer.category c) (expense_analyzer.amount c)
           (expense_analyzer.percentage c).

Definition of_source_share (c : income_analyzer.source_share)
  : share (A := exact) :=
  mk_share (A := exact) (income_analyzer.source c) (income_analyzer.amount c)
           (income_analyzer.percentage c).

Definition of_expense_result (r : expense_analyzer.result) : result (A := exact) :=
  mk_result (A := exact)
    (expense_analyzer.total r) (expense_analyzer.count r)
    (expense_analyzer.average r) (expense_analyzer.by_category r)
    (expense_analyzer.by_month r)
    (option_map of_txn (expense_analyzer.largest r))
    (option_map of_txn (expense_analyzer.smallest r))
    (map of_category_share (expense_analyzer.categories r)).

Definition of_income_result (r : income_analyzer.result) : result (A := exact) :=
  mk_result (A := exact)
    (income_analyzer.total r) (income_analyzer.count r)
    (income_analyzer.average r) (income_analyzer.by_category r)
    (income_analyzer.by_month r)
    (option_map of_txn (income_analyzer.largest r))
    (option_map of_txn (income_analyzer.smallest r))
    (map of_source_share (income_analyzer.sources r)).

End generic.

(** ** Transactions with float amounts *)

Module float_sample.
Import PrimFloat arith.
Local Open Scope float_scope.
#[local] Set Warnings "-inexact-float".

Definition expense (description : string) (amount : float)
  : generic.transaction (A := binary64) :=
  generic.mk (A := binary64) (sample.day 1) (Some description) (Some amount)
             (Some false) None None.

(** Two expenses whose amounts are floats exactly. *)
Definition rent_and_taxi : list (generic.transaction (A := binary64)) :=
  [expense "Аренда" 1; expense "Такси" 2].

(** Three expenses of one month and their sum as [sum] computes it. *)
Definition three_expenses : list (generic.transaction (A := binary64)) :=
  [expense "Аренда" 3996.55; expense "Такси" 4022.12; expense "Кафе" 11.05].

(** An expense whose amount cell was empty: the parsers store the
    not-a-number pandas puts there. *)
Definition with_nan : list (generic.transaction (A := binary64)) :=
  [expense "Аренда" 2; expense "Такси" nan; expense "Кафе" 3;
   expense "Налог" 1].

End float_sample.

(** ** More sample data *)

Module row_sample.
Import num.

(** An analysis of the statement of two lines. *)
Definition salary_and_rent_analysis : AnalysisResult.t :=
  AnalysisResult.mk 1 (of_Z 500000) (of_Z 100000) (of_Z 400000) (of_Z 15000).

(** The columns Дата, Назначение and Сумма, without a type column. *)
Definition untyped_columns : kaspi_parser.columns :=
  kaspi_parser.mk_columns (Some "Дата") (Some "Назначение") (Some "Сумма")
                          None None.

(** A card payment: the amount cell is a negative number. *)
Definition card_payment_row : row :=
  [ ("Дата", cell.Str "05.01.2024");
    ("Назначение", cell.Str "Покупка");
    ("Сумма", cell.Num (of_Z (-4500))) ].

Definition card_payment : txn.t :=
  txn.mk (Some (datetime.mk 2024 1 5)) (Some "Покупка")
         (Some (Qcabs.Qcabs (of_Z (-4500)))) (Some false) None None.

(** The statement of two lines on disk, as a CSV file and as a workbook. *)
Definition world : World := sample.table_world sample.salary_and_rent_rows.

Definition world_without_halyk : World :=
  sample.world_without_halyk sample.salary_and_rent_rows.

Definition csv_statement : base_parser.StatementFile :=
  sample.statement 1 "kaspi.csv" "KASPI".

Definition excel_statement : base_parser.StatementFile :=
  sample.statement 2 "kaspi.xlsx" "KASPI".

(** A statement whose file is not on disk. *)
Definition lost_statement : base_parser.StatementFile :=
  sample.statement 3 "lost.csv" "KASPI".

End row_sample.

(** * Properties *)

Module num_facts.
Import num.

Lemma ltb_lt (a b : Qc) : ltb a b = true <-> a < b.
Proof.
  unfold ltb, Qclt, Qccompare. rewrite Qlt_alt.
  destruct (a ?= b)%Q; split; congruence.
Qed.

Lemma ltb_ge (a b : Qc) : ltb a b = false <-> b <= a.
Proof.
  split; intros H.
  - apply Qcnot_lt_le. intros L. apply ltb_lt in L. congruence.
  - destruct (ltb a b) eqn:E; [|reflexivity].
    apply ltb_lt in E. exfalso. exact (Qcle_not_lt _ _ H E).
Qed.

Lemma ltb_irrefl (a : Qc) : ltb a a = false.
Proof. apply ltb_ge, Qcle_refl. Qed.

(** [py_max] is the larger of its arguments. *)
Lemma py_max_l (a b : Qc) : b <= a -> py_max a b = a.
Proof. intros H. unfold py_max, gtb. apply ltb_ge in H. now rewrite H. Qed.

Lemma py_max_r (a b : Qc) : a <= b -> py_max a b = b.
Proof.
  intros H. unfold py_max, gtb. destruct (ltb a b) eqn:E; [reflexivity|].
  apply ltb_ge in E. now apply Qcle_antisym.
Qed.

Lemma fold_plus_acc (xs : list Qc) (a : Qc) :
  fold_left Qcplus xs a = a + py_sum xs.
Proof.
  unfold py_sum. revert a.
  induction xs as [|x xs IH]; intros a; simpl.
  - ring.
  - rewrite IH, (IH (0 + x)). ring.
Qed.

Lemma py_sum_nil : py_sum [] = 0.
Proof. reflexivity. Qed.

Lemma py_sum_cons (x : Qc) (xs : list Qc) : py_sum (x :: xs) = x + py_sum xs.
Proof. unfold py_sum at 1. simpl. rewrite fold_plus_acc. ring. Qed.

Lemma py_sum_app (xs ys : list Qc) : py_sum (xs ++ ys) = py_sum xs + py_sum ys.
Proof.
  induction xs as [|x xs IH]; simpl.
  - rewrite py_sum_nil. ring.
  - rewrite !py_sum_cons, IH. ring.
Qed.

(** Under exact arithmetic the order of the summands does not matter. *)
Lemma py_sum_perm (xs ys : list Qc) : Permutation xs ys -> py_sum xs = py_sum ys.
Proof.
  induction 1 as [|x xs ys _ IH|x y xs|xs ys zs _ IH1 _ IH2].
  - reflexivity.
  - now rewrite !py_sum_cons, IH.
  - rewrite !py_sum_cons. ring.
  - now rewrite IH1.
Qed.

(** The sum of [f x] scaled by a constant. *)
Lemma py_sum_scale (c : Qc) (xs : list Qc) :
  py_sum (map (fun x => x * c) xs) = py_sum xs * c.
Proof.
  induction xs as [|x xs IH]; simpl.
  - rewrite py_sum_nil. ring.
  - rewrite !py_sum_cons, IH. ring.
Qed.

End num_facts.

Module tax_facts.
Import num num_facts tax_calculator.

(** C5.  For every income, expense and regime: the tax base is the income
    under the two simplified regimes and [max(0, income - expense)] under the
    two general regimes (the profit when it is not negative, otherwise 0);
    the tax amount is the base times [rate / 100], the rate being the one
    [DEFAULT_TAX_RATES] lists; and the effective rate is 0 when the income
    is 0. *)
Theorem calculate_tax_spec (i e : Qc) :
  tax_base (calculate_tax i e "ip_simplified") = i /\
  tax_base (calculate_tax i e "too_simplified") = i /\
  (forall r, In r ["ip_general"; "too_general"] ->
     (e <= i -> tax_base (calculate_tax i e r) = i - e) /\
     (i <= e -> tax_base (calculate_tax i e r) = 0) /\
     tax_base (calculate_tax i e r) = py_max 0 (i - e)) /\
  (forall r rate, In (r, rate) config.DEFAULT_TAX_RATES ->
     tax_rate (calculate_tax i e r) = rate) /\
  (forall r, tax_amount (calculate_tax i e r) =
             tax_base (calculate_tax i e r)
             * (tax_rate (calculate_tax i e r) / of_Z 100)) /\
  (forall r, effective_tax_rate (calculate_tax 0 e r) = 0).
Proof.
  assert (G : forall r, In r ["ip_general"; "too_general"] ->
                tax_base (calculate_tax i e r) = py_max 0 (i - e)).
  { intros r [<- | [<- | []]]; reflexivity. }
  assert (Sub : forall a b : Qc, a <= b -> 0 <= b - a).
  { intros a b L. unfold Qcminus. rewrite <- (Qcplus_opp_r a).
    apply Qcplus_le_compat; [exact L | apply Qcle_refl]. }
  assert (Sub' : forall a b : Qc, b <= a -> b - a <= 0).
  { intros a b L. unfold Qcminus. rewrite <- (Qcplus_opp_r a).
    apply Qcplus_le_compat; [exact L | apply Qcle_refl]. }
  split; [reflexivity|]. split; [reflexivity|].
  split; [|split; [|split]].
  - intros r H. rewrite (G r H). split; [|split].
    + intros L. now apply py_max_r, Sub.
    + intros L. now apply py_max_l, Sub'.
    + reflexivity.
  - intros r rate H. simpl in H.
    repeat (destruct H as [H | H]; [inversion H; subst; reflexivity|]).
    destruct H.
  - reflexivity.
  - intros r. unfold calculate_tax, effective_tax_rate, gtb.
    now rewrite (ltb_irrefl 0).
Qed.

(** C10.  With a regime that is none of the four known ones
    [calculate_tax] returns all the same: the rate is the default 3.0, the
    base is [max(0, income - expense)] as under the general regimes, and
    every key of the result is filled in. *)
Theorem unknown_regime_uses_defaults (i e : Qc) (regime : string) :
  ~ In regime ["ip_simplified"; "ip_general"; "too_simplified"; "too_general"] ->
  let base := py_max 0 (i - e) in
  let amount := base * (of_Z 3 / of_Z 100) in
  calculate_tax i e regime =
  mk_tax_result regime (of_Z 3) base amount
                (if gtb i 0 then amount / i * of_Z 100 else 0)
                i e (i - e) /\
  (e <= i -> tax_base (calculate_tax i e regime) = i - e) /\
  (i <= e -> tax_base (calculate_tax i e regime) = 0).
Proof.
  intros N. cbv zeta.
  assert (E : forall known,
             In known ["ip_simplified"; "ip_general"; "too_simplified"; "too_general"] ->
             String.eqb known regime = false /\ String.eqb regime known = false).
  { intros known Hk. split; apply String.eqb_neq; intros <-; now apply N. }
  assert (C : calculate_tax i e regime =
              mk_tax_result regime (of_Z 3) (py_max 0 (i - e))
                (py_max 0 (i - e) * (of_Z 3 / of_Z 100))
                (if gtb i 0
                 then py_max 0 (i - e) * (of_Z 3 / of_Z 100) / i * of_Z 100
                 else 0)
                i e (i - e)).
  { unfold calculate_tax, config.DEFAULT_TAX_RATES. cbn [dict_get].
    destruct (E "ip_simplified") as [-> ->]; [simpl; tauto|].
    destruct (E "ip_general") as [-> _]; [simpl; tauto|].
    destruct (E "too_simplified") as [-> ->]; [simpl; tauto|].
    destruct (E "too_general") as [-> _]; [simpl; tauto|].
    reflexivity. }
  split; [exact C|]. rewrite C. cbn [tax_base]. split; intros L.
  - apply py_max_r. unfold Qcminus. rewrite <- (Qcplus_opp_r e).
    apply Qcplus_le_compat; [exact L | apply Qcle_refl].
  - apply py_max_l. unfold Qcminus. rewrite <- (Qcplus_opp_r e).
    apply Qcplus_le_compat; [exact L | apply Qcle_refl].
Qed.

(** The claim at income 1000, expense 400 and the regime ["patent"]. *)
Lemma unknown_regime_witness :
  ~ In "patent" ["ip_simplified"; "ip_general"; "too_simplified"; "too_general"] /\
  tax_rate (calculate_tax (of_Z 1000) (of_Z 400) "patent") = of_Z 3 /\
  (of_Z 400 <= of_Z 1000 ->
   tax_base (calculate_tax (of_Z 1000) (of_Z 400) "patent")
   = of_Z 1000 - of_Z 400).
Proof.
  assert (N : ~ In "patent"
                ["ip_simplified"; "ip_general"; "too_simplified"; "too_general"]).
  { simpl. intros [D | [D | [D | [D | []]]]]; discriminate D. }
  split; [exact N|].
  destruct (unknown_regime_uses_defaults (of_Z 1000) (of_Z 400) "patent" N)
    as [C [P _]].
  split; [|exact P]. rewrite C. reflexivity.
Defined.

(** The four known regimes on income 1000 and expense 400. *)
Lemma calculate_tax_witness :
  tax_base (calculate_tax (of_Z 1000) (of_Z 400) "ip_simplified") = of_Z 1000 /\
  (of_Z 400 <= of_Z 1000 ->
   tax_base (calculate_tax (of_Z 1000) (of_Z 400) "too_general")
   = of_Z 1000 - of_Z 400) /\
  tax_rate (calculate_tax (of_Z 1000) (of_Z 400) "too_general") = of_Z 20.
Proof.
  destruct (calculate_tax_spec (of_Z 1000) (of_Z 400))
    as [S [_ [G [R _]]]].
  split; [exact S|]. split.
  - apply (G "too_general"). simpl. tauto.
  - apply R. simpl. tauto.
Defined.

End tax_facts.

(** ** The analyzers *)

Module analyzer_facts.
Import num num_facts analyzer classifier_spec.

(** [d[key] += v] raises the sum of the values by [v]. *)
Lemma total_add (d : sums) (key : string) (v : Qc) :
  total (add d key v) = total d + v.
Proof.
  unfold total. induction d as [|[k x] d IH]; simpl.
  - rewrite py_sum_cons, py_sum_nil. ring.
  - destruct (String.eqb k key); simpl.
    + rewrite !py_sum_cons. ring.
    + rewrite !py_sum_cons, IH. ring.
Qed.

(** [d[key] += v] changes the entry of [key] and no other. *)
Lemma value_of_add_same (d : sums) (key : string) (v : Qc) :
  value_of (add d key v) key = value_of d key + v.
Proof.
  induction d as [|[k x] d IH]; simpl.
  - now rewrite String.eqb_refl.
  - destruct (String.eqb k key) eqn:E; simpl; rewrite E; [reflexivity | exact IH].
Qed.

Lemma value_of_add_other (d : sums) (key other : string) (v : Qc) :
  other <> key -> value_of (add d key v) other = value_of d other.
Proof.
  intros N. induction d as [|[k x] d IH]; simpl.
  - destruct (String.eqb key other) eqn:E; [|reflexivity].
    apply String.eqb_eq in E. now subst.
  - destruct (String.eqb k key) eqn:E; simpl.
    + destruct (String.eqb k other) eqn:O; [|reflexivity].
      apply String.eqb_eq in E, O. subst. now contradiction N.
    + destruct (String.eqb k other); [reflexivity | exact IH].
Qed.

(** A loop that adds one amount per element sums the amounts. *)
Lemma total_fold_add {A} (key : A -> string) (val : A -> Qc)
      (xs : list A) (d : sums) :
  total (fold_left (fun d x => add d (key x) (val x)) xs d)
  = total d + py_sum (map val xs).
Proof.
  revert d. induction xs as [|x xs IH]; intros d; simpl.
  - rewrite py_sum_nil. ring.
  - rewrite IH, total_add, py_sum_cons. ring.
Qed.

Lemma total_group_by_category (ts : list txn.t) :
  total (group_by_category ts) = py_sum (map txn.get_amount ts).
Proof.
  unfold group_by_category. rewrite total_fold_add.
  unfold total at 1. simpl. rewrite py_sum_nil. ring.
Qed.

(** The stable sort only reorders. *)
Lemma insert_desc_perm {A} (key : A -> Qc) (x : A) (l : list A) :
  Permutation (insert_desc key x l) (x :: l).
Proof.
  induction l as [|y l IH]; simpl.
  - apply Permutation_refl.
  - destruct (ltb (key x) (key y)).
    + eapply perm_trans; [apply perm_skip, IH | apply perm_swap].
    + apply Permutation_refl.
Qed.

Lemma sorted_desc_perm {A} (key : A -> Qc) (l : list A) :
  Permutation (sorted_desc key l) l.
Proof.
  induction l as [|x l IH]; simpl.
  - apply perm_nil.
  - eapply perm_trans; [apply insert_desc_perm | apply perm_skip, IH].
Qed.

Section Scan.
Context `{Python}.

Lemma scan_keywords_existsb (keywords : list string) (description : string) :
  scan_keywords keywords description
  = existsb (fun keyword => pystr.contains (lower keyword) description) keywords.
Proof.
  induction keywords as [|k ks IH]; simpl; [reflexivity|].
  destruct (pystr.contains (lower k) description); simpl; [reflexivity | exact IH].
Qed.

Lemma scan_rules_find (rs : rules) (description : string) (amount : Qc) (d : sums) :
  scan_rules rs description amount d
  = match find (rule_matches description) rs with
    | Some rule => (add d (fst rule) amount, true)
    | None => (d, false)
    end.
Proof.
  induction rs as [|[label keywords] rs IH]; simpl; [reflexivity|].
  unfold rule_matches at 1. simpl. rewrite scan_keywords_existsb.
  destruct (existsb _ keywords); [reflexivity | exact IH].
Qed.

(** The loop body adds the amount under exactly one label. *)
Lemma classify_into_label (rs : rules) (d : sums) (t : txn.t) :
  classify_into rs d t
  = add d (first_match_label rs (lower (txn.get_description t)))
        (txn.get_amount t).
Proof.
  unfold classify_into, first_match_label. rewrite scan_rules_find.
  destruct (find _ rs); reflexivity.
Qed.

Lemma find_first_match (rs before after : rules) (rule : string * list string)
      (description : string) :
  rs = before ++ rule :: after ->
  (forall r, In r before -> rule_matches description r = false) ->
  rule_matches description rule = true ->
  find (rule_matches description) rs = Some rule.
Proof.
  intros -> Hb Hr. induction before as [|b before IH]; simpl.
  - now rewrite Hr.
  - rewrite (Hb b (or_introl eq_refl)). apply IH.
    intros r Hin. apply Hb. now right.
Qed.

Lemma find_no_match (rs : rules) (description : string) :
  (forall r, In r rs -> rule_matches description r = false) ->
  find (rule_matches description) rs = None.
Proof.
  induction rs as [|r rs IH]; intros Hn; simpl; [reflexivity|].
  rewrite (Hn r (or_introl eq_refl)). apply IH.
  intros r' Hin. apply Hn. now right.
Qed.

Lemma total_classify_all (rs : rules) (ts : list txn.t) :
  total (classify_all rs ts) = py_sum (map txn.get_amount ts).
Proof.
  unfold classify_all.
  assert (G : forall d, total (fold_left (classify_into rs) ts d)
                        = total d + py_sum (map txn.get_amount ts)).
  { induction ts as [|t ts IH]; intros d; simpl.
    - rewrite py_sum_nil. ring.
    - rewrite IH, classify_into_label, total_add, py_sum_cons. ring. }
  rewrite G. unfold total at 1. simpl. rewrite py_sum_nil. ring.
Qed.

Lemma classify_all_label_sums (rs : rules) (ts : list txn.t) :
  classify_all rs ts = label_sums rs ts.
Proof.
  unfold classify_all, label_sums. generalize (@nil (string * Qc)).
  induction ts as [|t ts IH]; intros d; simpl; [reflexivity|].
  now rewrite classify_into_label, IH.
Qed.

End Scan.

Lemma percentage_of_zero_total (a s : Qc) : s = 0 -> percentage_of a s = 0.
Proof. intros ->. reflexivity. Qed.

Lemma percentage_of_pos (a s : Qc) :
  0 < s -> percentage_of a s = a / s * of_Z 100.
Proof.
  intros P. unfold percentage_of, gtb. apply ltb_lt in P. now rewrite P.
Qed.

(** The shares of a breakdown whose sum is positive add up to 100. *)
Lemma percentages_sum (d : sums) :
  0 < total d ->
  py_sum (map (fun item => percentage_of (snd item) (total d))
              (sorted_desc snd d)) = of_Z 100.
Proof.
  intros P.
  rewrite (map_ext _ (fun item => snd item * (/ total d * of_Z 100))).
  2:{ intros item. rewrite (percentage_of_pos _ _ P). unfold Qcdiv. ring. }
  rewrite <- (map_map snd (fun x => x * (/ total d * of_Z 100))).
  rewrite py_sum_scale.
  rewrite (py_sum_perm _ (map snd d))
    by apply Permutation_map, sorted_desc_perm.
  change (py_sum (map snd d)) with (total d).
  assert (N : total d <> 0).
  { intros E. rewrite E in P. exact (Qclt_not_eq _ _ P eq_refl). }
  field. exact N.
Qed.

End analyzer_facts.

Module classification.
Import num num_facts analyzer classifier_spec analyzer_facts.

Section Claims.
Context `{Python}.

(** C8.  Both classifiers lower-case the description of each transaction
    and go through the rules in declaration order; the amount goes under
    the label of the first rule one of whose keywords occurs in the
    description and under no other label, and under ["Другое"] when no rule
    has such a keyword. *)
Theorem classifier_first_rule_wins :
  (forall ts,
     expense_analyzer.categorize_expenses ts =
     let categories := label_sums expense_analyzer.category_keywords ts in
     map (fun '(category, amount) =>
            expense_analyzer.mk_share category amount
              (percentage_of amount (total categories)))
         (sorted_desc snd categories)) /\
  (forall ts,
     income_analyzer.analyze_income_sources ts =
     let sources := label_sums income_analyzer.source_keywords ts in
     map (fun '(source, amount) =>
            income_analyzer.mk_share source amount
              (percentage_of amount (total sources)))
         (sorted_desc snd sources)) /\
  (forall (rs : rules) (d : sums) (t : txn.t),
     let label := first_match_label rs (lower (txn.get_description t)) in
     classify_into rs d t = add d label (txn.get_amount t) /\
     value_of (classify_into rs d t) label
     = value_of d label + txn.get_amount t /\
     forall other, other <> label ->
       value_of (classify_into rs d t) other = value_of d other) /\
  (forall (rs before after : rules) label keywords description,
     rs = before ++ (label, keywords) :: after ->
     (forall r keyword, In r before -> In keyword (snd r) ->
        pystr.contains (lower keyword) description = false) ->
     (exists keyword, In keyword keywords /\
        pystr.contains (lower keyword) description = true) ->
     first_match_label rs description = label) /\
  (forall (rs : rules) description,
     (forall r keyword, In r rs -> In keyword (snd r) ->
        pystr.contains (lower keyword) description = false) ->
     first_match_label rs description = "Другое").
Proof.
  assert (No : forall description (r : string * list string),
             (forall keyword, In keyword (snd r) ->
                pystr.contains (lower keyword) description = false) ->
             rule_matches description r = false).
  { intros description r Hk. unfold rule_matches.
    destruct (existsb _ (snd r)) eqn:E; [|reflexivity].
    apply existsb_exists in E. destruct E as [k [Hin Hc]].
    rewrite (Hk k Hin) in Hc. discriminate. }
  split; [|split; [|split; [|split]]].
  - intros ts. unfold expense_analyzer.categorize_expenses.
    now rewrite classify_all_label_sums.
  - intros ts. unfold income_analyzer.analyze_income_sources.
    now rewrite classify_all_label_sums.
  - intros rs d t label. subst label. rewrite classify_into_label.
    split; [reflexivity|]. split.
    + apply value_of_add_same.
    + intros other. apply value_of_add_other.
  - intros rs before after label keywords description E Hb [k [Hin Hc]].
    unfold first_match_label.
    rewrite (find_first_match rs before after (label, keywords) description E).
    + reflexivity.
    + intros r Hr. apply No. intros keyword. now apply Hb.
    + unfold rule_matches. apply existsb_exists. now exists k.
  - intros rs description Hn. unfold first_match_label.
    rewrite find_no_match; [reflexivity|].
    intros r Hr. apply No. intros keyword. now apply Hn.
Qed.

(** C6.  The values of [by_category] add up to [total], for the expense
    analysis and for the income analysis. *)
Theorem by_category_adds_up_to_total (transactions : list txn.t) :
  total (expense_analyzer.by_category
           (expense_analyzer.analyze_expenses transactions))
  = expense_analyzer.total (expense_analyzer.analyze_expenses transactions) /\
  total (income_analyzer.by_category
           (income_analyzer.analyze_income transactions))
  = income_analyzer.total (income_analyzer.analyze_income transactions).
Proof.
  split.
  - unfold expense_analyzer.analyze_expenses.
    destruct (filter _ transactions) as [|t ts]; [reflexivity|].
    cbn [expense_analyzer.by_category expense_analyzer.total].
    apply total_group_by_category.
  - unfold income_analyzer.analyze_income.
    destruct (filter _ transactions) as [|t ts]; [reflexivity|].
    cbn [income_analyzer.by_category income_analyzer.total].
    apply total_group_by_category.
Qed.

(** C7, as amended.  Under exact arithmetic (amounts as exact rationals,
    no rounding): in the breakdown of [categorize_expenses] and in that of
    [analyze_income_sources] the amounts of the labels add up to the sum of
    the transactions' amounts; when that total is positive every
    percentage is the label's amount over the total times 100 and the
    percentages add up to exactly 100; when it is 0 every percentage is 0.
    On binary64 floats the percentages add up to 100 up to rounding only:
    for the label sums 2.0 and 1.0 they add up to 99.99999999999999. *)
Theorem percentages_add_up_to_100 (transactions : list txn.t) :
  let sum_of_amounts := py_sum (map txn.get_amount transactions) in
  let categories := expense_analyzer.categorize_expenses transactions in
  let sources := income_analyzer.analyze_income_sources transactions in
  (py_sum (map expense_analyzer.amount categories) = sum_of_amounts /\
   (0 < sum_of_amounts ->
      Forall (fun c => expense_analyzer.percentage c
                       = expense_analyzer.amount c / sum_of_amounts * of_Z 100)
             categories /\
      py_sum (map expense_analyzer.percentage categories) = of_Z 100) /\
   (sum_of_amounts = 0 ->
      Forall (fun c => expense_analyzer.percentage c = 0) categories)) /\
  (py_sum (map income_analyzer.amount sources) = sum_of_amounts /\
   (0 < sum_of_amounts ->
      Forall (fun c => income_analyzer.percentage c
                       = income_analyzer.amount c / sum_of_amounts * of_Z 100)
             sources /\
      py_sum (map income_analyzer.percentage sources) = of_Z 100) /\
   (sum_of_amounts = 0 ->
      Forall (fun c => income_analyzer.percentage c = 0) sources)).
Proof.
  cbv zeta. split.
  - unfold expense_analyzer.categorize_expenses.
    set (d := classify_all expense_analyzer.category_keywords transactions).
    assert (T : total d = py_sum (map txn.get_amount transactions))
      by apply total_classify_all.
    rewrite <- T. split; [|split].
    + rewrite map_map.
      rewrite (map_ext _ snd) by (intros [c a]; reflexivity).
      apply py_sum_perm, Permutation_map, sorted_desc_perm.
    + intros P. split.
      * apply Forall_forall. intros c Hc. apply in_map_iff in Hc.
        destruct Hc as [[l a] [<- _]]. cbn. now apply percentage_of_pos.
      * rewrite map_map.
        rewrite (map_ext _ (fun item => percentage_of (snd item) (total d)))
          by (intros [c a]; reflexivity).
        now apply percentages_sum.
    + intros Z. apply Forall_forall. intros c Hc. apply in_map_iff in Hc.
      destruct Hc as [[l a] [<- _]]. cbn. now apply percentage_of_zero_total.
  - unfold income_analyzer.analyze_income_sources.
    set (d := classify_all income_analyzer.source_keywords transactions).
    assert (T : total d = py_sum (map txn.get_amount transactions))
      by apply total_classify_all.
    rewrite <- T. split; [|split].
    + rewrite map_map.
      rewrite (map_ext _ snd) by (intros [c a]; reflexivity).
      apply py_sum_perm, Permutation_map, sorted_desc_perm.
    + intros P. split.
      * apply Forall_forall. intros c Hc. apply in_map_iff in Hc.
        destruct Hc as [[l a] [<- _]]. cbn. now apply percentage_of_pos.
      * rewrite map_map.
        rewrite (map_ext _ (fun item => percentage_of (snd item) (total d)))
          by (intros [c a]; reflexivity).
        now apply percentages_sum.
    + intros Z. apply Forall_forall. intros c Hc. apply in_map_iff in Hc.
      destruct Hc as [[l a] [<- _]]. cbn. now apply percentage_of_zero_total.
Qed.

(** C9.  A transaction without the key [is_income] is left out by the
    filter of [analyze_expenses] (which reads the missing flag as true) and
    by the filter of [analyze_income] (which reads it as false): neither
    analysis changes when the transaction is removed from the list. *)
Theorem missing_is_income_counted_nowhere
        (t : txn.t) (before after : list txn.t) :
  txn.is_income t = None ->
  filter (fun t => negb (txn.get_is_income t true)) [t] = [] /\
  filter (fun t => txn.get_is_income t false) [t] = [] /\
  expense_analyzer.analyze_expenses (before ++ t :: after)
  = expense_analyzer.analyze_expenses (before ++ after) /\
  income_analyzer.analyze_income (before ++ t :: after)
  = income_analyzer.analyze_income (before ++ after).
Proof.
  intros E.
  assert (X : negb (txn.get_is_income t true) = false)
    by (unfold txn.get_is_income; now rewrite E).
  assert (I : txn.get_is_income t false = false)
    by (unfold txn.get_is_income; now rewrite E).
  repeat split.
  - simpl. now rewrite X.
  - simpl. now rewrite I.
  - unfold expense_analyzer.analyze_expenses.
    rewrite !filter_app. simpl. now rewrite X.
  - unfold income_analyzer.analyze_income.
    rewrite !filter_app. simpl. now rewrite I.
Qed.

End Claims.

End classification.

(** ** The analyzers on a statement of three lines *)

Module classification_examples.
Import num analyzer classifier_spec sample.
#[local] Existing Instance cpython.python.

(** The description of [restaurant] has keywords of two rules, "Питание"
    and "Представительские расходы"; the earlier one gets the amount. *)
Lemma classifier_witness :
  classify_into expense_analyzer.category_keywords [] restaurant
  = [("Питание", 0 + of_Z 25000)] /\
  first_match_label expense_analyzer.category_keywords
    (lower (txn.get_description office_rent)) = "Аренда" /\
  first_match_label income_analyzer.source_keywords
    (lower (txn.get_description salary)) = "Заработная плата".
Proof.
  destruct (@classification.classifier_first_rule_wins cpython.python)
    as [_ [_ [C _]]].
  split; [|split].
  - rewrite (proj1 (C expense_analyzer.category_keywords [] restaurant)).
    vm_compute. reflexivity.
  - vm_compute. reflexivity.
  - vm_compute. reflexivity.
Defined.

Lemma percentages_witness :
  0 < py_sum (map txn.get_amount [office_rent; restaurant]) /\
  py_sum (map expense_analyzer.percentage
              (expense_analyzer.categorize_expenses [office_rent; restaurant]))
  = of_Z 100.
Proof.
  assert (P : 0 < py_sum (map txn.get_amount [office_rent; restaurant]))
    by (apply num_facts.ltb_lt; vm_compute; reflexivity).
  split; [exact P|].
  destruct (@classification.percentages_add_up_to_100 cpython.python
              [office_rent; restaurant]) as [[_ [S _]] _].
  exact (proj2 (S P)).
Defined.

Lemma missing_is_income_witness :
  txn.is_income unflagged = None /\
  expense_analyzer.analyze_expenses [salary; unflagged; office_rent]
  = expense_analyzer.analyze_expenses [salary; office_rent] /\
  income_analyzer.analyze_income [salary; unflagged; office_rent]
  = income_analyzer.analyze_income [salary; office_rent].
Proof.
  split; [reflexivity|].
  destruct (@classification.missing_is_income_counted_nowhere cpython.python
              unflagged [salary] [office_rent] eq_refl) as [_ [_ [X I]]].
  split; [exact X | exact I].
Defined.

End classification_examples.

(** ** The parsers *)

Module parsing.
Import num num_facts base_parser kaspi_parser.

Section Claims.
Context `{Python} `{Regex} `{World}.

(** Without a type cell the stored amount is never negative: the branch
    [elif amount < 0] takes the absolute value. *)
Lemma resolve_direction_untyped_nonneg (cols : columns) (r : row) (amount : Qc) :
  is_set (type_column cols) && cell.truthy (get r (type_column cols)) = false ->
  0 <= snd (resolve_direction cols r amount).
Proof.
  intros E. unfold resolve_direction. rewrite E.
  destruct (ltb amount 0) eqn:L; simpl.
  - apply Qcabs.Qcabs_nonneg.
  - now apply ltb_ge.
Qed.

(** With a type cell the amount is stored as it was read. *)
Lemma resolve_direction_typed_amount (cols : columns) (r : row) (amount : Qc) :
  is_set (type_column cols) && cell.truthy (get r (type_column cols)) = true ->
  snd (resolve_direction cols r amount) = amount.
Proof. intros E. unfold resolve_direction. now rewrite E. Qed.

(** What [resolve_direction] leaves in a transaction. *)
Lemma table_transaction_direction (cols : columns) (r : row) (t : txn.t) :
  table_transaction cols r = Some t ->
  exists amount,
    parse_amount cols r = Some amount /\
    txn.is_income t = Some (fst (resolve_direction cols r amount)) /\
    txn.amount t = Some (snd (resolve_direction cols r amount)).
Proof.
  unfold table_transaction.
  destruct (_ || _); [discriminate|].
  destruct (parse_date _); [|discriminate].
  destruct (parse_amount cols r) as [amount|]; [|discriminate].
  destruct (resolve_direction cols r amount) as [is_income amount'] eqn:R.
  intros E. inversion E; subst; clear E. exists amount. rewrite R. simpl.
  repeat split; reflexivity.
Qed.

(** A numeric amount next to a type cell is stored with its sign. *)
Lemma typed_numeric_amount_stored_as_read
      (cols : columns) (r : row) (t : txn.t) (x : Qc) :
  is_set (amount_column cols) = true ->
  get r (amount_column cols) = cell.Num x ->
  is_set (type_column cols) && cell.truthy (get r (type_column cols)) = true ->
  table_transaction cols r = Some t ->
  txn.amount t = Some x.
Proof.
  intros A N T E.
  destruct (table_transaction_direction cols r t E) as [amount [P [_ D]]].
  unfold parse_amount in P. rewrite A, N in P. inversion P; subst.
  now rewrite D, resolve_direction_typed_amount.
Qed.

(** C2, as the code has it.  When the type cell of a row holds an income
    keyword and an expense keyword, the transaction made from the row has
    [is_income = False]: the expense keywords are tested last and win.  The
    alternative PDF format does the same with the keywords of the
    description. *)
Theorem expense_keywords_take_priority :
  (forall (cols : columns) (r : row) (t : txn.t),
     is_set (type_column cols) = true ->
     cell.truthy (get r (type_column cols)) = true ->
     pystr.any_in income_type_keywords
                  (lower (str (get r (type_column cols)))) = true ->
     pystr.any_in expense_type_keywords
                  (lower (str (get r (type_column cols)))) = true ->
     table_transaction cols r = Some t ->
     txn.is_income t = Some false) /\
  (forall description,
     keyword_in_description income_keywords description = true ->
     keyword_in_description expense_keywords description = true ->
     alt_is_income description = false).
Proof.
  split.
  - intros cols r t S T _ X E.
    destruct (table_transaction_direction cols r t E) as [amount [_ [D _]]].
    rewrite D. unfold resolve_direction. now rewrite S, T, X.
  - intros description _ X. unfold alt_is_income. now rewrite X.
Qed.

(** Reading a CSV file always binds [data]: once each encoding has been
    tried for a delimiter, one of the attempts has returned, so the test
    [if data] after the loop finds the variable bound. *)
Lemma try_encodings_binds (file_path delimiter : string) (data : option (list row)) :
  exists d,
    try_encodings file_path delimiter ["utf-8"; "cp1251"; "latin1"] data = Some d.
Proof.
  cbn [try_encodings]. unfold extract_data_from_csv. cbn [retry_encodings].
  destruct (read_csv file_path "utf-8" delimiter) as [d1| |],
           (read_csv file_path "cp1251" delimiter) as [d2| |],
           (read_csv file_path "latin1" delimiter) as [d3| |];
    repeat match goal with
           | |- context [nonempty ?d] => destruct (nonempty d)
           end;
    eexists; reflexivity.
Qed.

Lemma try_delimiters_returns (file_path : string) (delimiters : list string)
      (data : option (list row)) :
  delimiters <> [] \/ data <> None ->
  exists d, try_delimiters file_path delimiters data = Return d.
Proof.
  revert data. induction delimiters as [|delimiter rest IH]; intros data B.
  - destruct data as [d|]; [now exists d | destruct B as [B | B]; now contradiction B].
  - cbn [try_delimiters].
    destruct (try_encodings_binds file_path delimiter data) as [d ->].
    destruct (nonempty d); [now exists d|].
    apply IH. right. discriminate.
Qed.

(** The three Kaspi parsers return a list for every path: nothing in
    them raises. *)
Lemma kaspi_parse_file_returns (p : parser) (file_path : string) :
  In p [KaspiPDFParser; KaspiExcelParser; KaspiCSVParser] ->
  exists transactions, analysis_controller.parse_file p file_path = Return transactions.
Proof.
  intros [<- | [<- | [<- | []]]]; cbn [analysis_controller.parse_file];
    try (eexists; reflexivity).
  unfold csv_parse_file.
  destruct (negb (validate_file file_path)); [eexists; reflexivity|].
  destruct (try_delimiters_returns file_path [","; ";"; tab] None) as [d ->].
  - left. discriminate.
  - destruct d; eexists; reflexivity.
Qed.

(** C4, as the code has it.  When neither the headers nor the cells give
    a date column and an amount column, [parse_file] of the Excel parser
    and of the CSV parser return the empty list like any other result:
    nothing is raised and no transaction is made up. *)
Theorem unrecognized_structure_returns_empty :
  (forall sniff_cell data,
     mandatory_found (find_columns sniff_cell data) = false ->
     table_transactions sniff_cell data = []) /\
  (forall file_path,
     mandatory_found
       (find_columns excel_sniff_cell (extract_data_from_excel file_path)) = false ->
     analysis_controller.parse_file KaspiExcelParser file_path = Return []) /\
  (forall file_path,
     exists data,
       try_delimiters file_path [","; ";"; tab] None = Return data /\
       (mandatory_found (find_columns csv_sniff_cell data) = false ->
        analysis_controller.parse_file KaspiCSVParser file_path = Return [])).
Proof.
  assert (G : forall sniff_cell data,
             mandatory_found (find_columns sniff_cell data) = false ->
             table_transactions sniff_cell data = []).
  { intros sniff_cell data M. unfold table_transactions. now rewrite M. }
  split; [exact G|]. split.
  - intros file_path M. cbn [analysis_controller.parse_file].
    unfold excel_parse_file.
    destruct (validate_file file_path); [|reflexivity]. cbn [negb].
    destruct (extract_data_from_excel file_path) as [|r data]; [reflexivity|].
    now rewrite (G _ _ M).
  - intros file_path.
    destruct (try_delimiters_returns file_path [","; ";"; tab] None)
      as [data R]; [left; discriminate|].
    exists data. split; [exact R|].
    intros M. cbn [analysis_controller.parse_file].
    unfold csv_parse_file.
    destruct (validate_file file_path); [|reflexivity]. cbn [negb].
    rewrite R. destruct data as [|r data]; [reflexivity|].
    now rewrite (G _ _ M).
Qed.

(** The registry is exactly what [get_parser_for_statement] serves. *)
Lemma registered_pair_has_parser (statement : StatementFile) :
  halyk_parser_found = true ->
  factory_spec.registered
    (Code statement) (lower (pystr.split_dot_last (FileName statement))) = true ->
  exists parser, get_parser_for_statement statement = Return (Some parser).
Proof.
  intros F. unfold factory_spec.registered, get_parser_for_statement.
  rewrite F. cbn [negb existsb factory_spec.banks factory_spec.extensions].
  set (ext := lower _). set (code := Code statement).
  destruct (String.eqb code "KASPI"), (String.eqb code "HALYK"),
           (String.eqb ext "pdf"), (String.eqb ext "xlsx"),
           (String.eqb ext "xls"), (String.eqb ext "csv");
    cbn; intros D; try discriminate D; eexists; reflexivity.
Qed.

Lemma unregistered_pair_has_none (statement : StatementFile) :
  factory_spec.registered
    (Code statement) (lower (pystr.split_dot_last (FileName statement))) = false ->
  get_parser_for_statement statement
  = if halyk_parser_found then Return None else Raise ModuleNotFoundError.
Proof.
  unfold factory_spec.registered, get_parser_for_statement.
  destruct halyk_parser_found; [|reflexivity].
  cbn [negb existsb factory_spec.banks factory_spec.extensions].
  set (ext := lower _). set (code := Code statement).
  destruct (String.eqb code "KASPI"), (String.eqb code "HALYK"),
           (String.eqb ext "pdf"), (String.eqb ext "xlsx"),
           (String.eqb ext "xls"), (String.eqb ext "csv");
    cbn; intros D; try discriminate D; reflexivity.
Qed.

End Claims.

End parsing.

(** ** The processing task *)

Module pipeline.
Import base_parser analysis_controller.

Lemma find_update_first (id : nat) (f : StatementFile -> StatementFile)
      (rows : list StatementFile) (s : StatementFile) :
  (forall x, Id (f x) = Id x) ->
  find (fun s => Nat.eqb (Id s) id) rows = Some s ->
  find (fun s => Nat.eqb (Id s) id) (update_first id f rows) = Some (f s).
Proof.
  intros K. induction rows as [|x rows IH]; simpl; [discriminate|].
  destruct (Nat.eqb (Id x) id) eqn:E; simpl.
  - intros X. inversion X; subst. now rewrite K, E.
  - rewrite E. exact IH.
Qed.


Section Claims.
Context `{Python} `{Regex} `{World}.


End Claims.

End pipeline.

(** ** The parsers and the task on sample statements *)

Module parsing_examples.
Import num base_parser kaspi_parser analysis_controller sample.
#[local] Existing Instance cpython.python.
#[local] Existing Instance no_pdf_text.

(** C1, where the code departs from it.  An expense line with the amount
    cell [-100000] next to a type cell ["расход"]: the Excel parser and the
    CSV parser store the amount as it is, negative, with [is_income =
    False]; the absolute value is only taken when there is no type cell. *)
Theorem negative_amount_kept_with_type_column :
  let W := table_world negative_expense_rows in
  map txn.amount (@excel_parse_file _ W "kaspi.xlsx") = [Some (of_Z (-100000))] /\
  map txn.is_income (@excel_parse_file _ W "kaspi.xlsx") = [Some false] /\
  @parse_file _ _ W KaspiCSVParser "kaspi.csv"
  = Return (@excel_parse_file _ W "kaspi.xlsx") /\
  ltb (of_Z (-100000)) 0 = true.
Proof. cbv zeta. repeat split; vm_compute; reflexivity. Qed.

(** The statement of two lines parses to the income [salary] and the
    expense [office_rent], which the classifiers file under "Заработная
    плата" and "Аренда". *)
Example salary_and_rent_round_trip :
  let W := table_world salary_and_rent_rows in
  @parse_file _ _ W KaspiCSVParser "kaspi.csv" = Return [salary; office_rent] /\
  map income_analyzer.source
      (income_analyzer.sources
         (income_analyzer.analyze_income [salary; office_rent]))
  = ["Заработная плата"] /\
  map expense_analyzer.category
      (expense_analyzer.categories
         (expense_analyzer.analyze_expenses [salary; office_rent]))
  = ["Аренда"].
Proof. cbv zeta. repeat split; vm_compute; reflexivity. Qed.

(** The claim C2 fails on a type cell reading "credit (debit reversal)". *)
Lemma both_keywords_counterexample :
  let W := table_world both_keywords_rows in
  pystr.any_in income_type_keywords (lower "credit (debit reversal)") = true /\
  pystr.any_in expense_type_keywords (lower "credit (debit reversal)") = true /\
  map txn.is_income (@excel_parse_file _ W "kaspi.xlsx") = [Some false] /\
  @parse_file _ _ W KaspiCSVParser "kaspi.csv"
  = Return (@excel_parse_file _ W "kaspi.xlsx").
Proof. cbv zeta. repeat split; vm_compute; reflexivity. Qed.

Lemma expense_priority_witness :
  header_columns (hd [] both_keywords_rows) = both_keywords_columns /\
  table_transaction both_keywords_columns (hd [] both_keywords_rows) = Some refund /\
  txn.is_income refund = Some false.
Proof.
  split; [vm_compute; reflexivity|].
  assert (T : table_transaction both_keywords_columns (hd [] both_keywords_rows)
              = Some refund) by (vm_compute; reflexivity).
  split; [exact T|].
  refine (proj1 (@parsing.expense_keywords_take_priority cpython.python)
                both_keywords_columns (hd [] both_keywords_rows) refund _ _ _ _ T);
    vm_compute; reflexivity.
Defined.

(** The claim C4 fails on a table with the columns A and B and the cells
    "hello" and "world": both parsers return the empty list as their
    result, and the task stores an analysis of zeros and marks the
    statement [COMPLETED]. *)
Lemma unrecognized_structure_counterexample :
  let W := table_world unrecognized_rows in
  let db := pending (statement 1 "kaspi.xlsx" "KASPI") in
  mandatory_found (find_columns excel_sniff_cell unrecognized_rows) = false /\
  mandatory_found (@find_columns _ (@csv_sniff_cell _) unrecognized_rows) = false /\
  @parse_file _ _ W KaspiExcelParser "kaspi.xlsx" = Return [] /\
  @parse_file _ _ W KaspiCSVParser "kaspi.csv" = Return [] /\
  option_map ProcessingStatus
    (find_statement (@process_statement_file _ _ W 1 db) 1) = Some COMPLETED /\
  List.length (AnalysisResults (@process_statement_file _ _ W 1 db)) = 1%nat.
Proof. cbv zeta. repeat split; vm_compute; reflexivity. Qed.

Lemma unrecognized_structure_witness :
  let W := table_world unrecognized_rows in
  mandatory_found
    (find_columns excel_sniff_cell (@extract_data_from_excel _ W "kaspi.xlsx"))
  = false /\
  @parse_file _ _ W KaspiExcelParser "kaspi.xlsx" = Return [].
Proof.
  cbv zeta.
  assert (M : mandatory_found
                (find_columns excel_sniff_cell
                   (@extract_data_from_excel _ (table_world unrecognized_rows)
                                             "kaspi.xlsx")) = false)
    by (vm_compute; reflexivity).
  split; [exact M|].
  exact (proj1 (proj2 (@parsing.unrecognized_structure_returns_empty
                         cpython.python no_pdf_text
                         (table_world unrecognized_rows)))
               "kaspi.xlsx" M).
Defined.



End parsing_examples.

(** ** The tax of every regime and the recommendations *)

Module tax_regimes_facts.
Import num num_facts tax_calculator tax_regimes.

Lemma py_max_nonneg (x : Qc) : 0 <= py_max 0 x.
Proof.
  unfold py_max, gtb. destruct (ltb 0 x) eqn:E.
  - apply Qclt_le_weak. now apply ltb_lt.
  - apply Qcle_refl.
Qed.

Lemma rate_10_le_20 : of_Z 10 / of_Z 100 <= of_Z 20 / of_Z 100.
Proof. apply ltb_ge. vm_compute. reflexivity. Qed.

(** The general regime of a company never costs less than that of an
    individual entrepreneur. *)
Lemma ip_general_le_too_general (i e : Qc) :
  tax_amount (calculate_tax i e "ip_general")
  <= tax_amount (calculate_tax i e "too_general").
Proof.
  change (py_max 0 (i - e) * (of_Z 10 / of_Z 100)
          <= py_max 0 (i - e) * (of_Z 20 / of_Z 100)).
  rewrite !(Qcmult_comm (py_max 0 (i - e))).
  apply Qcmult_le_compat_r; [apply rate_10_le_20 | apply py_max_nonneg].
Qed.

Lemma simplified_regimes_cost_the_same (i e : Qc) :
  tax_amount (calculate_tax i e "too_simplified")
  = tax_amount (calculate_tax i e "ip_simplified").
Proof. reflexivity. Qed.

(** Which entry [min] settles on. *)
Lemma optimal_regime_eq (i e : Qc) :
  optimal_regime (calculate_tax_for_all_regimes i e)
  = if ltb (tax_amount (calculate_tax i e "ip_general"))
           (tax_amount (calculate_tax i e "ip_simplified"))
    then "ip_general" else "ip_simplified".
Proof.
  pose proof (ip_general_le_too_general i e) as G.
  unfold calculate_tax_for_all_regimes, regimes.
  cbn [map builtins.min_by optimal_regime]. unfold entry_tax_amount.
  cbn [snd tax_data].
  destruct (ltb (tax_amount (calculate_tax i e "ip_general"))
                (tax_amount (calculate_tax i e "ip_simplified"))) eqn:L;
    cbn [snd tax_data]; rewrite simplified_regimes_cost_the_same.
  - replace (ltb (tax_amount (calculate_tax i e "ip_simplified"))
                 (tax_amount (calculate_tax i e "ip_general"))) with false.
    2:{ symmetry. apply ltb_ge, Qclt_le_weak. now apply ltb_lt. }
    cbn [snd tax_data].
    replace (ltb (tax_amount (calculate_tax i e "too_general"))
                 (tax_amount (calculate_tax i e "ip_general"))) with false.
    2:{ symmetry. now apply ltb_ge. }
    reflexivity.
  - rewrite ltb_irrefl. cbn [snd tax_data].
    replace (ltb (tax_amount (calculate_tax i e "too_general"))
                 (tax_amount (calculate_tax i e "ip_simplified"))) with false.
    2:{ symmetry. apply ltb_ge. apply ltb_ge in L.
        eapply Qcle_trans; [exact L | exact G]. }
    reflexivity.
Qed.

(** X1.  [calculate_tax_for_all_regimes] lists the four regimes in
    declaration order, each with the result of [calculate_tax] for it, and
    the regime it names optimal is one of them whose tax amount is the
    least of the four. *)
Theorem optimal_regime_is_cheapest (i e : Qc) :
  let result := calculate_tax_for_all_regimes i e in
  map fst (by_regime result)
  = ["ip_simplified"; "ip_general"; "too_simplified"; "too_general"] /\
  (forall code entry, In (code, entry) (by_regime result) ->
     tax_data entry = calculate_tax i e code) /\
  exists optimal,
    builtins.lookup (by_regime result) (optimal_regime result) = Some optimal /\
    forall code entry, In (code, entry) (by_regime result) ->
      tax_amount (tax_data optimal) <= tax_amount (tax_data entry).
Proof.
  cbv zeta. split; [reflexivity|]. split.
  - intros code entry H. cbn in H.
    repeat (destruct H as [H | H]; [inversion H; subst; reflexivity|]).
    destruct H.
  - rewrite optimal_regime_eq.
    pose proof (ip_general_le_too_general i e) as G.
    destruct (ltb _ _) eqn:L.
    + eexists. split; [reflexivity|]. cbn [tax_data].
      apply ltb_lt, Qclt_le_weak in L.
      intros code entry H. cbn in H.
      destruct H as [H | [H | [H | [H | []]]]]; inversion H; subst; cbn [tax_data].
      * exact L.
      * apply Qcle_refl.
      * exact L.
      * exact G.
    + eexists. split; [reflexivity|]. cbn [tax_data].
      apply ltb_ge in L.
      intros code entry H. cbn in H.
      destruct H as [H | [H | [H | [H | []]]]]; inversion H; subst; cbn [tax_data].
      * apply Qcle_refl.
      * exact L.
      * apply Qcle_refl.
      * eapply Qcle_trans; [exact L | exact G].
Qed.

(** X2.  The optimal regime is always one of the two regimes of an
    individual entrepreneur: it is ["ip_general"] exactly when that regime
    costs strictly less than ["ip_simplified"], and ["ip_simplified"]
    otherwise, ties included; the two regimes of a company are never
    named. *)
Theorem optimal_regime_is_an_ip_regime (i e : Qc) :
  let result := calculate_tax_for_all_regimes i e in
  let general := tax_amount (calculate_tax i e "ip_general") in
  let simplified := tax_amount (calculate_tax i e "ip_simplified") in
  (optimal_regime result = "ip_general" <-> general < simplified) /\
  (optimal_regime result = "ip_simplified" <-> simplified <= general) /\
  optimal_regime result <> "too_simplified" /\
  optimal_regime result <> "too_general".
Proof.
  cbv zeta. rewrite optimal_regime_eq.
  destruct (ltb _ _) eqn:L.
  - pose proof (proj1 (ltb_lt _ _) L) as P.
    repeat split; try discriminate; try (intros _; exact P).
    intros Q. exfalso. exact (Qcle_not_lt _ _ Q P).
  - pose proof (proj1 (ltb_ge _ _) L) as P.
    repeat split; try discriminate; try (intros _; exact P).
    intros Q. exfalso. exact (Qcle_not_lt _ _ P Q).
Qed.

Section Recommendations.
Context `{Format}.

(** X3.  On the result of [calculate_tax_for_all_regimes] the
    recommendations are always built (no key is missing): the potential
    savings are the tax under ["ip_simplified"] minus the optimal tax and
    are never negative; when they are 0 the only recommendation is the
    planning one; when they are positive there are exactly three, the
    change of regime and the accounting of expenses, both with these
    savings, and the planning one last. *)
Theorem savings_recommendations_shape (i e : Qc) :
  let tax_data_all := calculate_tax_for_all_regimes i e in
  let simplified := tax_amount (calculate_tax i e "ip_simplified") in
  let general := tax_amount (calculate_tax i e "ip_general") in
  exists report,
    get_tax_savings_recommendations tax_data_all = Return report /\
    current_regime report = "ip_simplified" /\
    report_optimal_regime report = optimal_regime tax_data_all /\
    0 <= potential_savings report /\
    (simplified <= general ->
       potential_savings report = 0 /\
       recommendations report = [planning]) /\
    (general < simplified ->
       potential_savings report = simplified - general /\
       0 < potential_savings report /\
       recommendations report =
       [ regime_change "ИП, общий режим (прибыль)" (simplified - general);
         expense_accounting (simplified - general);
         planning ]).
Proof.
  cbv zeta. unfold get_tax_savings_recommendations.
  rewrite optimal_regime_eq.
  assert (Pos : forall a b : Qc, a < b -> 0 < b - a).
  { intros a b L. unfold Qcminus. rewrite <- (Qcplus_opp_r a).
    apply Qclt_minus_iff. ring_simplify. now apply Qclt_minus_iff in L. }
  destruct (ltb (tax_amount (calculate_tax i e "ip_general"))
                (tax_amount (calculate_tax i e "ip_simplified"))) eqn:L.
  - pose proof (proj1 (ltb_lt _ _) L) as P.
    cbn [builtins.lookup calculate_tax_for_all_regimes by_regime map regimes
         String.eqb Ascii.eqb Bool.eqb tax_data regime_name].
    unfold gtb. rewrite (proj2 (ltb_lt _ _) (Pos _ _ P)), L.
    eexists. split; [reflexivity|].
    cbn [current_regime report_optimal_regime potential_savings recommendations].
    split; [reflexivity|]. split; [reflexivity|].
    split; [apply Qclt_le_weak; now apply Pos|]. split.
    + intros Q. exfalso. exact (Qcle_not_lt _ _ Q P).
    + intros _. split; [reflexivity|]. split; [now apply Pos | reflexivity].
  - pose proof (proj1 (ltb_ge _ _) L) as P.
    cbn [builtins.lookup calculate_tax_for_all_regimes by_regime map regimes
         String.eqb Ascii.eqb Bool.eqb tax_data regime_name].
    assert (Z : tax_amount (calculate_tax i e "ip_simplified")
                - tax_amount (calculate_tax i e "ip_simplified") = 0) by ring.
    rewrite Z. unfold gtb. rewrite ltb_irrefl, L.
    eexists. split; [reflexivity|].
    cbn [current_regime report_optimal_regime potential_savings recommendations].
    split; [reflexivity|]. split; [reflexivity|].
    split; [apply Qcle_refl|]. split.
    + intros _. split; reflexivity.
    + intros Q. exfalso. exact (Qcle_not_lt _ _ P Q).
Qed.

End Recommendations.

End tax_regimes_facts.

(** ** More on the dicts of sums and on the sort *)

Module sums_facts.
Import num num_facts analyzer analyzer_facts.

Lemma keys_add (d : sums) (key : string) (v : Qc) (k : string) :
  In k (map fst (add d key v)) <-> In k (map fst d) \/ k = key.
Proof.
  induction d as [|[k0 x] d IH]; simpl.
  - intuition.
  - destruct (String.eqb k0 key) eqn:E; simpl.
    + apply String.eqb_eq in E. subst. intuition.
    + rewrite IH. intuition.
Qed.

(** [d[key] += v] keeps the keys of a dict distinct. *)
Lemma add_NoDup (d : sums) (key : string) (v : Qc) :
  NoDup (map fst d) -> NoDup (map fst (add d key v)).
Proof.
  induction d as [|[k0 x] d IH]; simpl; intros N.
  - constructor; [intros [] | constructor].
  - inversion N as [|? ? Hn Hd]; subst.
    destruct (String.eqb k0 key) eqn:E; simpl.
    + now constructor.
    + constructor; [|now apply IH].
      intros Hin. apply keys_add in Hin. destruct Hin as [Hin | ->].
      * now apply Hn.
      * now rewrite String.eqb_refl in E.
Qed.

Lemma fold_add_NoDup {A} (key : A -> string) (val : A -> Qc)
      (xs : list A) (d : sums) :
  NoDup (map fst d) ->
  NoDup (map fst (fold_left (fun d x => add d (key x) (val x)) xs d)).
Proof.
  revert d. induction xs as [|x xs IH]; intros d N; simpl; [exact N|].
  apply IH. now apply add_NoDup.
Qed.

(** Every key of such a dict was there at the start or is the key of an
    element of the list. *)
Lemma fold_add_keys {A} (key : A -> string) (val : A -> Qc)
      (xs : list A) (d : sums) (k : string) :
  In k (map fst (fold_left (fun d x => add d (key x) (val x)) xs d)) <->
  In k (map fst d) \/ exists x, In x xs /\ key x = k.
Proof.
  revert d. induction xs as [|x xs IH]; intros d; simpl.
  - split; [now left | intros [H | [x [[] _]]]; exact H].
  - rewrite IH, keys_add. split.
    + intros [[H | ->] | [y [Hy E]]].
      * now left.
      * right. exists x. split; [now left | reflexivity].
      * right. exists y. split; [now right | exact E].
    + intros [H | [y [[-> | Hy] E]]].
      * left. now left.
      * left. right. now symmetry.
      * right. now exists y.
Qed.

(** The entry of a key is the sum of the values filed under it. *)
Lemma fold_add_value {A} (key : A -> string) (val : A -> Qc)
      (xs : list A) (d : sums) (k : string) :
  value_of (fold_left (fun d x => add d (key x) (val x)) xs d) k
  = value_of d k
    + py_sum (map val (filter (fun x => String.eqb (key x) k) xs)).
Proof.
  revert d. induction xs as [|x xs IH]; intros d; simpl.
  - rewrite py_sum_nil. ring.
  - rewrite IH. destruct (String.eqb (key x) k) eqn:E; simpl.
    + apply String.eqb_eq in E. subst.
      rewrite value_of_add_same, py_sum_cons. ring.
    + rewrite value_of_add_other; [reflexivity|].
      intros ->. now rewrite String.eqb_refl in E.
Qed.

Lemma value_of_In (d : sums) (k : string) (v : Qc) :
  NoDup (map fst d) -> In (k, v) d -> value_of d k = v.
Proof.
  induction d as [|[k0 x] d IH]; simpl; intros N H; [destruct H|].
  inversion N as [|? ? Hn Hd]; subst.
  destruct H as [H | H].
  - inversion H; subst. now rewrite String.eqb_refl.
  - destruct (String.eqb k0 k) eqn:E; [|now apply IH].
    apply String.eqb_eq in E. subst. exfalso. apply Hn.
    apply in_map_iff. now exists (k, v).
Qed.

(** The sort puts the keys in descending order. *)
Lemma insert_desc_sorted {A} (key : A -> Qc) (x : A) (l : list A) :
  StronglySorted (fun a b => key b <= key a) l ->
  StronglySorted (fun a b => key b <= key a) (insert_desc key x l).
Proof.
  induction l as [|y l IH]; simpl; intros S.
  - constructor; [constructor | constructor].
  - inversion S as [|? ? Sl Fy]; subst.
    destruct (ltb (key x) (key y)) eqn:E.
    + constructor; [now apply IH|].
      apply Forall_forall. intros z Hz.
      apply (Permutation_in _ (insert_desc_perm key x l)) in Hz.
      destruct Hz as [<- | Hz].
      * apply Qclt_le_weak. now apply ltb_lt.
      * rewrite Forall_forall in Fy. now apply Fy.
    + apply ltb_ge in E. constructor; [exact S|].
      constructor; [exact E|].
      rewrite Forall_forall in Fy |- *. intros z Hz.
      eapply Qcle_trans; [apply Fy, Hz | exact E].
Qed.

Lemma sorted_desc_sorted {A} (key : A -> Qc) (l : list A) :
  StronglySorted (fun a b => key b <= key a) (sorted_desc key l).
Proof.
  induction l as [|x l IH]; simpl; [constructor|].
  now apply insert_desc_sorted.
Qed.

(** The first element of a descending list is a largest one, the last a
    smallest one. *)
Lemma first_is_largest {A} (key : A -> Qc) (l : list A) (x : A) :
  StronglySorted (fun a b => key b <= key a) l ->
  first_or_none l = Some x ->
  In x l /\ forall y, In y l -> key y <= key x.
Proof.
  destruct l as [|h l]; simpl; intros S E; [discriminate|].
  inversion E; subst. inversion S as [|? ? _ F]; subst.
  split; [now left|]. intros y [<- | Hy]; [apply Qcle_refl|].
  rewrite Forall_forall in F. now apply F.
Qed.

Lemma last_is_smallest {A} (key : A -> Qc) (l : list A) (x : A) :
  StronglySorted (fun a b => key b <= key a) l ->
  last_or_none l = Some x ->
  In x l /\ forall y, In y l -> key x <= key y.
Proof.
  induction l as [|h l IH]; intros S E; [discriminate|].
  inversion S as [|? ? Sl F]; subst.
  destruct l as [|h' l].
  - simpl in E. inversion E; subst. split; [now left|].
    intros y [<- | []]. apply Qcle_refl.
  - change (last_or_none (h :: h' :: l)) with (last_or_none (h' :: l)) in E.
    destruct (IH Sl E) as [Hin Hmin]. split; [now right|].
    intros y [<- | Hy]; [|now apply Hmin].
    rewrite Forall_forall in F. now apply F.
Qed.

Lemma last_or_none_nonempty {A} (l : list A) :
  l <> [] -> exists x, last_or_none l = Some x.
Proof.
  induction l as [|h l IH]; intros N; [now contradiction N|].
  destruct l as [|h' l]; [now exists h|].
  apply IH. discriminate.
Qed.

End sums_facts.

(** ** The breakdowns and the extremes of the two analyses *)

Module analysis_properties.
Import num num_facts analyzer classifier_spec analyzer_facts sums_facts.

Lemma StronglySorted_map {A B} (R : A -> A -> Prop) (Q : B -> B -> Prop)
      (f : A -> B) (l : list A) :
  (forall a b, R a b -> Q (f a) (f b)) ->
  StronglySorted R l -> StronglySorted Q (map f l).
Proof.
  intros M. induction 1 as [|a l S IH F]; simpl; constructor; [exact IH|].
  rewrite Forall_forall in F |- *. intros b Hb.
  apply in_map_iff in Hb. destruct Hb as [x [<- Hx]]. now apply M, F.
Qed.

Section Claims.
Context `{Python}.

Lemma first_match_label_known (rs : rules) (description : string) :
  In (first_match_label rs description) (map fst rs) \/
  first_match_label rs description = "Другое".
Proof.
  unfold first_match_label. destruct (find _ rs) as [rule|] eqn:E.
  - left. apply find_some in E. apply in_map. exact (proj1 E).
  - now right.
Qed.

Lemma classify_all_NoDup (rs : rules) (ts : list txn.t) :
  NoDup (map fst (classify_all rs ts)).
Proof.
  rewrite classify_all_label_sums. unfold label_sums.
  apply (fold_add_NoDup (fun t => first_match_label rs (lower (txn.get_description t))) txn.get_amount). constructor.
Qed.

Lemma classify_all_value (rs : rules) (ts : list txn.t) (k : string) :
  value_of (classify_all rs ts) k
  = py_sum (map txn.get_amount
                (filter (fun t => String.eqb (first_match_label rs (lower (txn.get_description t))) k) ts)).
Proof.
  rewrite classify_all_label_sums. unfold label_sums.
  rewrite (fold_add_value (fun t => first_match_label rs (lower (txn.get_description t))) txn.get_amount).
  simpl. ring.
Qed.

Lemma classify_all_keys (rs : rules) (ts : list txn.t) (k : string) :
  In k (map fst (classify_all rs ts)) <-> exists t, In t ts /\ first_match_label rs (lower (txn.get_description t)) = k.
Proof.
  rewrite classify_all_label_sums. unfold label_sums.
  rewrite (fold_add_keys (fun t => first_match_label rs (lower (txn.get_description t))) txn.get_amount).
  simpl. intuition.
Qed.

Lemma expense_entry_in_sums (ts : list txn.t) (entry : expense_analyzer.category_share) :
  In entry (expense_analyzer.categorize_expenses ts) ->
  In (expense_analyzer.category entry, expense_analyzer.amount entry)
     (classify_all expense_analyzer.category_keywords ts).
Proof.
  unfold expense_analyzer.categorize_expenses. intros Hin.
  apply in_map_iff in Hin. destruct Hin as [[c a] [<- Hin]]. cbn.
  exact (Permutation_in _ (sorted_desc_perm snd _) Hin).
Qed.

Lemma income_entry_in_sums (ts : list txn.t) (entry : income_analyzer.source_share) :
  In entry (income_analyzer.analyze_income_sources ts) ->
  In (income_analyzer.source entry, income_analyzer.amount entry)
     (classify_all income_analyzer.source_keywords ts).
Proof.
  unfold income_analyzer.analyze_income_sources. intros Hin.
  apply in_map_iff in Hin. destruct Hin as [[c a] [<- Hin]]. cbn.
  exact (Permutation_in _ (sorted_desc_perm snd _) Hin).
Qed.

(** X4.  In the breakdown of [categorize_expenses] the amount of an entry
    is the sum of the amounts of exactly the transactions whose
    lower-cased description the rules file under the entry's category;
    likewise for the sources of [analyze_income_sources]. *)
Theorem breakdown_amount_is_sum_of_its_transactions (ts : list txn.t) :
  (forall entry, In entry (expense_analyzer.categorize_expenses ts) ->
     expense_analyzer.amount entry
     = py_sum (map txn.get_amount
         (filter (fun t =>
                    String.eqb (first_match_label expense_analyzer.category_keywords (lower (txn.get_description t)))
                               (expense_analyzer.category entry)) ts))) /\
  (forall entry, In entry (income_analyzer.analyze_income_sources ts) ->
     income_analyzer.amount entry
     = py_sum (map txn.get_amount
         (filter (fun t =>
                    String.eqb (first_match_label income_analyzer.source_keywords (lower (txn.get_description t)))
                               (income_analyzer.source entry)) ts))).
Proof.
  split; intros entry Hin.
  - apply expense_entry_in_sums in Hin.
    rewrite <- classify_all_value. symmetry.
    apply value_of_In; [apply classify_all_NoDup | exact Hin].
  - apply income_entry_in_sums in Hin.
    rewrite <- classify_all_value. symmetry.
    apply value_of_In; [apply classify_all_NoDup | exact Hin].
Qed.

(** X5.  A breakdown lists every label at most once; each label it lists
    is a label of the rule table or the fallback ["Другое"], and at least
    one transaction of the input is filed under it. *)
Theorem breakdown_labels_distinct_and_used (ts : list txn.t) :
  (NoDup (map expense_analyzer.category (expense_analyzer.categorize_expenses ts)) /\
   forall entry, In entry (expense_analyzer.categorize_expenses ts) ->
     (In (expense_analyzer.category entry)
         (map fst expense_analyzer.category_keywords) \/
      expense_analyzer.category entry = "Другое") /\
     exists t, In t ts /\
       first_match_label expense_analyzer.category_keywords (lower (txn.get_description t))
       = expense_analyzer.category entry) /\
  (NoDup (map income_analyzer.source (income_analyzer.analyze_income_sources ts)) /\
   forall entry, In entry (income_analyzer.analyze_income_sources ts) ->
     (In (income_analyzer.source entry)
         (map fst income_analyzer.source_keywords) \/
      income_analyzer.source entry = "Другое") /\
     exists t, In t ts /\
       first_match_label income_analyzer.source_keywords (lower (txn.get_description t))
       = income_analyzer.source entry).
Proof.
  split; split.
  - unfold expense_analyzer.categorize_expenses. rewrite map_map.
    rewrite (map_ext _ fst) by (intros [c a]; reflexivity).
    eapply Permutation_NoDup;
      [apply Permutation_sym, Permutation_map, sorted_desc_perm|].
    apply classify_all_NoDup.
  - intros entry Hin. apply expense_entry_in_sums in Hin.
    assert (K : In (expense_analyzer.category entry)
                   (map fst (classify_all expense_analyzer.category_keywords ts))).
    { apply in_map_iff. eexists. split; [|exact Hin]. reflexivity. }
    apply classify_all_keys in K. destruct K as [t [Ht E]].
    split; [|now exists t]. rewrite <- E. apply first_match_label_known.
  - unfold income_analyzer.analyze_income_sources. rewrite map_map.
    rewrite (map_ext _ fst) by (intros [c a]; reflexivity).
    eapply Permutation_NoDup;
      [apply Permutation_sym, Permutation_map, sorted_desc_perm|].
    apply classify_all_NoDup.
  - intros entry Hin. apply income_entry_in_sums in Hin.
    assert (K : In (income_analyzer.source entry)
                   (map fst (classify_all income_analyzer.source_keywords ts))).
    { apply in_map_iff. eexists. split; [|exact Hin]. reflexivity. }
    apply classify_all_keys in K. destruct K as [t [Ht E]].
    split; [|now exists t]. rewrite <- E. apply first_match_label_known.
Qed.

(** The early return for an empty filter gives what the general path
    would give. *)
Lemma analyze_expenses_fields (ts : list txn.t) :
  let E := filter (fun t => negb (txn.get_is_income t true)) ts in
  expense_analyzer.analyze_expenses ts
  = expense_analyzer.mk_result
      (py_sum (map txn.get_amount E)) (List.length E)
      (if (0 <? List.length E)%nat
       then py_sum (map txn.get_amount E) / of_Z (Z.of_nat (List.length E))
       else 0)
      (group_by_category E) (group_by_month E)
      (first_or_none (sorted_desc txn.get_amount E))
      (last_or_none (sorted_desc txn.get_amount E))
      (expense_analyzer.categorize_expenses E).
Proof.
  cbv zeta. unfold expense_analyzer.analyze_expenses.
  destruct (filter (fun t => negb (txn.get_is_income t true)) ts); reflexivity.
Qed.

Lemma analyze_income_fields (ts : list txn.t) :
  let E := filter (fun t => txn.get_is_income t false) ts in
  income_analyzer.analyze_income ts
  = income_analyzer.mk_result
      (py_sum (map txn.get_amount E)) (List.length E)
      (if (0 <? List.length E)%nat
       then py_sum (map txn.get_amount E) / of_Z (Z.of_nat (List.length E))
       else 0)
      (group_by_category E) (group_by_month E)
      (first_or_none (sorted_desc txn.get_amount E))
      (last_or_none (sorted_desc txn.get_amount E))
      (income_analyzer.analyze_income_sources E).
Proof.
  cbv zeta. unfold income_analyzer.analyze_income.
  destruct (filter (fun t => txn.get_is_income t false) ts); reflexivity.
Qed.

Lemma filter_all (f : txn.t -> bool) (l : list txn.t) :
  forallb f l = true -> filter f l = l.
Proof.
  induction l as [|x l IH]; simpl; [reflexivity|].
  intros Hf. apply andb_prop in Hf. destruct Hf as [-> Hl]. now rewrite IH.
Qed.

Lemma filter_nil_iff (f : txn.t -> bool) (l : list txn.t) :
  filter f l = [] <-> forall t, In t l -> f t = false.
Proof.
  induction l as [|x l IH]; simpl.
  - split; [intros _ t [] | reflexivity].
  - destruct (f x) eqn:E; split.
    + discriminate.
    + intros Hn. rewrite (Hn x (or_introl eq_refl)) in E. discriminate.
    + intros Hl t [<- | Ht]; [exact E | now apply IH].
    + intros Hn. apply IH. intros t Ht. apply Hn. now right.
Qed.

Lemma of_nat_succ_nonzero (n : nat) : of_Z (Z.of_nat (S n)) <> 0.
Proof.
  intros Z. apply (f_equal this) in Z. unfold of_Z, Q2Qc, this in Z.
  assert (Q : (Qred (inject_Z (Z.of_nat (S n))) == 0)%Q) by now rewrite Z.
  rewrite Qred_correct in Q. unfold Qeq, inject_Z in Q. simpl in Q. lia.
Qed.

(** The extremes of a list that the analyses sort by amount. *)
Lemma extremes_of_sorted (E : list txn.t) :
  let sorted := sorted_desc txn.get_amount E in
  (E = [] -> first_or_none sorted = None /\ last_or_none sorted = None) /\
  (E <> [] ->
   exists l s,
     first_or_none sorted = Some l /\ last_or_none sorted = Some s /\
     In l E /\ In s E /\
     forall t, In t E ->
       txn.get_amount s <= txn.get_amount t /\
       txn.get_amount t <= txn.get_amount l).
Proof.
  cbv zeta. split.
  - intros ->. split; reflexivity.
  - intros N.
    pose proof (sorted_desc_sorted txn.get_amount E) as S.
    pose proof (sorted_desc_perm txn.get_amount E) as P.
    assert (N' : sorted_desc txn.get_amount E <> []).
    { intros Z. rewrite Z in P. apply Permutation_nil in P. now apply N. }
    destruct (sorted_desc txn.get_amount E) as [|l rest] eqn:D;
      [now contradiction N'|].
    destruct (last_or_none_nonempty (l :: rest) N') as [s Hs].
    exists l, s.
    destruct (first_is_largest txn.get_amount (l :: rest) l S eq_refl)
      as [Hl Hmax].
    destruct (last_is_smallest txn.get_amount (l :: rest) s S Hs)
      as [Hsin Hmin].
    split; [reflexivity|]. split; [exact Hs|].
    split; [exact (Permutation_in _ P Hl)|].
    split; [exact (Permutation_in _ P Hsin)|].
    intros t Ht. apply (Permutation_in _ (Permutation_sym P)) in Ht.
    split; [now apply Hmin | now apply Hmax].
Qed.

Lemma total_group_by_month (ts : list txn.t) :
  total (group_by_month ts)
  = py_sum (map txn.get_amount
                (filter (fun t => match txn.date t with
                                  | Some _ => true
                                  | None => false
                                  end) ts)).
Proof.
  unfold group_by_month.
  assert (G : forall d,
             total (fold_left
                      (fun d x =>
                         match txn.date x with
                         | Some date =>
                             add d (datetime.strftime_Y_m date) (txn.get_amount x)
                         | None => d
                         end) ts d)
             = total d
               + py_sum (map txn.get_amount
                             (filter (fun t => match txn.date t with
                                               | Some _ => true
                                               | None => false
                                               end) ts))).
  { induction ts as [|t ts IH]; intros d; simpl.
    - rewrite py_sum_nil. ring.
    - rewrite IH. destruct (txn.date t); simpl.
      + rewrite total_add, py_sum_cons. ring.
      + reflexivity. }
  rewrite G. unfold total at 1. simpl. rewrite py_sum_nil. ring.
Qed.

(** X8.  Under exact arithmetic (amounts as exact rationals, no
    rounding): the values of [by_month] add up to the amounts of the
    expenses (of the incomes, for [analyze_income]) that carry a date;
    when every one of them carries a date they add up to [total].  On
    floats the two sums are taken in different orders and agree up to
    rounding only. *)
Theorem by_month_adds_up_to_dated_amounts (ts : list txn.t) :
  let dated := fun t : txn.t =>
                 match txn.date t with Some _ => true | None => false end in
  let expenses := filter (fun t => negb (txn.get_is_income t true)) ts in
  let incomes := filter (fun t => txn.get_is_income t false) ts in
  let e := expense_analyzer.analyze_expenses ts in
  let i := income_analyzer.analyze_income ts in
  total (expense_analyzer.by_month e)
  = py_sum (map txn.get_amount (filter dated expenses)) /\
  total (income_analyzer.by_month i)
  = py_sum (map txn.get_amount (filter dated incomes)) /\
  (forallb dated expenses = true ->
   total (expense_analyzer.by_month e) = expense_analyzer.total e) /\
  (forallb dated incomes = true ->
   total (income_analyzer.by_month i) = income_analyzer.total i).
Proof.
  cbv zeta. rewrite analyze_expenses_fields, analyze_income_fields.
  cbn [expense_analyzer.by_month expense_analyzer.total
       income_analyzer.by_month income_analyzer.total].
  rewrite !total_group_by_month.
  split; [reflexivity|]. split; [reflexivity|].
  split; intros D; now rewrite (filter_all _ _ D).
Qed.

(** X9.  The two counts and the number of transactions without the key
    [is_income] add up to the length of the input.  Under exact
    arithmetic (amounts as exact rationals, no rounding) [average] times
    [count] is [total] in both analyses, and the two totals and the
    amounts of the transactions without the key add up to the sum of all
    amounts; on floats these two hold up to rounding only. *)
Theorem counts_and_totals_partition_the_input (ts : list txn.t) :
  let unflagged :=
    filter (fun t => match txn.is_income t with None => true | Some _ => false end)
           ts in
  let e := expense_analyzer.analyze_expenses ts in
  let i := income_analyzer.analyze_income ts in
  expense_analyzer.average e * of_Z (Z.of_nat (expense_analyzer.count e))
  = expense_analyzer.total e /\
  income_analyzer.average i * of_Z (Z.of_nat (income_analyzer.count i))
  = income_analyzer.total i /\
  (expense_analyzer.count e + income_analyzer.count i + List.length unflagged
   = List.length ts)%nat /\
  expense_analyzer.total e + income_analyzer.total i
  + py_sum (map txn.get_amount unflagged)
  = py_sum (map txn.get_amount ts).
Proof.
  cbv zeta. rewrite analyze_expenses_fields, analyze_income_fields.
  cbn [expense_analyzer.average expense_analyzer.count expense_analyzer.total
       income_analyzer.average income_analyzer.count income_analyzer.total].
  assert (Avg : forall (total : Qc) (n : nat),
             (if (0 <? n)%nat then total / of_Z (Z.of_nat n) else 0)
             * of_Z (Z.of_nat n) = if (0 <? n)%nat then total else 0).
  { intros total [|n]; [cbn; ring|]. cbn [Nat.ltb Nat.leb].
    field. apply of_nat_succ_nonzero. }
  assert (Empty : forall l : list txn.t,
             (if (0 <? List.length l)%nat then py_sum (map txn.get_amount l) else 0)
             = py_sum (map txn.get_amount l)).
  { intros [|x l]; reflexivity. }
  split; [|split; [|split]].
  - now rewrite Avg, Empty.
  - now rewrite Avg, Empty.
  - clear. induction ts as [|t ts IH]; simpl; [reflexivity|].
    unfold txn.get_is_income in *.
    destruct (txn.is_income t) as [[|]|]; simpl; lia.
  - clear. induction ts as [|t ts IH]; simpl.
    + rewrite py_sum_nil. ring.
    + rewrite py_sum_cons, <- IH. unfold txn.get_is_income in *.
      destruct (txn.is_income t) as [[|]|]; simpl; rewrite ?py_sum_cons; ring.
Qed.

(** X10.  [analyze_expenses] returns the all-zero result exactly when no
    transaction of the input is an expense, and [analyze_income] exactly
    when none is an income: an analysis with [count = 0] has total 0, no
    breakdown and no extremes. *)
Theorem zero_result_iff_nothing_to_analyze (ts : list txn.t) :
  (expense_analyzer.count (expense_analyzer.analyze_expenses ts) = 0%nat <->
   forall t, In t ts -> txn.get_is_income t true = true) /\
  (expense_analyzer.count (expense_analyzer.analyze_expenses ts) = 0%nat ->
   expense_analyzer.analyze_expenses ts
   = expense_analyzer.mk_result 0 0 0 [] [] None None []) /\
  (income_analyzer.count (income_analyzer.analyze_income ts) = 0%nat <->
   forall t, In t ts -> txn.get_is_income t false = false) /\
  (income_analyzer.count (income_analyzer.analyze_income ts) = 0%nat ->
   income_analyzer.analyze_income ts
   = income_analyzer.mk_result 0 0 0 [] [] None None []).
Proof.
  rewrite analyze_expenses_fields, analyze_income_fields. cbv zeta.
  cbn [expense_analyzer.count income_analyzer.count].
  split; [|split; [|split]].
  - rewrite length_zero_iff_nil, filter_nil_iff. split; intros Hn t Ht.
    + apply negb_false_iff. now apply Hn.
    + apply negb_false_iff. now apply Hn.
  - intros Z. apply length_zero_iff_nil in Z. now rewrite Z.
  - now rewrite length_zero_iff_nil, filter_nil_iff.
  - intros Z. apply length_zero_iff_nil in Z. now rewrite Z.
Qed.

End Claims.

End analysis_properties.

(** ** What the parsers return *)

Module parsing_properties.
Import num num_facts base_parser kaspi_parser transaction_shape.

Lemma collect_In {A B} (f : A -> option B) (xs : list A) (y : B) :
  In y (collect f xs) <-> exists x, In x xs /\ f x = Some y.
Proof.
  induction xs as [|x xs IH]; simpl.
  - split; [intros [] | intros [x [[] _]]].
  - destruct (f x) as [z|] eqn:E; simpl; rewrite IH; split.
    + intros [<- | [x' [Hx Hf]]]; [exists x | exists x']; auto.
    + intros [x' [[<- | Hx] Hf]].
      * left. congruence.
      * right. now exists x'.
    + intros [x' [Hx Hf]]. exists x'. auto.
    + intros [x' [[<- | Hx] Hf]]; [congruence | now exists x'].
Qed.

Lemma collect_length {A B} (f : A -> option B) (xs : list A) :
  (List.length (collect f xs) <= List.length xs)%nat.
Proof.
  induction xs as [|x xs IH]; simpl; [lia|].
  destruct (f x); simpl; lia.
Qed.

Section Claims.
Context `{Python} `{Regex} `{World}.

Lemma table_transaction_complete (cols : columns) (r : row) (t : txn.t) :
  table_transaction cols r = Some t -> complete t.
Proof.
  unfold table_transaction.
  destruct (_ || _); [discriminate|].
  destruct (parse_date _) as [date|]; [|discriminate].
  destruct (parse_amount cols r) as [amount|]; [|discriminate].
  destruct (resolve_direction cols r amount) as [is_income amount'].
  intros E. inversion E; subst. now eexists _, _, _, _.
Qed.

Lemma primary_transaction_shape m (t : txn.t) :
  primary_transaction m = Some t ->
  exists date description amount is_income,
    t = txn.mk (Some date) (Some description) (Some amount) (Some is_income)
               None None /\
    (is_income = false -> 0 <= amount).
Proof.
  destruct m as [[[[date_str description] amount_str] currency] transaction_type].
  unfold primary_transaction.
  destruct (strptime date_str _) as [date|]; [|discriminate].
  destruct (float_of_str _) as [amount|]; [|discriminate].
  intros E. inversion E; subst; clear E.
  eexists _, _, _, _. split; [reflexivity|].
  intros ->. apply Qcabs.Qcabs_nonneg.
Qed.

Lemma alt_transaction_shape m (t : txn.t) :
  alt_transaction m = Some t ->
  exists date description amount is_income,
    t = txn.mk (Some date) (Some description) (Some amount) (Some is_income)
               None None /\
    (is_income = false -> 0 <= amount).
Proof.
  destruct m as [[[date_str description] amount_str] currency].
  unfold alt_transaction.
  destruct (strptime date_str _) as [date|]; [|discriminate].
  destruct (float_of_str _) as [amount|]; [|discriminate].
  intros E. inversion E; subst; clear E.
  eexists _, _, _, _. split; [reflexivity|].
  intros ->. apply Qcabs.Qcabs_nonneg.
Qed.

(** X11.  A row of cells of the model (a text, a number, a date or
    [None]; the not-a-number pandas puts in an empty cell is none of
    them and is truthy) for which no type column was found, or whose type
    cell is falsy ([None], the empty text or the number 0), follows the
    sign of the amount the parser read: a number cell as it is, a text
    cell after every character other than digits, dot and comma has been
    removed, so without its minus sign.  The transaction stores the
    absolute value of that amount, which is never negative, and is an
    income exactly when that amount is not negative. *)
Theorem untyped_row_follows_the_sign (cols : columns) (r : row) (t : txn.t) :
  is_set (type_column cols) && cell.truthy (get r (type_column cols)) = false ->
  table_transaction cols r = Some t ->
  exists read,
    parse_amount cols r = Some read /\
    txn.amount t = Some (Qcabs.Qcabs read) /\
    0 <= Qcabs.Qcabs read /\
    txn.is_income t = Some (negb (ltb read 0)).
Proof.
  intros U E.
  destruct (parsing.table_transaction_direction cols r t E)
    as [read [P [I A]]].
  exists read. split; [exact P|].
  rewrite I, A. unfold resolve_direction. rewrite U.
  destruct (ltb read 0) eqn:L; cbn [fst snd negb].
  - repeat split. apply Qcabs.Qcabs_nonneg.
  - apply ltb_ge in L. rewrite (Qcabs.Qcabs_pos _ L). repeat split. exact L.
Qed.

Lemma pdf_shape (file_path : string) (t : txn.t) :
  In t (pdf_parse_file file_path) ->
  exists date description amount is_income,
    t = txn.mk (Some date) (Some description) (Some amount) (Some is_income)
               None None /\
    (is_income = false -> 0 <= amount).
Proof.
  unfold pdf_parse_file, post_process_transactions.
  destruct (negb (validate_file file_path)); [intros []|].
  destruct (collect primary_transaction _) as [|t0 ts] eqn:P.
  - intros Hin. apply collect_In in Hin. destruct Hin as [m [_ Hm]].
    now apply alt_transaction_shape in Hm.
  - rewrite <- P. intros Hin. apply collect_In in Hin.
    destruct Hin as [m [_ Hm]]. now apply primary_transaction_shape in Hm.
Qed.

(** X12.  Every transaction the PDF parser returns has a date, a
    description, an amount and a direction, no reference and no category,
    and when it is an expense its amount is not negative; the list is
    empty when the file does not exist. *)
Theorem pdf_transactions_shape (file_path : string) :
  (forall t, In t (pdf_parse_file file_path) ->
     exists date description amount is_income,
       t = txn.mk (Some date) (Some description) (Some amount) (Some is_income)
                  None None /\
       (is_income = false -> 0 <= amount)) /\
  (isfile file_path = false -> pdf_parse_file file_path = []).
Proof.
  split; [apply pdf_shape|].
  intros N. unfold pdf_parse_file, validate_file. now rewrite N.
Qed.

(** What the two table parsers do with the data, row by row. *)
Lemma table_transactions_from_rows
      (sniff_cell : columns -> string * cell.t -> columns)
      (data : list row) (t : txn.t) :
  In t (table_transactions sniff_cell data) ->
  exists r, In r data /\
    table_transaction (find_columns sniff_cell data) r = Some t.
Proof.
  unfold table_transactions, post_process_transactions.
  destruct (negb (mandatory_found _)); [intros []|].
  intros Hin. now apply collect_In in Hin.
Qed.

(** The lists the Kaspi parsers return hold complete transactions. *)
Lemma kaspi_parse_file_complete (p : parser) (file_path : string) :
  In p [KaspiPDFParser; KaspiExcelParser; KaspiCSVParser] ->
  exists transactions,
    analysis_controller.parse_file p file_path = Return transactions /\
    Forall complete transactions.
Proof.
  intros Hp.
  destruct (parsing.kaspi_parse_file_returns p file_path Hp) as [l E].
  exists l. split; [exact E|]. apply Forall_forall. intros t Ht.
  destruct Hp as [<- | [<- | [<- | []]]];
    cbn [analysis_controller.parse_file] in E.
  - inversion E; subst.
    destruct (pdf_shape file_path t Ht) as [d [ds [a [b [-> _]]]]].
    now eexists _, _, _, _.
  - inversion E; subst. unfold excel_parse_file in Ht.
    destruct (negb (validate_file file_path)); [destruct Ht|].
    destruct (extract_data_from_excel file_path) as [|r0 data];
      [destruct Ht|].
    apply table_transactions_from_rows in Ht. destruct Ht as [r [_ Hr]].
    now apply table_transaction_complete in Hr.
  - unfold csv_parse_file in E.
    destruct (negb (validate_file file_path));
      [inversion E; subst; destruct Ht|].
    destruct (try_delimiters file_path _ None) as [[|r0 data]|e];
      inversion E; subst; [destruct Ht|].
    apply table_transactions_from_rows in Ht. destruct Ht as [r [_ Hr]].
    now apply table_transaction_complete in Hr.
Qed.

(** X13.  [parse_file] of the three Kaspi parsers never raises, whatever
    the file is, and every transaction in the list it returns has the keys
    [date], [description], [amount] and [is_income] the controller reads,
    and no category. *)
Theorem kaspi_parse_file_returns_complete_transactions
        (p : parser) (file_path : string) :
  In p [KaspiPDFParser; KaspiExcelParser; KaspiCSVParser] ->
  exists transactions,
    analysis_controller.parse_file p file_path = Return transactions /\
    Forall complete transactions /\
    forall t, In t transactions ->
      txn.date t <> None /\ txn.description t <> None /\
      txn.amount t <> None /\ txn.is_income t <> None /\
      txn.category t = None.
Proof.
  intros Hp. destruct (kaspi_parse_file_complete p file_path Hp) as [l [E C]].
  exists l. split; [exact E|]. split; [exact C|].
  intros t Ht. rewrite Forall_forall in C.
  destruct (C t Ht) as [d [ds [a [b ->]]]]. cbn.
  repeat split; discriminate.
Qed.

(** X14.  The table parsers make at most one transaction per row and none
    of their own: the list is no longer than the data, and every
    transaction is made from one row of the data, with the date read from
    that row's date cell.  A row whose date cell or amount cell is falsy
    ([None], the empty text or the number 0) gives no transaction; in
    particular a line whose amount is the number 0 is dropped. *)
Theorem table_rows_give_at_most_one_transaction
        (sniff_cell : columns -> string * cell.t -> columns) (data : list row) :
  let cols := find_columns sniff_cell data in
  (List.length (table_transactions sniff_cell data) <= List.length data)%nat /\
  (forall t, In t (table_transactions sniff_cell data) ->
     exists r, In r data /\
       table_transaction cols r = Some t /\
       txn.date t = parse_date (get r (date_column cols))) /\
  (forall r,
     cell.truthy (get r (date_column cols)) = false \/
     cell.truthy (get r (amount_column cols)) = false ->
     table_transaction cols r = None) /\
  (forall r, get r (amount_column cols) = cell.Num 0 ->
     table_transaction cols r = None).
Proof.
  cbv zeta. split; [|split; [|split]].
  - unfold table_transactions, post_process_transactions.
    destruct (negb (mandatory_found _)); [simpl; lia | apply collect_length].
  - intros t Ht. apply table_transactions_from_rows in Ht.
    destruct Ht as [r [Hr E]]. exists r. split; [exact Hr|].
    split; [exact E|]. revert E. unfold table_transaction.
    destruct (_ || _); [discriminate|].
    destruct (parse_date _) as [date|]; [|discriminate].
    destruct (parse_amount _ r) as [amount|]; [|discriminate].
    destruct (resolve_direction _ r amount) as [is_income amount'].
    intros E. inversion E; subst; clear E. reflexivity.
  - intros r [D | Am]; unfold table_transaction; rewrite ?D, ?Am;
      [reflexivity | now rewrite orb_true_r].
  - intros r Z. unfold table_transaction. rewrite Z.
    assert (T : cell.truthy (cell.Num 0) = false) by (vm_compute; reflexivity).
    rewrite T. now rewrite orb_true_r.
Qed.

(** X15.  In the header search a later column replaces an earlier one:
    after a column whose lower-cased name holds a keyword of a field, that
    field is this column, whatever the columns before it were; a column
    without a keyword of the field leaves it as it was. *)
Theorem later_header_column_wins (first_row : row) (column : string) (v : cell.t) :
  let before := header_columns first_row in
  let after := header_columns (first_row ++ [(column, v)]) in
  let hit keywords := pystr.any_in keywords (lower column) in
  date_column after
  = (if hit ["дата"; "date"] then Some column else date_column before) /\
  description_column after
  = (if hit ["описание"; "назначение"; "description"]
     then Some column else description_column before) /\
  amount_column after
  = (if hit ["сумма"; "amount"] then Some column else amount_column before) /\
  type_column after
  = (if hit ["тип"; "type"; "приход"; "расход"; "операция"]
     then Some column else type_column before) /\
  reference_column after
  = (if hit ["референс"; "reference"; "номер"]
     then Some column else reference_column before).
Proof.
  cbv zeta. unfold header_columns.
  rewrite map_app, fold_left_app. cbn [map fold_left fst].
  set (cols := fold_left header_step (map fst first_row) _).
  unfold header_step. cbv zeta.
  destruct (pystr.any_in ["дата"; "date"] (lower column)),
           (pystr.any_in ["описание"; "назначение"; "description"] (lower column)),
           (pystr.any_in ["сумма"; "amount"] (lower column)),
           (pystr.any_in ["тип"; "type"; "приход"; "расход"; "операция"]
                         (lower column)),
           (pystr.any_in ["референс"; "reference"; "номер"] (lower column));
    cbn; repeat split; reflexivity.
Qed.

(** X16.  The Kaspi parser [get_parser_for_statement] builds for a
    statement answers for that statement: its bank code is the
    statement's and its file format is the lower-cased extension of the
    statement's file name. *)
Theorem kaspi_parser_answers_for_its_statement
        (statement : StatementFile) (p : parser) :
  Code statement = "KASPI" ->
  FileName statement <> "" ->
  get_parser_for_statement statement = Return (Some p) ->
  parser_info.get_bank_code p = Some (Code statement) /\
  parser_info.get_file_format p (Some statement)
  = Some (lower (pystr.split_dot_last (FileName statement))).
Proof.
  intros K N. unfold get_parser_for_statement. rewrite K.
  destruct (negb halyk_parser_found); [discriminate|].
  cbn [String.eqb Ascii.eqb Bool.eqb].
  assert (T : pystr.truthy (FileName statement) = true).
  { destruct (FileName statement); [now contradiction N | reflexivity]. }
  destruct (String.eqb (lower _) "pdf") eqn:Epdf.
  { intros E. inversion E; subst. apply String.eqb_eq in Epdf.
    rewrite Epdf. split; reflexivity. }
  destruct (String.eqb (lower _) "xlsx") eqn:Exlsx.
  { intros E. inversion E; subst. split; [reflexivity|].
    cbn [parser_info.get_file_format].
    unfold parser_info.excel_get_file_format.
    rewrite T, Exlsx, orb_true_r. reflexivity. }
  destruct (String.eqb (lower _) "xls") eqn:Exls.
  { intros E. inversion E; subst. split; [reflexivity|].
    cbn [parser_info.get_file_format].
    unfold parser_info.excel_get_file_format.
    rewrite T, Exls. reflexivity. }
  cbn [orb].
  destruct (String.eqb (lower _) "csv") eqn:Ecsv; [|discriminate].
  intros E. inversion E; subst. apply String.eqb_eq in Ecsv.
  rewrite Ecsv. split; reflexivity.
Qed.

End Claims.

End parsing_properties.

(** ** What the processing task leaves in the database *)

Module pipeline_properties.
Import num num_facts base_parser kaspi_parser analysis_controller transaction_shape.

Lemma find_update_first_other (id id' : nat) (f : StatementFile -> StatementFile)
      (rows : list StatementFile) :
  (forall x, Id (f x) = Id x) -> id' <> id ->
  find (fun s => Nat.eqb (Id s) id') (update_first id f rows)
  = find (fun s => Nat.eqb (Id s) id') rows.
Proof.
  intros K N. induction rows as [|x rows IH]; simpl; [reflexivity|].
  destruct (Nat.eqb (Id x) id) eqn:E; simpl.
  - rewrite K. apply Nat.eqb_eq in E.
    destruct (Nat.eqb (Id x) id') eqn:E'; [|reflexivity].
    apply Nat.eqb_eq in E'. exfalso. apply N. congruence.
  - now rewrite IH.
Qed.

Lemma update_first_ids (id : nat) (f : StatementFile -> StatementFile)
      (rows : list StatementFile) :
  (forall x, Id (f x) = Id x) ->
  map Id (update_first id f rows) = map Id rows.
Proof.
  intros K. induction rows as [|x rows IH]; simpl; [reflexivity|].
  destruct (Nat.eqb (Id x) id); simpl; [now rewrite K | now rewrite IH].
Qed.

Lemma find_statement_id (db : database) (id : nat) (statement : StatementFile) :
  find_statement db id = Some statement -> Id statement = id.
Proof.
  unfold find_statement. intros F. apply find_some in F.
  now apply Nat.eqb_eq.
Qed.

(** Storing the transactions touches the table [Transactions] only, and
    only by appending rows of the statement. *)
Lemma add_transactions_frame (statement : StatementFile) (data : list txn.t)
      (db : database) :
  let '(db', _) := add_transactions statement data db in
  StatementFiles db' = StatementFiles db /\
  AnalysisResults db' = AnalysisResults db /\
  EventLogs db' = EventLogs db /\
  exists stored,
    Transactions db' = Transactions db ++ stored /\
    Forall (fun T => Transaction.StatementFileId T = Id statement) stored.
Proof.
  revert db. induction data as [|t data IH]; intros db; simpl.
  - repeat split. exists []. split; [now rewrite app_nil_r | constructor].
  - destruct (make_transaction statement t) as [T|e] eqn:M.
    + specialize (IH (mk_db (StatementFiles db) (Transactions db ++ [T])
                            (AnalysisResults db) (EventLogs db))).
      destruct (add_transactions statement data _) as [db' oe].
      destruct IH as [S [A [L [stored [Tr Fa]]]]]. cbn in S, A, L, Tr.
      repeat split; try assumption.
      exists (T :: stored). split.
      * rewrite Tr, <- app_assoc. reflexivity.
      * constructor; [|exact Fa]. unfold make_transaction in M.
        destruct (txn.date t), (txn.amount t), (txn.description t),
                 (txn.is_income t); inversion M; reflexivity.
    + repeat split. exists []. split; [now rewrite app_nil_r | constructor].
Qed.


Section Claims.
Context `{Python} `{Regex} `{World}.

(** The parser of a Kaspi statement with a served extension. *)
Lemma kaspi_parser_for (statement : StatementFile) :
  halyk_parser_found = true ->
  Code statement = "KASPI" ->
  In (lower (pystr.split_dot_last (FileName statement))) factory_spec.extensions ->
  exists p,
    In p [KaspiPDFParser; KaspiExcelParser; KaspiCSVParser] /\
    get_parser_for_statement statement = Return (Some p).
Proof.
  intros F K X. unfold get_parser_for_statement. rewrite F, K.
  cbn [negb String.eqb Ascii.eqb Bool.eqb].
  destruct X as [<- | [<- | [<- | [<- | []]]]]; cbn;
    eexists; (split; [|reflexivity]); simpl; tauto.
Qed.

Lemma status_after (db : database) (id : nat) (statement : StatementFile)
      (tr : list Transaction.t) (an : list AnalysisResult.t)
      (ev : list EventLog) (status : ProcessingStatusEnum)
      (date : option datetime.t) :
  find_statement db id = Some statement ->
  find_statement
    (commit_status
       (mk_db (StatementFiles (commit_status db id PROCESSING None)) tr an ev)
       id status date) id
  = Some (set_status status date (set_status PROCESSING None statement)).
Proof.
  intros F. unfold find_statement, commit_status in *. cbn [StatementFiles].
  apply pipeline.find_update_first; [reflexivity|].
  apply pipeline.find_update_first; [reflexivity | exact F].
Qed.


(** X18.  When [Core/parser/halyk_parser.py] cannot be imported, every
    statement the task finds fails, a Kaspi statement as well: the
    statement is marked [FAILED], nothing is parsed or stored, and one
    failure event is logged. *)
Theorem missing_halyk_module_fails_every_statement
        (statement : StatementFile) (db : database) :
  halyk_parser_found = false ->
  find_statement db (Id statement) = Some statement ->
  let db' := process_statement_file (Id statement) db in
  get_parser_for_statement statement = Raise ModuleNotFoundError /\
  option_map ProcessingStatus (find_statement db' (Id statement)) = Some FAILED /\
  Transactions db' = Transactions db /\
  AnalysisResults db' = AnalysisResults db /\
  EventLogs db'
  = EventLogs db ++
    [mk_event (Some (UserId statement)) EVENT_FAILED (Id statement)].
Proof.
  intros F Fd db'. subst db'.
  assert (G : get_parser_for_statement statement = Raise ModuleNotFoundError).
  { unfold get_parser_for_statement. now rewrite F. }
  split; [exact G|].
  unfold process_statement_file. rewrite Fd, G.
  pose proof (status_after db (Id statement) statement [] [] [] FAILED None Fd)
    as S.
  unfold on_exception, find_statement in *.
  cbn [StatementFiles Transactions AnalysisResults EventLogs
       log_event commit_status] in *.
  rewrite S. repeat split.
Qed.

(** X19.  The task touches one statement only.  When no statement has the
    given id the database is left as it is; otherwise every other
    statement is found as before, the ids of the statements are the same,
    and the other tables only grow: by rows of this statement in
    [Transactions], by at most one row in [AnalysisResults] and by at most
    one event. *)
Theorem processing_touches_one_statement (statement_id : nat) (db : database) :
  let db' := process_statement_file statement_id db in
  (find_statement db statement_id = None -> db' = db) /\
  (forall other, other <> statement_id ->
     find_statement db' other = find_statement db other) /\
  map Id (StatementFiles db') = map Id (StatementFiles db) /\
  (exists stored,
     Transactions db' = Transactions db ++ stored /\
     Forall (fun T => Transaction.StatementFileId T = statement_id) stored) /\
  (exists added,
     AnalysisResults db' = AnalysisResults db ++ added /\
     (List.length added <= 1)%nat /\
     Forall (fun R => AnalysisResult.StatementFileId R = statement_id) added) /\
  (exists logged,
     EventLogs db' = EventLogs db ++ logged /\ (List.length logged <= 1)%nat).
Proof.
  cbv zeta. unfold process_statement_file.
  destruct (find_statement db statement_id) as [statement|] eqn:Fd.
  2:{ split; [reflexivity|]. split; [reflexivity|]. split; [reflexivity|].
      split; [exists []; split; [now rewrite app_nil_r | constructor]|].
      split; [exists []; split;
              [now rewrite app_nil_r | split; [simpl; lia | constructor]]|].
      exists []. split; [now rewrite app_nil_r | simpl; lia]. }
  pose proof (find_statement_id db statement_id statement Fd) as I.
  rewrite I. split; [discriminate|].
  assert (K : forall status date x, Id (set_status status date x) = Id x)
    by reflexivity.
  assert (O : forall other rows status date,
             other <> statement_id ->
             find (fun s => Nat.eqb (Id s) other)
                  (update_first statement_id (set_status status date) rows)
             = find (fun s => Nat.eqb (Id s) other) rows).
  { intros other rows status date N.
    apply find_update_first_other; [apply K | exact N]. }
  assert (U : forall rows status date,
             map Id (update_first statement_id (set_status status date) rows)
             = map Id rows).
  { intros rows status date. apply update_first_ids, K. }
  assert (Nil : forall A (l : list A), l = l ++ []) by
    (intros A l; now rewrite app_nil_r).
  destruct (get_parser_for_statement statement) as [[p|]|e].
  - destruct (parse_file p (FilePath statement)) as [parsed|e].
    + pose proof (add_transactions_frame statement parsed
                    (commit_status db statement_id PROCESSING None)) as Fr.
      destruct (add_transactions statement parsed _) as [db1 [e|]];
        destruct Fr as [S [A [L [stored [Tr Fa]]]]];
        unfold on_exception, find_statement;
        cbn [StatementFiles Transactions AnalysisResults EventLogs
             log_event commit_status] in *;
        rewrite ?S, ?A, ?L, ?Tr, ?I in *.
      * split; [intros other N; now rewrite !O|].
        split; [now rewrite !U|].
        split; [exists stored; split; [reflexivity | exact Fa]|].
        split; [exists []; split; [apply Nil | split; [simpl; lia | constructor]]|].
        eexists. split; [reflexivity | simpl; lia].
      * split; [intros other N; now rewrite !O|].
        split; [now rewrite !U|].
        split; [exists stored; split; [reflexivity | exact Fa]|].
        split; [eexists; split;
                [reflexivity
                | split; [simpl; lia | constructor; [reflexivity | constructor]]]|].
        eexists. split; [reflexivity | simpl; lia].
    + unfold on_exception, find_statement;
        cbn [StatementFiles Transactions AnalysisResults EventLogs
             log_event commit_status]; rewrite ?I.
      split; [intros other N; now rewrite !O|].
      split; [now rewrite !U|].
      split; [exists []; split; [apply Nil | constructor]|].
      split; [exists []; split; [apply Nil | split; [simpl; lia | constructor]]|].
      eexists. split; [reflexivity | simpl; lia].
  - unfold find_statement;
      cbn [StatementFiles Transactions AnalysisResults EventLogs commit_status];
      rewrite ?I.
    split; [intros other N; now rewrite !O|].
    split; [now rewrite !U|].
    split; [exists []; split; [apply Nil | constructor]|].
    split; [exists []; split; [apply Nil | split; [simpl; lia | constructor]]|].
    exists []. split; [apply Nil | simpl; lia].
  - unfold on_exception, find_statement;
      cbn [StatementFiles Transactions AnalysisResults EventLogs
           log_event commit_status]; rewrite ?I.
    split; [intros other N; now rewrite !O|].
    split; [now rewrite !U|].
    split; [exists []; split; [apply Nil | constructor]|].
    split; [exists []; split; [apply Nil | split; [simpl; lia | constructor]]|].
    eexists. split; [reflexivity | simpl; lia].
Qed.

(** X20.  When the Halyk module can be imported, a Kaspi statement with
    a served extension whose file is not on disk is not a failure: the
    parser returns the empty list, and the task stores no transaction,
    stores an analysis whose four amounts are 0 and marks the statement
    [COMPLETED].  (When the module cannot be imported the statement fails
    like every other one.) *)
Theorem missing_file_is_completed_with_zeros
        (statement : StatementFile) (db : database) :
  halyk_parser_found = true ->
  Code statement = "KASPI" ->
  In (lower (pystr.split_dot_last (FileName statement))) factory_spec.extensions ->
  isfile (FilePath statement) = false ->
  find_statement db (Id statement) = Some statement ->
  let db' := process_statement_file (Id statement) db in
  option_map ProcessingStatus (find_statement db' (Id statement))
  = Some COMPLETED /\
  Transactions db' = Transactions db /\
  exists result,
    AnalysisResults db' = AnalysisResults db ++ [result] /\
    AnalysisResult.StatementFileId result = Id statement /\
    AnalysisResult.TotalIncome result = 0 /\
    AnalysisResult.TotalExpense result = 0 /\
    AnalysisResult.NetProfit result = 0 /\
    AnalysisResult.RecommendedTaxAmount result = 0.
Proof.
  intros F K X N Fd db'. subst db'.
  destruct (kaspi_parser_for statement F K X) as [p [Hp G]].
  assert (P : parse_file p (FilePath statement) = Return []).
  { destruct Hp as [<- | [<- | [<- | []]]]; cbn [parse_file];
      unfold pdf_parse_file, excel_parse_file, csv_parse_file, validate_file;
      now rewrite N. }
  unfold process_statement_file. rewrite Fd, G, P.
  pose proof (status_after db (Id statement) statement [] [] []
                           COMPLETED (Some now) Fd) as S.
  unfold find_statement in *.
  cbn [add_transactions StatementFiles Transactions AnalysisResults EventLogs
       log_event commit_status] in *.
  rewrite S. split; [reflexivity|]. split; [reflexivity|].
  eexists. split; [reflexivity|].
  cbn [AnalysisResult.StatementFileId AnalysisResult.TotalIncome
       AnalysisResult.TotalExpense AnalysisResult.NetProfit
       AnalysisResult.RecommendedTaxAmount].
  repeat split; apply Qc_is_canon; reflexivity.
Qed.

(** X21.  The extension check of an upload and the parser registry agree:
    for a statement of the bank KASPI or HALYK (the Halyk module being
    importable) a parser is built exactly when the upload validator
    accepts the file name, and [None] is returned exactly when the
    validator raises. *)
Theorem accepted_upload_has_a_parser (statement : StatementFile) :
  halyk_parser_found = true ->
  Code statement = "KASPI" \/ Code statement = "HALYK" ->
  (upload.validate_file_extension (FileName statement)
   = Some (FileName statement) <->
   exists p, get_parser_for_statement statement = Return (Some p)) /\
  (upload.validate_file_extension (FileName statement) = None <->
   get_parser_for_statement statement = Return None).
Proof.
  intros F B.
  assert (R : factory_spec.registered (Code statement)
                (lower (pystr.split_dot_last (FileName statement)))
              = upload.extension_allowed (FileName statement)).
  { unfold factory_spec.registered, upload.extension_allowed,
      factory_spec.banks, factory_spec.extensions, upload.ALLOWED_FILE_EXTENSIONS.
    cbn [existsb].
    destruct B as [-> | ->]; cbn [String.eqb Ascii.eqb Bool.eqb orb andb];
      destruct (String.eqb (lower _) "pdf"), (String.eqb (lower _) "xls"),
               (String.eqb (lower _) "xlsx"), (String.eqb (lower _) "csv");
      reflexivity. }
  unfold upload.validate_file_extension. rewrite <- R.
  destruct (factory_spec.registered _ _) eqn:E; cbn [negb].
  - destruct (parsing.registered_pair_has_parser statement F E) as [p G].
    rewrite G. split; split; intros Q; try reflexivity; try discriminate.
    now exists p.
  - pose proof (parsing.unregistered_pair_has_none statement E) as G.
    rewrite F in G. rewrite G.
    split; split; intros Q; try reflexivity; try discriminate.
    destruct Q as [p Q]. discriminate.
Qed.

End Claims.

End pipeline_properties.

(** ** The detailed analysis *)

Module detailed_facts.
Import num num_facts analyzer analyzer_facts sums_facts detailed_analysis.

Lemma firstn_StronglySorted {A} (R : A -> A -> Prop) (n : nat) (l : list A) :
  StronglySorted R l -> StronglySorted R (firstn n l).
Proof.
  intros S. revert n. induction S as [|a l S IH F]; intros [|n]; simpl;
    try constructor; [apply IH|].
  rewrite Forall_forall in F |- *. intros x Hx. apply F.
  rewrite <- (firstn_skipn n l). apply in_or_app. now left.
Qed.

(** What the cut keeps comes before what it drops. *)
Lemma firstn_before_skipn {A} (R : A -> A -> Prop) (n : nat) (l : list A) :
  StronglySorted R l ->
  forall x y, In x (firstn n l) -> In y (skipn n l) -> R x y.
Proof.
  intros S. revert n. induction S as [|a l S IH F]; intros [|n] x y; simpl;
    try (intros []; fail).
  rewrite Forall_forall in F. intros [<- | Hx] Hy.
  - apply F. rewrite <- (firstn_skipn n l). apply in_or_app. now right.
  - now apply (IH n).
Qed.

Lemma firstn_NoDup {A} (n : nat) (l : list A) : NoDup l -> NoDup (firstn n l).
Proof.
  intros N. rewrite <- (firstn_skipn n l) in N.
  now apply NoDup_app_remove_r in N.
Qed.

Lemma filter_andb {A} (f g : A -> bool) (l : list A) :
  filter (fun x => f x && g x) l = filter g (filter f l).
Proof.
  induction l as [|x l IH]; simpl; [reflexivity|].
  destruct (f x); simpl; [destruct (g x); now rewrite IH | exact IH].
Qed.

(** The two dicts of categories, each as a loop of its own over the
    transactions of its direction. *)
Lemma categories_fold (ts : list stored) (a b : sums) :
  fold_left categories_step ts (a, b)
  = (fold_left (fun d x => add d (category_name x) (Transaction.Amount (fst x)))
               (filter (fun x => Bool.eqb (Transaction.IsIncome (fst x)) true) ts) a,
     fold_left (fun d x => add d (category_name x) (Transaction.Amount (fst x)))
               (filter (fun x => Bool.eqb (Transaction.IsIncome (fst x)) false) ts) b).
Proof.
  revert a b. induction ts as [|x ts IH]; intros a b; simpl; [reflexivity|].
  destruct (Transaction.IsIncome (fst x)); simpl; apply IH.
Qed.

(** The five largest entries of a dict with distinct keys. *)
Lemma top5_facts (d : sums) :
  NoDup (map fst d) ->
  (List.length (top5 d) <= 5)%nat /\
  List.length (top5 d) = Nat.min 5 (List.length d) /\
  StronglySorted (fun a b => amount b <= amount a) (top5 d) /\
  NoDup (map category (top5 d)) /\
  (forall e, In e (top5 d) -> In (category e, amount e) d) /\
  (forall k v, In (k, v) d ->
     In (mk_top k v) (top5 d) \/ forall e, In e (top5 d) -> v <= amount e).
Proof.
  intros N. unfold top5.
  set (l := map (fun '(k, v) => mk_top k v) (sorted_desc snd d)).
  assert (S : StronglySorted (fun a b => amount b <= amount a) l).
  { unfold l. eapply analysis_properties.StronglySorted_map;
      [|apply (sorted_desc_sorted snd)].
    intros [c a] [c' a'] L. exact L. }
  assert (K : map category l = map fst (sorted_desc snd d)).
  { unfold l. rewrite map_map. apply map_ext. now intros [k v]. }
  assert (M : forall e, In e l <-> In (category e, amount e) d).
  { intros e. unfold l. rewrite in_map_iff. split.
    - intros [[k v] [<- Hin]]. cbn.
      exact (Permutation_in _ (sorted_desc_perm snd d) Hin).
    - intros Hin. exists (category e, amount e). split; [now destruct e|].
      exact (Permutation_in _ (Permutation_sym (sorted_desc_perm snd d)) Hin). }
  split; [apply firstn_le_length|].
  split.
  { rewrite length_firstn. unfold l. rewrite length_map.
    now rewrite (Permutation_length (sorted_desc_perm snd d)). }
  split; [now apply firstn_StronglySorted|].
  split.
  { rewrite <- firstn_map. apply firstn_NoDup. rewrite K.
    eapply Permutation_NoDup;
      [apply Permutation_sym, Permutation_map, sorted_desc_perm | exact N]. }
  split.
  { intros e He. apply M. rewrite <- (firstn_skipn 5 l).
    apply in_or_app. now left. }
  intros k v Hin.
  assert (Hl : In (mk_top k v) l) by now apply M.
  rewrite <- (firstn_skipn 5 l) in Hl. apply in_app_or in Hl.
  destruct Hl as [Hl | Hl]; [now left | right].
  intros e He.
  exact (firstn_before_skipn _ 5 l S e (mk_top k v) He Hl).
Qed.

Section Claims.
Context `{Format}.

Lemma summarize_unfold (ts : list stored) (ar : AnalysisResult.t) :
  let by_direction dir :=
    fold_left (fun d x => add d (category_name x) (Transaction.Amount (fst x)))
              (filter (fun x => Bool.eqb (Transaction.IsIncome (fst x)) dir) ts)
              [] in
  top_income_categories (detailed_summary (summarize ts ar))
  = top5 (by_direction true) /\
  top_expense_categories (detailed_summary (summarize ts ar))
  = top5 (by_direction false).
Proof.
  cbv zeta. unfold summarize. rewrite categories_fold.
  split; reflexivity.
Qed.

(** X22.  The top income categories (and likewise the top expense
    categories) of the detailed analysis are at most five distinct
    categories in descending order of amount, all of them when there are
    no more than five; the amount of each is the sum of the amounts of
    the incomes stored under it, transactions without a category counting
    under ["Другое"]; and a category that is cut off has no larger amount
    than any category kept. *)
Theorem top_categories_are_the_largest
        (ts : list stored) (ar : AnalysisResult.t) (dir : bool) :
  let s := detailed_summary (summarize ts ar) in
  let top := if dir then top_income_categories s else top_expense_categories s in
  let amount_of name :=
    py_sum (map (fun x => Transaction.Amount (fst x))
                (filter (fun x => Bool.eqb (Transaction.IsIncome (fst x)) dir
                                  && String.eqb (category_name x) name) ts)) in
  (List.length top <= 5)%nat /\
  StronglySorted (fun a b => amount b <= amount a) top /\
  NoDup (map category top) /\
  (forall e, In e top ->
     amount e = amount_of (category e) /\
     exists x, In x ts /\ Transaction.IsIncome (fst x) = dir /\
               category_name x = category e) /\
  (forall x, In x ts -> Transaction.IsIncome (fst x) = dir ->
     In (mk_top (category_name x) (amount_of (category_name x))) top \/
     forall e, In e top -> amount_of (category_name x) <= amount e).
Proof.
  cbv zeta.
  set (d := fold_left
              (fun d x => add d (category_name x) (Transaction.Amount (fst x)))
              (filter (fun x => Bool.eqb (Transaction.IsIncome (fst x)) dir) ts)
              []).
  assert (T : (if dir
               then top_income_categories (detailed_summary (summarize ts ar))
               else top_expense_categories (detailed_summary (summarize ts ar)))
              = top5 d).
  { destruct (summarize_unfold ts ar) as [I E]. now destruct dir. }
  rewrite T.
  assert (N : NoDup (map fst d))
    by (apply (fold_add_NoDup category_name); constructor).
  assert (V : forall k,
             value_of d k
             = py_sum (map (fun x => Transaction.Amount (fst x))
                 (filter (fun x => Bool.eqb (Transaction.IsIncome (fst x)) dir
                                   && String.eqb (category_name x) k) ts))).
  { intros k. unfold d.
    rewrite (fold_add_value category_name
               (fun x => Transaction.Amount (fst x))).
    rewrite filter_andb. simpl. apply Qcplus_0_l. }
  assert (Keys : forall k,
             In k (map fst d) <->
             exists x, In x ts /\ Transaction.IsIncome (fst x) = dir /\
                       category_name x = k).
  { intros k. unfold d.
    rewrite (fold_add_keys category_name (fun x => Transaction.Amount (fst x))).
    simpl. split.
    - intros [[] | [x [Hx E]]]. apply filter_In in Hx. destruct Hx as [Hx B].
      exists x. split; [exact Hx|]. split; [|exact E].
      now apply eqb_prop in B.
    - intros [x [Hx [B E]]]. right. exists x. split; [|exact E].
      apply filter_In. split; [exact Hx|]. rewrite B. apply eqb_reflx. }
  destruct (top5_facts d N) as [L [_ [S [Nd [In_d Cut]]]]].
  split; [exact L|]. split; [exact S|]. split; [exact Nd|]. split.
  - intros e He. specialize (In_d e He). split.
    + rewrite <- V. symmetry. now apply value_of_In.
    + apply Keys. apply in_map_iff. now exists (category e, amount e).
  - intros x Hx B.
    assert (K : In (category_name x) (map fst d)).
    { apply Keys. now exists x. }
    apply in_map_iff in K. destruct K as [[k v] [E Hk]]. cbn in E. subst k.
    assert (Ev : v = value_of d (category_name x))
      by (symmetry; now apply value_of_In).
    rewrite <- V, <- Ev. now apply Cut.
Qed.

(** X23.  The profit margin of the detailed analysis is the net profit
    over the total income times 100 when the total income is positive, and
    0 otherwise.  The recommendations start with the tax one and number
    one to three; the one on low profitability is given exactly when the
    margin is below 15, in particular whenever the total income is not
    positive, and the one on high profitability exactly when it is above
    50. *)
Theorem margin_and_recommendations (ts : list stored) (ar : AnalysisResult.t) :
  let d := summarize ts ar in
  let margin := profit_margin (detailed_summary d) in
  (0 < AnalysisResult.TotalIncome ar ->
   margin = AnalysisResult.NetProfit ar / AnalysisResult.TotalIncome ar
            * of_Z 100) /\
  (AnalysisResult.TotalIncome ar <= 0 ->
   margin = 0 /\ In (low_margin_recommendation margin) (recommendations d)) /\
  hd_error (recommendations d)
  = Some (tax_recommendation (AnalysisResult.RecommendedTaxAmount ar)) /\
  (1 <= List.length (recommendations d) <= 3)%nat /\
  (In (low_margin_recommendation margin) (recommendations d) <->
   margin < of_Z 15) /\
  (In (high_margin_recommendation margin) (recommendations d) <->
   of_Z 50 < margin).
Proof.
  cbv zeta. unfold summarize.
  destruct (fold_left categories_step ts ([], [])) as [inc exp].
  cbn [detailed_summary recommendations profit_margin].
  set (margin := if gtb (AnalysisResult.TotalIncome ar) 0
                 then AnalysisResult.NetProfit ar
                      / AnalysisResult.TotalIncome ar * of_Z 100
                 else 0).
  set (tax := tax_recommendation (AnalysisResult.RecommendedTaxAmount ar)).
  set (recs1 := match top5 exp with
                | highest :: _ =>
                    if gtb (amount highest)
                           (AnalysisResult.TotalIncome ar * (of_Z 3 / of_Z 10))
                    then [tax] ++ [expense_recommendation (category highest)]
                    else [tax]
                | [] => [tax]
                end).
  assert (R1 : recs1 = [tax] \/
               exists c, recs1 = [tax; expense_recommendation c]).
  { unfold recs1. destruct (top5 exp) as [|h t]; [now left|].
    destruct (gtb (amount h) _); [right; now exists (category h) | now left]. }
  assert (Lt15 : ltb (of_Z 15) (of_Z 50) = true) by (vm_compute; reflexivity).
  assert (Zero15 : ltb 0 (of_Z 15) = true) by (vm_compute; reflexivity).
  assert (Tax : forall m, tax <> low_margin_recommendation m /\
                          tax <> high_margin_recommendation m).
  { intros m. split; intros E; apply (f_equal type) in E; discriminate E. }
  assert (Exp : forall c m,
             expense_recommendation c <> low_margin_recommendation m /\
             expense_recommendation c <> high_margin_recommendation m).
  { intros c m. split; intros E; apply (f_equal type) in E; discriminate E. }
  assert (LH : forall m m',
             low_margin_recommendation m <> high_margin_recommendation m').
  { intros m m' E. apply (f_equal importance) in E. discriminate E. }
  assert (In1 : forall r, In r recs1 ->
             r = tax \/ exists c, r = expense_recommendation c).
  { intros r Hr. destruct R1 as [-> | [c ->]]; simpl in Hr.
    - destruct Hr as [<- | []]. now left.
    - destruct Hr as [<- | [<- | []]]; [now left | right; now exists c]. }
  assert (NotLow : forall m, ~ In (low_margin_recommendation m) recs1).
  { intros m Hm. destruct (In1 _ Hm) as [E | [c E]].
    - exact (proj1 (Tax m) (eq_sym E)).
    - exact (proj1 (Exp c m) (eq_sym E)). }
  assert (NotHigh : forall m, ~ In (high_margin_recommendation m) recs1).
  { intros m Hm. destruct (In1 _ Hm) as [E | [c E]].
    - exact (proj2 (Tax m) (eq_sym E)).
    - exact (proj2 (Exp c m) (eq_sym E)). }
  assert (Hd : forall extra, hd_error (recs1 ++ extra) = Some tax).
  { intros extra. destruct R1 as [-> | [c ->]]; reflexivity. }
  assert (Len : (1 <= List.length recs1 <= 2)%nat).
  { destruct R1 as [-> | [c ->]]; simpl; lia. }
  split; [|split].
  - intros P. unfold margin, gtb. apply ltb_lt in P. now rewrite P.
  - intros NP. assert (Z : margin = 0).
    { unfold margin, gtb. apply ltb_ge in NP. now rewrite NP. }
    split; [exact Z|]. rewrite Z, Zero15.
    apply in_or_app. right. now left.
  - destruct (ltb margin (of_Z 15)) eqn:L.
    + pose proof (proj1 (ltb_lt _ _) L) as P.
      split; [apply Hd|]. split; [rewrite length_app; simpl; lia|].
      split; [split; [intros _; exact P
                     | intros _; apply in_or_app; right; now left]|].
      split.
      * intros Hin. apply in_app_or in Hin. destruct Hin as [Hin | [E | []]].
        -- now apply NotHigh in Hin.
        -- now apply LH in E.
      * intros G. exfalso.
        apply (Qclt_not_le _ _ (Qclt_trans _ _ _ P (proj1 (ltb_lt _ _) Lt15))).
        now apply Qclt_le_weak.
    + pose proof (proj1 (ltb_ge _ _) L) as P.
      unfold gtb. destruct (ltb (of_Z 50) margin) eqn:G.
      * pose proof (proj1 (ltb_lt _ _) G) as Q.
        split; [apply Hd|]. split; [rewrite length_app; simpl; lia|].
        split.
        -- split; [|intros B; exfalso; exact (Qclt_not_le _ _ B P)].
           intros Hin. exfalso. apply in_app_or in Hin.
           destruct Hin as [Hin | [E | []]].
           ++ now apply NotLow in Hin.
           ++ symmetry in E. now apply LH in E.
        -- split; [intros _; exact Q
                  | intros _; apply in_or_app; right; now left].
      * pose proof (proj1 (ltb_ge _ _) G) as Q.
        split; [rewrite <- (app_nil_r recs1); apply Hd|].
        split; [lia|].
        split.
        -- split; [intros Hin; exfalso; now apply NotLow in Hin
                  | intros B; exfalso; exact (Qclt_not_le _ _ B P)].
        -- split; [intros Hin; exfalso; now apply NotHigh in Hin
                  | intros B; exfalso; exact (Qclt_not_le _ _ B Q)].
Qed.

End Claims.

(** *** The months *)

Lemma ltb_leb (x y : string) : String.ltb x y = true -> String.leb x y = true.
Proof. unfold String.ltb, String.leb. now destruct (String.compare x y). Qed.

Lemma not_ltb_leb (x y : string) : String.ltb y x = false -> String.leb x y = true.
Proof.
  unfold String.ltb, String.leb. rewrite (String.compare_antisym y x).
  now destruct (String.compare x y).
Qed.

Lemma insert_by_key_perm {A} (x : string * A) (l : list (string * A)) :
  Permutation (insert_by_key x l) (x :: l).
Proof.
  induction l as [|y l IH]; simpl; [apply Permutation_refl|].
  destruct (String.ltb (fst y) (fst x)).
  - eapply perm_trans; [apply perm_skip, IH | apply perm_swap].
  - apply Permutation_refl.
Qed.

Lemma sorted_items_perm {A} (l : list (string * A)) :
  Permutation (sorted_items l) l.
Proof.
  induction l as [|x l IH]; simpl; [apply perm_nil|].
  eapply perm_trans; [apply insert_by_key_perm | apply perm_skip, IH].
Qed.

Lemma insert_by_key_sorted {A} (x : string * A) (l : list (string * A)) :
  Sorted (fun a b => String.leb (fst a) (fst b) = true) l ->
  Sorted (fun a b => String.leb (fst a) (fst b) = true) (insert_by_key x l).
Proof.
  induction l as [|y l IH]; simpl; intros S.
  - constructor; constructor.
  - apply Sorted_inv in S. destruct S as [Sl Hy].
    destruct (String.ltb (fst y) (fst x)) eqn:E.
    + constructor; [now apply IH|].
      destruct l as [|z l]; simpl.
      * constructor. now apply ltb_leb.
      * destruct (String.ltb (fst z) (fst x)).
        -- constructor. now apply HdRel_inv in Hy.
        -- constructor. now apply ltb_leb.
    + constructor; [now constructor|]. constructor. now apply not_ltb_leb.
Qed.

Lemma sorted_items_sorted {A} (l : list (string * A)) :
  Sorted (fun a b => String.leb (fst a) (fst b) = true) (sorted_items l).
Proof.
  induction l as [|x l IH]; simpl; [constructor|].
  now apply insert_by_key_sorted.
Qed.

Lemma Sorted_map {A B} (R : A -> A -> Prop) (Q : B -> B -> Prop)
      (f : A -> B) (l : list A) :
  (forall a b, R a b -> Q (f a) (f b)) -> Sorted R l -> Sorted Q (map f l).
Proof.
  intros M. induction 1 as [|a l S IH Hd]; simpl; constructor; [exact IH|].
  destruct Hd; simpl; constructor. now apply M.
Qed.

Lemma monthly_update_keys (d : monthly) (m : string) (b : bool) (a : Qc)
      (k : string) :
  In k (map fst (monthly_update d m b a)) <-> In k (map fst d) \/ k = m.
Proof.
  induction d as [|[k0 v] d IH]; simpl.
  - intuition.
  - destruct (String.eqb k0 m) eqn:E; simpl.
    + apply String.eqb_eq in E. subst. intuition.
    + rewrite IH. intuition.
Qed.

Lemma monthly_update_NoDup (d : monthly) (m : string) (b : bool) (a : Qc) :
  NoDup (map fst d) -> NoDup (map fst (monthly_update d m b a)).
Proof.
  induction d as [|[k0 v] d IH]; simpl; intros N.
  - constructor; [intros [] | constructor].
  - inversion N as [|? ? Hn Hd]; subst.
    destruct (String.eqb k0 m) eqn:E; simpl.
    + now constructor.
    + constructor; [|now apply IH].
      intros Hin. apply monthly_update_keys in Hin.
      destruct Hin as [Hin | ->]; [now apply Hn|].
      now rewrite String.eqb_refl in E.
Qed.

Lemma monthly_update_lookup (d : monthly) (m : string) (b : bool) (a : Qc)
      (k : string) :
  builtins.lookup (monthly_update d m b a) k
  = if String.eqb m k
    then Some (bump b a (match builtins.lookup d m with
                         | Some v => v
                         | None => month_data.mk 0 0 0
                         end))
    else builtins.lookup d k.
Proof.
  induction d as [|[k0 v] d IH]; simpl.
  - reflexivity.
  - destruct (String.eqb k0 m) eqn:E; simpl.
    + apply String.eqb_eq in E. subst k0.
      destruct (String.eqb m k); reflexivity.
    + rewrite IH. destruct (String.eqb m k) eqn:Emk; [|reflexivity].
      apply String.eqb_eq in Emk. subst k. now rewrite E.
Qed.

Lemma lookup_In {A} (d : list (string * A)) (k : string) (v : A) :
  NoDup (map fst d) -> In (k, v) d -> builtins.lookup d k = Some v.
Proof.
  induction d as [|[k0 x] d IH]; simpl; intros N Hin; [destruct Hin|].
  inversion N as [|? ? Hn Hd]; subst. destruct Hin as [E | Hin].
  - inversion E; subst. now rewrite String.eqb_refl.
  - destruct (String.eqb k0 k) eqn:E; [|now apply IH].
    apply String.eqb_eq in E. subst. exfalso. apply Hn.
    apply in_map_iff. now exists (k, v).
Qed.

Lemma bump_income (b : bool) (a : Qc) (m : month_data.t) :
  month_data.income (bump b a m) = month_data.income m + (if b then a else 0).
Proof. destruct b; cbn; ring. Qed.

Lemma bump_expense (b : bool) (a : Qc) (m : month_data.t) :
  month_data.expense (bump b a m) = month_data.expense m + (if b then 0 else a).
Proof. destruct b; cbn; ring. Qed.

Lemma bump_profit (b : bool) (a : Qc) (m : month_data.t) :
  month_data.profit (bump b a m)
  = month_data.income (bump b a m) - month_data.expense (bump b a m).
Proof. now destruct b. Qed.

(** The rounds of one month, one after the other. *)
Lemma bumps_totals (xs : list stored) (m : month_data.t) :
  let after :=
    fold_left (fun m x => bump (Transaction.IsIncome (fst x))
                               (Transaction.Amount (fst x)) m) xs m in
  month_data.income after
  = month_data.income m
    + py_sum (map (fun x => Transaction.Amount (fst x))
                  (filter (fun x => Transaction.IsIncome (fst x)) xs)) /\
  month_data.expense after
  = month_data.expense m
    + py_sum (map (fun x => Transaction.Amount (fst x))
                  (filter (fun x => negb (Transaction.IsIncome (fst x))) xs)) /\
  (xs <> [] ->
   month_data.profit after = month_data.income after - month_data.expense after).
Proof.
  cbv zeta. revert m. induction xs as [|x xs IH]; intros m.
  - simpl. rewrite py_sum_nil. repeat split; try ring. intros N.
    now contradiction N.
  - cbn [fold_left filter].
    destruct (IH (bump (Transaction.IsIncome (fst x))
                       (Transaction.Amount (fst x)) m)) as [I [E P]].
    split; [|split].
    + rewrite I, bump_income.
      destruct (Transaction.IsIncome (fst x)); cbn [map];
        rewrite ?py_sum_cons; ring.
    + rewrite E, bump_expense.
      destruct (Transaction.IsIncome (fst x)); cbn [map negb];
        rewrite ?py_sum_cons; ring.
    + intros _. destruct xs as [|y ys]; [apply bump_profit|].
      apply P. discriminate.
Qed.

Lemma monthly_fold_keys (ts : list stored) (d : monthly) (k : string) :
  In k (map fst (fold_left monthly_step ts d)) <->
  In k (map fst d) \/
  exists x, In x ts /\
    datetime.strftime_Y_m (Transaction.TransactionDate (fst x)) = k.
Proof.
  revert d. induction ts as [|x ts IH]; intros d; simpl.
  - split; [now left | intros [Hd | [x [[] _]]]; exact Hd].
  - rewrite IH. unfold monthly_step. rewrite monthly_update_keys. split.
    + intros [[Hd | ->] | [y [Hy E]]].
      * now left.
      * right. exists x. split; [now left | reflexivity].
      * right. exists y. split; [now right | exact E].
    + intros [Hd | [y [[-> | Hy] E]]].
      * left. now left.
      * left. right. now symmetry.
      * right. now exists y.
Qed.

Lemma monthly_fold_NoDup (ts : list stored) (d : monthly) :
  NoDup (map fst d) -> NoDup (map fst (fold_left monthly_step ts d)).
Proof.
  revert d. induction ts as [|x ts IH]; intros d N; simpl; [exact N|].
  apply IH. now apply monthly_update_NoDup.
Qed.

Lemma monthly_fold_lookup (ts : list stored) (d : monthly) (k : string) :
  builtins.lookup (fold_left monthly_step ts d) k
  = match filter (fun x => String.eqb
                      (datetime.strftime_Y_m (Transaction.TransactionDate (fst x)))
                      k) ts with
    | [] => builtins.lookup d k
    | xs =>
        Some (fold_left
                (fun m x => bump (Transaction.IsIncome (fst x))
                                 (Transaction.Amount (fst x)) m)
                xs
                (match builtins.lookup d k with
                 | Some v => v
                 | None => month_data.mk 0 0 0
                 end))
    end.
Proof.
  revert d. induction ts as [|x ts IH]; intros d; [reflexivity|].
  cbn [fold_left filter]. rewrite IH. unfold monthly_step.
  rewrite monthly_update_lookup.
  destruct (String.eqb
              (datetime.strftime_Y_m (Transaction.TransactionDate (fst x))) k)
    eqn:E.
  - apply String.eqb_eq in E. rewrite E.
    match goal with |- context [filter ?f ts] => destruct (filter f ts) end;
      reflexivity.
  - reflexivity.
Qed.

Section Months.
Context `{Format}.

(** X24.  The monthly summary of the detailed analysis lists every month
    in which the statement has a transaction, once, in ascending order of
    the key [YYYY-MM]; the income and the expense of a month are the sums
    of the amounts of its incomes and of its expenses, and its profit is
    the income minus the expense. *)
Theorem monthly_summary_by_month (ts : list stored) (ar : AnalysisResult.t) :
  let entries := monthly_summary (detailed_summary (summarize ts ar)) in
  let month_of (x : stored) :=
    datetime.strftime_Y_m (Transaction.TransactionDate (fst x)) in
  let sum_of (income : bool) (m : string) :=
    py_sum (map (fun x => Transaction.Amount (fst x))
                (filter (fun x => Bool.eqb (Transaction.IsIncome (fst x)) income)
                        (filter (fun x => String.eqb (month_of x) m) ts))) in
  Sorted (fun a b => String.leb (month_entry.month a) (month_entry.month b) = true)
         entries /\
  NoDup (map month_entry.month entries) /\
  (forall m, In m (map month_entry.month entries) <->
             exists x, In x ts /\ month_of x = m) /\
  forall e, In e entries ->
    month_entry.income e = sum_of true (month_entry.month e) /\
    month_entry.expense e = sum_of false (month_entry.month e) /\
    month_entry.profit e = month_entry.income e - month_entry.expense e.
Proof.
  cbv zeta. unfold summarize.
  destruct (fold_left categories_step ts ([], [])) as [inc exp].
  cbn [detailed_summary monthly_summary].
  set (md := fold_left monthly_step ts []).
  set (to_entry := fun '(k, v) =>
         month_entry.mk k (month_data.income v) (month_data.expense v)
                        (month_data.profit v)).
  assert (N : NoDup (map fst md)) by (apply monthly_fold_NoDup; constructor).
  assert (K : map month_entry.month (map to_entry (sorted_items md))
              = map fst (sorted_items md)).
  { rewrite map_map. apply map_ext. now intros [k v]. }
  assert (P : Permutation (map fst (sorted_items md)) (map fst md))
    by apply Permutation_map, sorted_items_perm.
  split; [|split; [|split]].
  - eapply Sorted_map; [|apply sorted_items_sorted].
    intros [k v] [k' v'] L. exact L.
  - rewrite K. exact (Permutation_NoDup (Permutation_sym P) N).
  - intros m. rewrite K. split.
    + intros Hin. apply (Permutation_in _ P) in Hin.
      apply monthly_fold_keys in Hin. destruct Hin as [[] | Hx]. exact Hx.
    + intros Hx. apply (Permutation_in _ (Permutation_sym P)).
      apply monthly_fold_keys. now right.
  - intros e He. apply in_map_iff in He. destruct He as [[k v] [<- Hin]].
    apply (Permutation_in _ (sorted_items_perm md)) in Hin.
    assert (Hk : In k (map fst md)) by (apply in_map_iff; now exists (k, v)).
    apply monthly_fold_keys in Hk. destruct Hk as [[] | [x [Hx Ex]]].
    pose proof (lookup_In md k v N Hin) as L.
    unfold md in L. rewrite monthly_fold_lookup in L.
    subst to_entry.
    cbn [month_entry.income month_entry.expense month_entry.profit
         month_entry.month].
    set (xs := filter (fun x : stored => String.eqb
                 (datetime.strftime_Y_m (Transaction.TransactionDate (fst x)))
                 k) ts) in *.
    assert (Hf : In x xs).
    { apply filter_In. split; [exact Hx|]. now apply String.eqb_eq. }
    destruct (bumps_totals xs (month_data.mk 0 0 0)) as [I [E Pr]].
    assert (Ev : v = fold_left
                       (fun m x => bump (Transaction.IsIncome (fst x))
                                        (Transaction.Amount (fst x)) m)
                       xs (month_data.mk 0 0 0)).
    { assert (L' : match xs with
                   | [] => None
                   | y :: ys => Some (fold_left
                            (fun m x => bump (Transaction.IsIncome (fst x))
                                             (Transaction.Amount (fst x)) m)
                            (y :: ys) (month_data.mk 0 0 0))
                   end = Some v) by exact L.
      clear L. destruct xs as [|y ys]; [destruct Hf|]. now inversion L'. }
    rewrite Ev, Pr, I, E by (intros Nil; rewrite Nil in Hf; destruct Hf).
    cbn [month_data.income month_data.expense].
    rewrite (filter_ext (fun x => Bool.eqb (Transaction.IsIncome (fst x)) true)
                        (fun x => Transaction.IsIncome (fst x)))
      by (intros z; now destruct (Transaction.IsIncome (fst z))).
    rewrite (filter_ext (fun x => Bool.eqb (Transaction.IsIncome (fst x)) false)
                        (fun x => negb (Transaction.IsIncome (fst x))))
      by (intros z; now destruct (Transaction.IsIncome (fst z))).
    split; [ring|]. split; [ring | reflexivity].
Qed.

End Months.

End detailed_facts.

(** ** From the processing task to the detailed analysis *)

Module processed_statement.
Import num num_facts analyzer base_parser analysis_controller.
Import detailed_analysis statement_query.

Lemma single_key_fold_from (k : string) (xs : list stored) (a : Qc) :
  (forall x, In x xs -> category_name x = k) ->
  fold_left (fun d x => add d (category_name x) (Transaction.Amount (fst x)))
            xs [(k, a)]
  = [(k, a + py_sum (map (fun x => Transaction.Amount (fst x)) xs))].
Proof.
  revert a. induction xs as [|x xs IH]; intros a All; cbn [fold_left map].
  - rewrite py_sum_nil. do 2 f_equal. ring.
  - rewrite (All x (or_introl eq_refl)). cbn [add]. rewrite String.eqb_refl.
    rewrite IH by (intros y Hy; apply All; now right).
    rewrite py_sum_cons. do 2 f_equal. ring.
Qed.

(** A dict filled under one key only. *)
Lemma single_key_fold (k : string) (xs : list stored) :
  (forall x, In x xs -> category_name x = k) ->
  fold_left (fun d x => add d (category_name x) (Transaction.Amount (fst x)))
            xs []
  = match xs with
    | [] => []
    | _ :: _ => [(k, py_sum (map (fun x => Transaction.Amount (fst x)) xs))]
    end.
Proof.
  destruct xs as [|x xs]; intros All; [reflexivity|].
  cbn [fold_left map]. rewrite (All x (or_introl eq_refl)). cbn [add].
  rewrite single_key_fold_from by (intros y Hy; apply All; now right).
  rewrite py_sum_cons. do 2 f_equal. ring.
Qed.

Section Claims.
Context `{Python} `{Regex} `{World} `{Format}.

(** The rows [add_transactions] stores have no category. *)
Lemma add_transactions_uncategorised (statement : StatementFile)
      (data : list txn.t) (db : database) :
  exists stored,
    Transactions (fst (add_transactions statement data db))
    = Transactions db ++ stored /\
    Forall (fun T => Transaction.CategoryId T = None) stored.
Proof.
  revert db. induction data as [|t data IH]; intros db; cbn [add_transactions].
  - exists []. split; [now rewrite app_nil_r | constructor].
  - destruct (make_transaction statement t) as [T|e] eqn:M.
    + destruct (IH (mk_db (StatementFiles db) (Transactions db ++ [T])
                          (AnalysisResults db) (EventLogs db)))
        as [stored [Tr Fa]].
      exists (T :: stored). split.
      * rewrite Tr. cbn [Transactions]. now rewrite <- app_assoc.
      * constructor; [|exact Fa]. unfold make_transaction in M.
        destruct (txn.date t), (txn.amount t), (txn.description t),
                 (txn.is_income t); inversion M; reflexivity.
    + exists []. split; [now rewrite app_nil_r | constructor].
Qed.

(** So have the rows the task adds to the table. *)
Lemma process_adds_uncategorised (statement_id : nat) (db : database) :
  exists stored,
    Transactions (process_statement_file statement_id db)
    = Transactions db ++ stored /\
    Forall (fun T => Transaction.CategoryId T = None) stored.
Proof.
  assert (Nil : exists stored : list Transaction.t,
             Transactions db = Transactions db ++ stored /\
             Forall (fun T => Transaction.CategoryId T = None) stored).
  { exists []. split; [now rewrite app_nil_r | constructor]. }
  unfold process_statement_file.
  destruct (find_statement db statement_id) as [statement|]; [|exact Nil].
  destruct (get_parser_for_statement statement) as [[p|]|e];
    [|exact Nil|exact Nil].
  destruct (parse_file p (FilePath statement)) as [parsed|e]; [|exact Nil].
  destruct (add_transactions_uncategorised
              statement parsed
              (commit_status db (Id statement) PROCESSING None))
    as [stored [Tr Fa]].
  destruct (add_transactions statement parsed _) as [db1 [e|]];
    cbn [fst] in Tr; exists stored; (split; [exact Tr | exact Fa]).
Qed.

(** X25.  The processing task never sets a category on the rows it makes
    from what a Kaspi parser returns.  When the rows of a Kaspi statement
    already in the table have none either, the detailed analysis of the
    statement after processing has at most one income category and at
    most one expense category: everything is filed under ["Другое"], with
    the sum of the amounts of that direction. *)
Theorem processed_statement_is_filed_under_other
        (cats : categories) (statement_id : nat) (db : database)
        (ar : AnalysisResult.t) (dir : bool) :
  (forall statement, find_statement db statement_id = Some statement ->
                     Code statement = "KASPI") ->
  Forall (fun T => Transaction.StatementFileId T = statement_id ->
                   Transaction.CategoryId T = None)
         (Transactions db) ->
  let db' := process_statement_file statement_id db in
  let ts := statement_transactions cats db' statement_id in
  let s := detailed_summary (summarize ts ar) in
  let of_direction :=
    filter (fun x => Bool.eqb (Transaction.IsIncome (fst x)) dir) ts in
  (forall x, In x ts -> snd x = None) /\
  (if dir then top_income_categories s else top_expense_categories s)
  = match of_direction with
    | [] => []
    | _ :: _ =>
        [mk_top "Другое"
                (py_sum (map (fun x => Transaction.Amount (fst x)) of_direction))]
    end.
Proof.
  intros _ U. cbv zeta.
  destruct (process_adds_uncategorised statement_id db) as [stored [Tr Fa]].
  set (ts := statement_transactions
               cats (process_statement_file statement_id db) statement_id).
  assert (N : forall x, In x ts -> snd x = None).
  { intros x Hx. unfold ts, statement_transactions in Hx.
    apply in_map_iff in Hx. destruct Hx as [T [<- HT]].
    apply filter_In in HT. destruct HT as [HT Hid].
    apply Nat.eqb_eq in Hid. rewrite Tr in HT. apply in_app_or in HT.
    assert (C : Transaction.CategoryId T = None).
    { rewrite Forall_forall in U, Fa.
      destruct HT as [HT | HT]; [now apply U | now apply Fa]. }
    cbn [snd]. unfold category_of. now rewrite C. }
  split; [exact N|].
  destruct (detailed_facts.summarize_unfold ts ar) as [I E].
  assert (T : (if dir
               then top_income_categories (detailed_summary (summarize ts ar))
               else top_expense_categories (detailed_summary (summarize ts ar)))
              = top5 (fold_left
                        (fun d x => add d (category_name x)
                                        (Transaction.Amount (fst x)))
                        (filter (fun x => Bool.eqb (Transaction.IsIncome (fst x))
                                                   dir) ts)
                        []))
    by now destruct dir.
  rewrite T. rewrite (single_key_fold "Другое").
  - match goal with |- context [filter ?f ts] => now destruct (filter f ts) end.
  - intros x Hx. apply filter_In in Hx. destruct Hx as [Hx _].
    unfold category_name. now rewrite (N x Hx).
Qed.

End Claims.

End processed_statement.

(** ** The analyzers over an arithmetic: order and rounding *)

Module generic_facts.
Import arith generic.

Section Order.
Context {A : Arith}.

Lemma ordered_by_less_spec (xs : list number) :
  ordered_by_less xs = true ->
  (forall a b, In a xs -> In b xs -> less a b = true -> less b a = false) /\
  (forall a b c, In a xs -> In b xs -> In c xs ->
     less a b = false -> less b c = false -> less a c = false).
Proof.
  unfold ordered_by_less. rewrite forallb_forall. intros O. split.
  - intros a b Ha Hb L. specialize (O a Ha). rewrite forallb_forall in O.
    specialize (O b Hb). apply andb_true_iff in O. destruct O as [O _].
    rewrite L in O. now apply negb_true_iff in O.
  - intros a b c Ha Hb Hc L1 L2. specialize (O a Ha).
    rewrite forallb_forall in O. specialize (O b Hb).
    apply andb_true_iff in O. destruct O as [_ O].
    rewrite forallb_forall in O. specialize (O c Hc).
    rewrite L1, L2 in O. now apply negb_true_iff in O.
Qed.

Lemma insert_desc_permutes {B} (key : B -> number) (x : B) (l : list B) :
  Permutation (insert_desc key x l) (x :: l).
Proof.
  induction l as [|y l IH]; simpl; [apply Permutation_refl|].
  destruct (less (key x) (key y)).
  - eapply perm_trans; [apply perm_skip, IH | apply perm_swap].
  - apply Permutation_refl.
Qed.

Lemma sorted_desc_permutes {B} (key : B -> number) (l : list B) :
  Permutation (sorted_desc key l) l.
Proof.
  induction l as [|x l IH]; simpl; [apply perm_nil|].
  eapply perm_trans; [apply insert_desc_permutes | apply perm_skip, IH].
Qed.

Section Sorting.
Context {B : Type} (key : B -> number) (dom : list B).
Hypothesis asym :
  forall a b, In a dom -> In b dom ->
    less (key a) (key b) = true -> less (key b) (key a) = false.
Hypothesis negtrans :
  forall a b c, In a dom -> In b dom -> In c dom ->
    less (key a) (key b) = false -> less (key b) (key c) = false ->
    less (key a) (key c) = false.

Lemma less_irrefl (a : B) : In a dom -> less (key a) (key a) = false.
Proof.
  intros Ha. destruct (less (key a) (key a)) eqn:L; [|reflexivity].
  rewrite <- L. now apply asym.
Qed.

Lemma insert_desc_keeps_order (x : B) (l : list B) :
  In x dom -> incl l dom ->
  StronglySorted (fun a b => less (key a) (key b) = false) l ->
  StronglySorted (fun a b => less (key a) (key b) = false) (insert_desc key x l).
Proof.
  intros Hx. induction l as [|y l IH]; intros Hl S; simpl.
  - constructor; constructor.
  - assert (Hy : In y dom) by (apply Hl; now left).
    assert (Hl' : incl l dom) by (intros z Hz; apply Hl; now right).
    inversion S as [|? ? Sl Fy]; subst. rewrite Forall_forall in Fy.
    destruct (less (key x) (key y)) eqn:L.
    + constructor; [now apply IH|]. rewrite Forall_forall. intros z Hz.
      apply (Permutation_in _ (insert_desc_permutes key x l)) in Hz.
      destruct Hz as [<- | Hz]; [now apply asym | now apply Fy].
    + constructor; [exact S|]. constructor; [exact L|].
      rewrite Forall_forall. intros z Hz.
      apply (negtrans x y z Hx Hy (Hl' z Hz) L). now apply Fy.
Qed.

Lemma sorted_desc_in_order (l : list B) :
  incl l dom ->
  StronglySorted (fun a b => less (key a) (key b) = false) (sorted_desc key l).
Proof.
  induction l as [|x l IH]; intros Hl; simpl; [constructor|].
  apply insert_desc_keeps_order.
  - apply Hl. now left.
  - intros z Hz. apply Hl. right.
    exact (Permutation_in _ (sorted_desc_permutes key l) Hz).
  - apply IH. intros z Hz. apply Hl. now right.
Qed.

Lemma first_is_not_below (l : list B) (x : B) :
  incl l dom ->
  StronglySorted (fun a b => less (key a) (key b) = false) l ->
  analyzer.first_or_none l = Some x ->
  In x l /\ forall y, In y l -> less (key x) (key y) = false.
Proof.
  destruct l as [|h l]; simpl; intros Hl S E; [discriminate|].
  inversion E; subst. inversion S as [|? ? _ F]; subst.
  split; [now left|]. intros y [<- | Hy].
  - apply less_irrefl, Hl. now left.
  - rewrite Forall_forall in F. now apply F.
Qed.

Lemma last_is_not_above (l : list B) (x : B) :
  incl l dom ->
  StronglySorted (fun a b => less (key a) (key b) = false) l ->
  analyzer.last_or_none l = Some x ->
  In x l /\ forall y, In y l -> less (key y) (key x) = false.
Proof.
  induction l as [|h l IH]; intros Hl S E; [discriminate|].
  inversion S as [|? ? Sl F]; subst.
  destruct l as [|h' l].
  - simpl in E. inversion E; subst. split; [now left|].
    intros y [<- | []]. apply less_irrefl, Hl. now left.
  - change (analyzer.last_or_none (h :: h' :: l))
      with (analyzer.last_or_none (h' :: l)) in E.
    assert (Hl' : incl (h' :: l) dom) by (intros z Hz; apply Hl; now right).
    destruct (IH Hl' Sl E) as [Hin Hmin]. split; [now right|].
    intros y [<- | Hy]; [|now apply Hmin].
    rewrite Forall_forall in F. now apply F.
Qed.

End Sorting.

(** A list whose keys [<] orders is sorted into descending order. *)
Lemma sorted_desc_descending {B} (key : B -> number) (l : list B) :
  ordered_by_less (map key l) = true ->
  StronglySorted (fun a b => less (key a) (key b) = false) (sorted_desc key l).
Proof.
  intros O. destruct (ordered_by_less_spec _ O) as [As Nt].
  apply (sorted_desc_in_order key l).
  - intros a b Ha Hb. apply As; now apply in_map.
  - intros a b c Ha Hb Hc. apply Nt; now apply in_map.
  - intros z Hz. exact Hz.
Qed.

(** The first of it is a largest element and the last a smallest one. *)
Lemma extremes_of_ordered {B} (key : B -> number) (l : list B) :
  ordered_by_less (map key l) = true ->
  (l = [] ->
   analyzer.first_or_none (sorted_desc key l) = None /\
   analyzer.last_or_none (sorted_desc key l) = None) /\
  (l <> [] ->
   exists first last,
     analyzer.first_or_none (sorted_desc key l) = Some first /\
     analyzer.last_or_none (sorted_desc key l) = Some last /\
     In first l /\ In last l /\
     forall t, In t l ->
       less (key first) (key t) = false /\ less (key t) (key last) = false).
Proof.
  intros O. split; [intros ->; split; reflexivity|]. intros N.
  destruct (ordered_by_less_spec _ O) as [As Nt].
  assert (As' : forall a b, In a l -> In b l ->
                  less (key a) (key b) = true -> less (key b) (key a) = false)
    by (intros a b Ha Hb; apply As; now apply in_map).
  assert (Nt' : forall a b c, In a l -> In b l -> In c l ->
                  less (key a) (key b) = false -> less (key b) (key c) = false ->
                  less (key a) (key c) = false)
    by (intros a b c Ha Hb Hc; apply Nt; now apply in_map).
  pose proof (sorted_desc_descending key l O) as S.
  pose proof (sorted_desc_permutes key l) as P.
  assert (I : incl (sorted_desc key l) l)
    by (intros z Hz; exact (Permutation_in _ P Hz)).
  assert (N' : sorted_desc key l <> []).
  { intros Z. rewrite Z in P. apply Permutation_nil in P. now apply N. }
  destruct (sorted_desc key l) as [|first rest] eqn:D; [now contradiction N'|].
  destruct (sums_facts.last_or_none_nonempty (first :: rest) N') as [last Hs].
  exists first, last.
  destruct (first_is_not_below key l As' (first :: rest) first I S eq_refl)
    as [Hl Hmax].
  destruct (last_is_not_above key l As' (first :: rest) last I S Hs)
    as [Hsin Hmin].
  split; [reflexivity|]. split; [exact Hs|].
  split; [exact (I _ Hl)|]. split; [exact (I _ Hsin)|].
  intros t Ht. apply (Permutation_in _ (Permutation_sym P)) in Ht.
  split; [now apply Hmax | now apply Hmin].
Qed.

End Order.

Section Claims.
Context {A : Arith} `{Python}.



(** The early return for an empty filter gives what the general path
    would give. *)
Lemma generic_analyze_expenses_fields (ts : list transaction) :
  let E := filter (fun t => negb (get_is_income t true)) ts in
  analyze_expenses ts
  = mk_result
      (py_sum (map get_amount E)) (List.length E)
      (if (0 <? List.length E)%nat
       then divide (py_sum (map get_amount E)) (of_int (Z.of_nat (List.length E)))
       else zero)
      (group_by_category E) (group_by_month E)
      (analyzer.first_or_none (sorted_desc get_amount E))
      (analyzer.last_or_none (sorted_desc get_amount E))
      (categorize_expenses E).
Proof.
  cbv zeta. unfold analyze_expenses.
  destruct (filter (fun t => negb (get_is_income t true)) ts); reflexivity.
Qed.

Lemma generic_analyze_income_fields (ts : list transaction) :
  let E := filter (fun t => get_is_income t false) ts in
  analyze_income ts
  = mk_result
      (py_sum (map get_amount E)) (List.length E)
      (if (0 <? List.length E)%nat
       then divide (py_sum (map get_amount E)) (of_int (Z.of_nat (List.length E)))
       else zero)
      (group_by_category E) (group_by_month E)
      (analyzer.first_or_none (sorted_desc get_amount E))
      (analyzer.last_or_none (sorted_desc get_amount E))
      (analyze_income_sources E).
Proof.
  cbv zeta. unfold analyze_income.
  destruct (filter (fun t => get_is_income t false) ts); reflexivity.
Qed.

(** X7.  Whatever the arithmetic: when [<] is a strict weak order on the
    amounts of the expenses, as it is when none of them is a
    not-a-number, [largest] and [smallest] of [analyze_expenses] are
    expenses of the input, no expense has an amount above that of
    [largest] and none an amount below that of [smallest]; when there is
    no expense both are [None].  The same holds for the incomes of
    [analyze_income]. *)
Theorem largest_and_smallest_are_extremes (ts : list transaction) :
  let expenses := filter (fun t => negb (get_is_income t true)) ts in
  let incomes := filter (fun t => get_is_income t false) ts in
  let e := analyze_expenses ts in
  let i := analyze_income ts in
  ordered_by_less (map get_amount expenses) = true ->
  ordered_by_less (map get_amount incomes) = true ->
  (expenses = [] -> largest e = None /\ smallest e = None) /\
  (expenses <> [] ->
     exists l s,
       largest e = Some l /\ smallest e = Some s /\
       In l expenses /\ In s expenses /\
       forall t, In t expenses ->
         less (get_amount l) (get_amount t) = false /\
         less (get_amount t) (get_amount s) = false) /\
  (incomes = [] -> largest i = None /\ smallest i = None) /\
  (incomes <> [] ->
     exists l s,
       largest i = Some l /\ smallest i = Some s /\
       In l incomes /\ In s incomes /\
       forall t, In t incomes ->
         less (get_amount l) (get_amount t) = false /\
         less (get_amount t) (get_amount s) = false).
Proof.
  cbv zeta. intros OE OI.
  rewrite generic_analyze_expenses_fields, generic_analyze_income_fields.
  cbn [largest smallest].
  destruct (extremes_of_ordered get_amount _ OE) as [E0 E1].
  destruct (extremes_of_ordered get_amount _ OI) as [I0 I1].
  split; [exact E0|]. split; [exact E1|]. split; [exact I0 | exact I1].
Qed.

End Claims.

(** *** At exact arithmetic this embedding is the one of the modules
    [analyzer], [expense_analyzer] and [income_analyzer] *)

Section Exact.
Context `{Python}.

Lemma ordered_by_less_exact (xs : list Qc) :
  ordered_by_less (A := exact) xs = true.
Proof.
  unfold ordered_by_less. apply forallb_forall. intros a _.
  apply forallb_forall. intros b _. apply andb_true_iff. split.
  - cbn [less exact]. destruct (num.ltb a b) eqn:L; [|reflexivity].
    cbn [implb]. apply negb_true_iff, num_facts.ltb_ge.
    apply Qclt_le_weak. now apply num_facts.ltb_lt.
  - apply forallb_forall. intros c _. cbn [less exact].
    destruct (num.ltb a b) eqn:L1; [reflexivity|].
    destruct (num.ltb b c) eqn:L2; [reflexivity|].
    cbn [negb andb implb]. apply negb_true_iff, num_facts.ltb_ge.
    apply num_facts.ltb_ge in L1, L2. eapply Qcle_trans; eassumption.
Qed.

Lemma add_exact (d : analyzer.sums) (key : string) (v : Qc) :
  add (A := exact) d key v = analyzer.add d key v.
Proof.
  induction d as [|[k x] d IH]; simpl; [reflexivity|].
  destruct (String.eqb k key); [reflexivity | now rewrite IH].
Qed.

Lemma scan_rules_exact (rs : analyzer.rules) (description : string)
      (amount : Qc) (d : analyzer.sums) :
  scan_rules (A := exact) rs description amount d
  = analyzer.scan_rules rs description amount d.
Proof.
  induction rs as [|[label keywords] rs IH]; simpl; [reflexivity|].
  destruct (analyzer.scan_keywords keywords description);
    [now rewrite add_exact | exact IH].
Qed.

Lemma classify_into_exact (rs : analyzer.rules) (d : analyzer.sums) (t : txn.t) :
  classify_into (A := exact) rs d (of_txn t) = analyzer.classify_into rs d t.
Proof.
  unfold classify_into, analyzer.classify_into.
  change (get_description (A := exact) (of_txn t)) with (txn.get_description t).
  change (get_amount (A := exact) (of_txn t)) with (txn.get_amount t).
  rewrite scan_rules_exact.
  destruct (analyzer.scan_rules rs _ _ d) as [d' found].
  destruct found; [reflexivity | apply add_exact].
Qed.

Lemma fold_left_map {B C D} (f : D -> C -> D) (g : B -> C) (l : list B) (d : D) :
  fold_left f (map g l) d = fold_left (fun d x => f d (g x)) l d.
Proof.
  revert d. induction l as [|x l IH]; intros d; [reflexivity|]. apply IH.
Qed.

Lemma fold_left_ext {B D} (f g : D -> B -> D) (l : list B) (d : D) :
  (forall d x, f d x = g d x) -> fold_left f l d = fold_left g l d.
Proof.
  intros E. revert d. induction l as [|x l IH]; intros d; [reflexivity|].
  cbn [fold_left]. now rewrite E, IH.
Qed.

Lemma classify_all_exact (rs : analyzer.rules) (ts : list txn.t) :
  classify_all (A := exact) rs (map of_txn ts) = analyzer.classify_all rs ts.
Proof.
  unfold classify_all, analyzer.classify_all. rewrite fold_left_map.
  apply fold_left_ext. intros d t. apply classify_into_exact.
Qed.

Lemma insert_desc_exact {B} (key : B -> Qc) (x : B) (l : list B) :
  insert_desc (A := exact) key x l = analyzer.insert_desc key x l.
Proof.
  induction l as [|y l IH]; simpl; [reflexivity|].
  change (less (Arith := exact) (key x) (key y)) with (num.ltb (key x) (key y)).
  destruct (num.ltb (key x) (key y)); [now rewrite IH | reflexivity].
Qed.

Lemma sorted_desc_exact {B} (key : B -> Qc) (l : list B) :
  sorted_desc (A := exact) key l = analyzer.sorted_desc key l.
Proof.
  induction l as [|x l IH]; simpl; [reflexivity|].
  now rewrite IH, insert_desc_exact.
Qed.

Lemma insert_desc_map {B C} (f : B -> C) (key : C -> Qc) (x : B) (l : list B) :
  analyzer.insert_desc key (f x) (map f l)
  = map f (analyzer.insert_desc (fun b => key (f b)) x l).
Proof.
  induction l as [|y l IH]; simpl; [reflexivity|].
  destruct (num.ltb (key (f x)) (key (f y))); simpl; [now rewrite IH | reflexivity].
Qed.

Lemma sorted_desc_map {B C} (f : B -> C) (key : C -> Qc) (l : list B) :
  analyzer.sorted_desc key (map f l)
  = map f (analyzer.sorted_desc (fun b => key (f b)) l).
Proof.
  induction l as [|x l IH]; simpl; [reflexivity|].
  now rewrite IH, insert_desc_map.
Qed.

Lemma percentage_of_exact (amount sum : Qc) :
  percentage_of (A := exact) amount sum = analyzer.percentage_of amount sum.
Proof. reflexivity. Qed.

(** The breakdowns are the same lists. *)
Lemma categorize_expenses_exact (ts : list txn.t) :
  categorize_expenses (A := exact) (map of_txn ts)
  = map of_category_share (expense_analyzer.categorize_expenses ts).
Proof.
  unfold categorize_expenses, breakdown, expense_analyzer.categorize_expenses.
  rewrite classify_all_exact, sorted_desc_exact, map_map.
  apply map_ext. now intros [label amount].
Qed.

Lemma analyze_income_sources_exact (ts : list txn.t) :
  analyze_income_sources (A := exact) (map of_txn ts)
  = map of_source_share (income_analyzer.analyze_income_sources ts).
Proof.
  unfold analyze_income_sources, breakdown,
    income_analyzer.analyze_income_sources.
  rewrite classify_all_exact, sorted_desc_exact, map_map.
  apply map_ext. now intros [label amount].
Qed.

Lemma group_by_category_exact (ts : list txn.t) :
  group_by_category (A := exact) (map of_txn ts) = analyzer.group_by_category ts.
Proof.
  unfold group_by_category, analyzer.group_by_category. rewrite fold_left_map.
  apply fold_left_ext. intros d t. apply add_exact.
Qed.

Lemma group_by_month_exact (ts : list txn.t) :
  group_by_month (A := exact) (map of_txn ts) = analyzer.group_by_month ts.
Proof.
  unfold group_by_month, analyzer.group_by_month. rewrite fold_left_map.
  apply fold_left_ext. intros d t. cbn [date of_txn].
  destruct (txn.date t); [apply add_exact | reflexivity].
Qed.

Lemma filter_map_comm {B C} (f : C -> bool) (g : B -> C) (l : list B) :
  filter f (map g l) = map g (filter (fun x => f (g x)) l).
Proof.
  induction l as [|x l IH]; simpl; [reflexivity|].
  destruct (f (g x)); simpl; now rewrite IH.
Qed.

Lemma first_or_none_map {B C} (g : B -> C) (l : list B) :
  analyzer.first_or_none (map g l) = option_map g (analyzer.first_or_none l).
Proof. now destruct l. Qed.

Lemma last_or_none_map {B C} (g : B -> C) (l : list B) :
  analyzer.last_or_none (map g l) = option_map g (analyzer.last_or_none l).
Proof.
  induction l as [|x l IH]; [reflexivity|].
  destruct l as [|y l]; [reflexivity|]. exact IH.
Qed.

Lemma sorted_by_amount_exact (ts : list txn.t) :
  sorted_desc (A := exact) (get_amount (A := exact)) (map of_txn ts)
  = map of_txn (analyzer.sorted_desc txn.get_amount ts).
Proof. now rewrite sorted_desc_exact, sorted_desc_map. Qed.

Lemma py_sum_exact (ts : list txn.t) :
  py_sum (A := exact) (map (get_amount (A := exact)) (map of_txn ts))
  = num.py_sum (map txn.get_amount ts).
Proof. now rewrite map_map. Qed.

(** The two analyses are the same dicts. *)
Lemma analyze_expenses_exact (ts : list txn.t) :
  analyze_expenses (A := exact) (map of_txn ts)
  = of_expense_result (expense_analyzer.analyze_expenses ts).
Proof.
  rewrite (generic_analyze_expenses_fields (A := exact)).
  rewrite analysis_properties.analyze_expenses_fields. cbv zeta.
  rewrite (filter_map_comm _ of_txn).
  change (fun x : txn.t => negb (get_is_income (A := exact) (of_txn x) true))
    with (fun t : txn.t => negb (txn.get_is_income t true)).
  unfold of_expense_result.
  cbn [expense_analyzer.total expense_analyzer.count expense_analyzer.average
       expense_analyzer.by_category expense_analyzer.by_month
       expense_analyzer.largest expense_analyzer.smallest
       expense_analyzer.categories].
  rewrite py_sum_exact, length_map, group_by_category_exact,
    group_by_month_exact, sorted_by_amount_exact, first_or_none_map,
    last_or_none_map, categorize_expenses_exact.
  reflexivity.
Qed.

Lemma analyze_income_exact (ts : list txn.t) :
  analyze_income (A := exact) (map of_txn ts)
  = of_income_result (income_analyzer.analyze_income ts).
Proof.
  rewrite (generic_analyze_income_fields (A := exact)).
  rewrite analysis_properties.analyze_income_fields. cbv zeta.
  rewrite (filter_map_comm _ of_txn).
  change (fun x : txn.t => get_is_income (A := exact) (of_txn x) false)
    with (fun t : txn.t => txn.get_is_income t false).
  unfold of_income_result.
  cbn [income_analyzer.total income_analyzer.count income_analyzer.average
       income_analyzer.by_category income_analyzer.by_month
       income_analyzer.largest income_analyzer.smallest
       income_analyzer.sources].
  rewrite py_sum_exact, length_map, group_by_category_exact,
    group_by_month_exact, sorted_by_amount_exact, first_or_none_map,
    last_or_none_map, analyze_income_sources_exact.
  reflexivity.
Qed.

End Exact.

End generic_facts.

(** ** The analyzers on floats *)

Module float_examples.
Import PrimFloat arith float_sample.
Local Open Scope float_scope.
#[local] Set Warnings "-inexact-float".
#[local] Existing Instance cpython.python.

(** The claim C7 fails on floats.  A rent of 1.0 and a taxi ride of 2.0:
    the total 3.0 is positive, the two percentages are
    66.66666666666666 and 33.33333333333333, and [sum] of them is
    99.99999999999999, not 100. *)
Lemma percentages_float_counterexample :
  let shares := generic.categorize_expenses (A := binary64) rent_and_taxi in
  map (generic.share_label (A := binary64)) shares
  = ["Транспортные расходы"; "Аренда"]%string /\
  map (generic.share_amount (A := binary64)) shares = [2; 1] /\
  ltb 0 (generic.py_sum (A := binary64)
           (map (generic.share_amount (A := binary64)) shares)) = true /\
  map (generic.share_percentage (A := binary64)) shares
  = [66.66666666666666; 33.33333333333333] /\
  generic.py_sum (A := binary64)
    (map (generic.share_percentage (A := binary64)) shares)
  = 99.99999999999999 /\
  eqb 99.99999999999999 100 = false.
Proof. cbv zeta. repeat split; vm_compute; reflexivity. Qed.

(** Rounding also separates [average * count] from [total]: on the
    expenses 3996.55, 4022.12 and 11.05 the total is 8029.72 and the
    average times 3 is 8029.719999999999. *)
Example average_times_count_on_floats :
  let e := generic.analyze_expenses (A := binary64) three_expenses in
  generic.result_total e = 8029.72 /\
  generic.result_count e = 3%nat /\
  mul (generic.result_average e) 3 = 8029.719999999999 /\
  eqb 8029.719999999999 8029.72 = false.
Proof. cbv zeta. repeat split; vm_compute; reflexivity. Qed.

(** A not-a-number among the amounts: [<] is no order on them. *)
Example not_a_number_is_not_ordered :
  generic.ordered_by_less (A := binary64)
    (map (generic.get_amount (A := binary64)) with_nan) = false /\
  generic.ordered_by_less (A := binary64)
    (map (generic.get_amount (A := binary64)) three_expenses) = true.
Proof. split; vm_compute; reflexivity. Qed.


(** X7 on the three expenses, in floats: the largest is the taxi ride and
    the smallest the cafe. *)
Lemma extremes_witness :
  let e := generic.analyze_expenses (A := binary64) three_expenses in
  option_map (generic.get_amount (A := binary64)) (generic.largest e)
  = Some 4022.12 /\
  option_map (generic.get_amount (A := binary64)) (generic.smallest e)
  = Some 11.05 /\
  exists l s,
    generic.largest e = Some l /\ generic.smallest e = Some s /\
    In l three_expenses /\ In s three_expenses /\
    forall t, In t three_expenses ->
      ltb (generic.get_amount (A := binary64) l)
          (generic.get_amount (A := binary64) t) = false /\
      ltb (generic.get_amount (A := binary64) t)
          (generic.get_amount (A := binary64) s) = false.
Proof.
  cbv zeta. split; [vm_compute; reflexivity|].
  split; [vm_compute; reflexivity|].
  refine (proj1 (proj2 (@generic_facts.largest_and_smallest_are_extremes
                          binary64 cpython.python three_expenses _ _)) _).
  - vm_compute. reflexivity.
  - vm_compute. reflexivity.
  - discriminate.
Defined.

End float_examples.

(** ** The properties on sample statements *)

Module property_examples.
Import num base_parser kaspi_parser analysis_controller sample row_sample.
#[local] Existing Instance cpython.python.
#[local] Existing Instance no_pdf_text.

(** X11 on the card payment of -4500: stored as an expense of 4500. *)
Lemma untyped_row_witness :
  table_transaction untyped_columns card_payment_row = Some card_payment /\
  exists read,
    parse_amount untyped_columns card_payment_row = Some read /\
    txn.amount card_payment = Some (Qcabs.Qcabs read) /\
    0 <= Qcabs.Qcabs read /\
    txn.is_income card_payment = Some (negb (ltb read 0)).
Proof.
  assert (T : table_transaction untyped_columns card_payment_row
              = Some card_payment) by (vm_compute; reflexivity).
  split; [exact T|].
  apply (@parsing_properties.untyped_row_follows_the_sign
           cpython.python untyped_columns card_payment_row card_payment);
    [reflexivity | exact T].
Defined.

(** X13 on the CSV file of two lines. *)
Lemma kaspi_parse_file_witness :
  exists transactions,
    @parse_file _ _ world KaspiCSVParser "kaspi.csv" = Return transactions /\
    Forall transaction_shape.complete transactions /\
    forall t, In t transactions ->
      txn.date t <> None /\ txn.description t <> None /\
      txn.amount t <> None /\ txn.is_income t <> None /\
      txn.category t = None.
Proof.
  apply (@parsing_properties.kaspi_parse_file_returns_complete_transactions
           cpython.python no_pdf_text world KaspiCSVParser "kaspi.csv").
  simpl. right. right. left. reflexivity.
Defined.

(** X16 on the workbook: the parser built for it is the Excel parser. *)
Lemma kaspi_parser_answers_witness :
  @get_parser_for_statement _ world excel_statement
  = Return (Some KaspiExcelParser) /\
  parser_info.get_bank_code KaspiExcelParser = Some (Code excel_statement) /\
  parser_info.get_file_format KaspiExcelParser (Some excel_statement)
  = Some (lower (pystr.split_dot_last (FileName excel_statement))).
Proof.
  assert (G : @get_parser_for_statement _ world excel_statement
              = Return (Some KaspiExcelParser)) by (vm_compute; reflexivity).
  split; [exact G|].
  apply (@parsing_properties.kaspi_parser_answers_for_its_statement
           cpython.python world excel_statement KaspiExcelParser);
    [reflexivity | discriminate | exact G].
Defined.


(** X18 on the same statement where the Halyk module is missing. *)
Lemma missing_halyk_module_witness :
  let db := pending csv_statement in
  let db' := @process_statement_file _ _ world_without_halyk 1 db in
  @get_parser_for_statement _ world_without_halyk csv_statement
  = Raise ModuleNotFoundError /\
  option_map ProcessingStatus (find_statement db' 1) = Some FAILED /\
  Transactions db' = Transactions db /\
  AnalysisResults db' = AnalysisResults db /\
  EventLogs db' = EventLogs db ++ [mk_event (Some 7%nat) EVENT_FAILED 1%nat].
Proof.
  apply (@pipeline_properties.missing_halyk_module_fails_every_statement
           cpython.python no_pdf_text world_without_halyk csv_statement
           (pending csv_statement)); reflexivity.
Defined.

(** X20 on a statement whose file is not on disk. *)
Lemma missing_file_witness :
  let db := pending lost_statement in
  let db' := @process_statement_file _ _ world 3 db in
  @isfile world "lost.csv" = false /\
  option_map ProcessingStatus (find_statement db' 3) = Some COMPLETED /\
  Transactions db' = Transactions db /\
  exists result,
    AnalysisResults db' = AnalysisResults db ++ [result] /\
    AnalysisResult.StatementFileId result = 3%nat /\
    AnalysisResult.TotalIncome result = 0 /\
    AnalysisResult.TotalExpense result = 0 /\
    AnalysisResult.NetProfit result = 0 /\
    AnalysisResult.RecommendedTaxAmount result = 0.
Proof.
  cbv zeta. split; [reflexivity|].
  apply (@pipeline_properties.missing_file_is_completed_with_zeros
           cpython.python no_pdf_text world lost_statement
           (pending lost_statement)).
  - reflexivity.
  - reflexivity.
  - vm_compute. right. right. right. left. reflexivity.
  - reflexivity.
  - reflexivity.
Defined.

(** X21 on the CSV statement: accepted by the validator and served by a
    parser. *)
Lemma accepted_upload_witness :
  (upload.validate_file_extension "kaspi.csv" = Some "kaspi.csv" <->
   exists p, @get_parser_for_statement _ world csv_statement
             = Return (Some p)) /\
  (upload.validate_file_extension "kaspi.csv" = None <->
   @get_parser_for_statement _ world csv_statement = Return None).
Proof.
  apply (@pipeline_properties.accepted_upload_has_a_parser
           cpython.python world csv_statement).
  - reflexivity.
  - left. reflexivity.
Defined.

(** X25 on the CSV statement: after processing, its one income is shown
    under "Другое". *)
Lemma processed_statement_witness :
  let db' := @process_statement_file _ _ world 1 (pending csv_statement) in
  let ts := statement_query.statement_transactions [] db' 1 in
  let s :=
    detailed_analysis.detailed_summary
      (@detailed_analysis.summarize cformat.two_decimals ts
                                    salary_and_rent_analysis) in
  let incomes :=
    filter (fun x => Bool.eqb (Transaction.IsIncome (fst x)) true) ts in
  detailed_analysis.top_income_categories s
  = [detailed_analysis.mk_top "Другое" (of_Z 500000)] /\
  (forall x, In x ts -> snd x = None) /\
  detailed_analysis.top_income_categories s
  = match incomes with
    | [] => []
    | _ :: _ =>
        [detailed_analysis.mk_top
           "Другое"
           (py_sum (map (fun x => Transaction.Amount (fst x)) incomes))]
    end.
Proof.
  cbv zeta. split; [vm_compute; reflexivity|].
  apply (@processed_statement.processed_statement_is_filed_under_other
           cpython.python no_pdf_text world cformat.two_decimals
           [] 1%nat (pending csv_statement) salary_and_rent_analysis true).
  - intros statement F. cbn in F. inversion F. reflexivity.
  - constructor.
Defined.

End property_examples.
